(** * Lightning Polar Scripts: the two REST clients

    A shallow embedding of [lightning_polar_scripts/config.py],
    [lightning_polar_scripts/core_lightning.py] and
    [lightning_polar_scripts/lnd.py].

    Python values are the JSON-shaped values the clients exchange with the
    nodes; a call of a client method is a computation that records the HTTP
    requests it issues and ends by returning a value or raising an exception.
    The filesystem, the network and the wording of exceptions raised by
    Python itself or by the [requests] library are inputs (a [world]). *)

From Stdlib Require Import ZArith String Ascii List Lia DecimalString.
From Stdlib.Strings Require Import Byte.
From Stdlib Require DecimalPos DecimalZ.
From stdpp Require Import base gmap strings.
Import ListNotations.

Set Warnings "-register-all".

Open Scope string_scope.
Open Scope Z_scope.
Open Scope list_scope.

(** ** Python values *)

(** A Python [str] is a Rocq [string], one [ascii] per character: code
    points below 256.  A [float] is carried by its literal, no arithmetic
    is given to it. *)
Inductive pyval : Type :=
| PNone
| PBool (b : bool)
| PInt (z : Z)
| PFloat (lit : string)
| PStr (s : string)
| PList (l : list pyval)
| PDict (d : list (string * pyval)).

Inductive pytype : Type :=
| TNone | TBool | TInt | TFloat | TStr | TList | TDict.

Definition type_of (v : pyval) : pytype :=
  match v with
  | PNone => TNone
  | PBool _ => TBool
  | PInt _ => TInt
  | PFloat _ => TFloat
  | PStr _ => TStr
  | PList _ => TList
  | PDict _ => TDict
  end.

(** ** Exceptions *)

(** The built-in classes the clients raise themselves. *)
Inductive exc_class : Type :=
| ValueError
| ConnectionError
| RuntimeError.

(** How [requests] fails to obtain a response:
    [requests.exceptions.ConnectionError] (name resolution, refused
    connection, TLS handshake) or another [RequestException] (read timeout,
    too many redirects, invalid URL). *)
Inductive transport_error : Type :=
| ConnectFailed
| OtherRequestError.

(** Exceptions raised by Python or by a library, with what their text
    depends on. *)
Inductive fault : Type :=
| FTransport (k : transport_error) (url : string)
| FHttpStatus (status : Z) (url : string)
| FBadJson (url : string)
| FKey (k : string)
| FAttr (t : pytype) (attr : string)
| FSubscript (t : pytype)
| FIter (t : pytype)
| FAdd (t : pytype)
| FIntType (t : pytype)
| FIntLiteral (s : string)
| FUnpack (expected got : nat)
| FIndex
| FOpen (path : string).

Inductive exn : Type :=
| Lib (f : fault)
| Raised (c : exc_class) (msg : string).

(** ** Requests and replies *)

Inductive verify_mode : Type :=
| VerifyDefault
| VerifyOff
| VerifyWith (path : string).

Record http_request : Type := {
  rq_method : string;
  rq_url : string;
  rq_headers : list (string * string);
  rq_json : option pyval;
  rq_verify : verify_mode;
  rq_cert : option (string * string)
}.

(** [body = None]: the body is not a JSON text. *)
Inductive reply : Type :=
| NoResponse (k : transport_error)
| Response (status : Z) (body : option pyval).

(** What [response.json()] raises on a body that is not JSON:
    [requests.exceptions.JSONDecodeError], both a [RequestException] and a
    [json.JSONDecodeError] (requests 2.27 and later); the standard
    library's [json.JSONDecodeError] (before); or the decoder error of
    simplejson when requests uses it, a [ValueError] that is neither. *)
Inductive json_error_class : Type :=
| JsonRequestsError
| JsonStdlibError
| JsonOtherError.

Inductive fs_entry : Type :=
| NoEntry
| Directory
| File (content : option (list byte)).

Record world : Type := {
  fs : string -> fs_entry;
  net : http_request -> reply;
  (* str(e) for an exception the repository does not raise itself *)
  fault_text : fault -> string;
  (* str(Path(p)) *)
  path_str : string -> string;
  (* the installed requests decides what response.json() raises *)
  json_error : json_error_class
}.

(** ** Computations *)

(** [Beyond]: the input leaves the fragment of Python that is modelled;
    nothing is said about what the program does. *)
Inductive outcome (A : Type) : Type :=
| Ret (a : A)
| Raise (e : exn)
| Beyond.

Arguments Ret {A} a.
Arguments Raise {A} e.
Arguments Beyond {A}.

Definition M (A : Type) : Type := (list http_request * outcome A)%type.

Definition ret {A} (a : A) : M A := ([], Ret a).
Definition raise {A} (e : exn) : M A := ([], Raise e).
Definition lift {A} (o : outcome A) : M A := ([], o).

Definition bind {A B} (m : M A) (k : A -> M B) : M B :=
  match m with
  | (tr, Ret a) => let (tr', o) := k a in (tr ++ tr', o)
  | (tr, Raise e) => (tr, Raise e)
  | (tr, Beyond) => (tr, Beyond)
  end.

(** [try: m except ...: h e] *)
Definition catch {A} (m : M A) (h : exn -> M A) : M A :=
  match m with
  | (tr, Raise e) => let (tr', o) := h e in (tr ++ tr', o)
  | _ => m
  end.

Notation "'let*' x ':=' m 'in' k" := (bind m (fun x => k))
  (at level 10, x name, m at level 100, k at level 200).

Definition trace {A} (m : M A) : list http_request := fst m.
Definition result {A} (m : M A) : outcome A := snd m.

Definition obind {A B} (o : outcome A) (k : A -> outcome B) : outcome B :=
  match o with
  | Ret a => k a
  | Raise e => Raise e
  | Beyond => Beyond
  end.

(** ** Strings *)

Definition str_of_Z (z : Z) : string := NilZero.string_of_int (Z.to_int z).

Definition ascii_eqb (a b : ascii) : bool := Ascii.eqb a b.

(** [c in s] for a one-character [c]. *)
Fixpoint contains (c : ascii) (s : string) : bool :=
  match s with
  | EmptyString => false
  | String a s' => if ascii_eqb a c then true else contains c s'
  end.

(** [s.split(sep)] for a one-character separator. *)
Fixpoint split (sep : ascii) (s : string) : list string :=
  match s with
  | EmptyString => [EmptyString]
  | String a s' =>
      if ascii_eqb a sep then EmptyString :: split sep s'
      else match split sep s' with
           | [] => [String a EmptyString]
           | w :: ws => String a w :: ws
           end
  end.

Definition is_ascii (a : ascii) : bool := (nat_of_ascii a <? 128)%nat.

Fixpoint all_chars (p : ascii -> bool) (s : string) : bool :=
  match s with
  | EmptyString => true
  | String a s' => p a && all_chars p s'
  end.

Definition upper_char (a : ascii) : ascii :=
  let n := nat_of_ascii a in
  if ((97 <=? n) && (n <=? 122))%nat then ascii_of_nat (n - 32) else a.

Fixpoint map_chars (f : ascii -> ascii) (s : string) : string :=
  match s with
  | EmptyString => EmptyString
  | String a s' => String (f a) (map_chars f s')
  end.

(** [s.upper()], for ASCII strings. *)
Definition upper (s : string) : outcome string :=
  if all_chars is_ascii s then Ret (map_chars upper_char s) else Beyond.

(** Characters [str.strip()] removes, among ASCII ones. *)
Definition is_space (a : ascii) : bool :=
  let n := nat_of_ascii a in
  ((9 <=? n) && (n <=? 13) || (28 <=? n) && (n <=? 32))%nat.

Fixpoint lstrip (s : string) : string :=
  match s with
  | EmptyString => EmptyString
  | String a s' => if is_space a then lstrip s' else s
  end.

Fixpoint rstrip (s : string) : string :=
  match s with
  | EmptyString => EmptyString
  | String a s' =>
      match rstrip s' with
      | EmptyString => if is_space a then EmptyString else String a EmptyString
      | t => String a t
      end
  end.

Definition strip (s : string) : string := rstrip (lstrip s).

Definition hex_digit (n : N) : ascii :=
  match n with
  | 0%N => "0" | 1%N => "1" | 2%N => "2" | 3%N => "3" | 4%N => "4"
  | 5%N => "5" | 6%N => "6" | 7%N => "7" | 8%N => "8" | 9%N => "9"
  | 10%N => "a" | 11%N => "b" | 12%N => "c" | 13%N => "d" | 14%N => "e"
  | _ => "f"
  end%char.

(** [codecs.encode(bytes, 'hex').decode()] *)
Fixpoint hex_encode (bs : list byte) : string :=
  match bs with
  | [] => EmptyString
  | b :: bs' =>
      let n := Byte.to_N b in
      String (hex_digit (N.div n 16)) (String (hex_digit (N.modulo n 16)) (hex_encode bs'))
  end.

(** ** Python operations on values *)

Fixpoint dict_lookup (k : string) (d : list (string * pyval)) : option pyval :=
  match d with
  | [] => None
  | (k', v) :: d' => if String.eqb k' k then Some v else dict_lookup k d'
  end.

(** [v.get(k, default)]: only a [dict] has the method. *)
Definition py_get (v : pyval) (k : string) (default : pyval) : outcome pyval :=
  match v with
  | PDict d =>
      match dict_lookup k d with
      | Some x => Ret x
      | None => Ret default
      end
  | _ => Raise (Lib (FAttr (type_of v) "get"))
  end.

(** [v[k]] for a string [k]. *)
Definition py_item (v : pyval) (k : string) : outcome pyval :=
  match v with
  | PDict d =>
      match dict_lookup k d with
      | Some x => Ret x
      | None => Raise (Lib (FKey k))
      end
  | _ => Raise (Lib (FSubscript (type_of v)))
  end.

(** The elements a [for] loop over [v] visits. *)
Definition py_iter (v : pyval) : outcome (list pyval) :=
  match v with
  | PList l => Ret l
  | PDict d => Ret (map (fun kv => PStr (fst kv)) d)
  | PStr s => Ret (map (fun a => PStr (String a EmptyString)) (list_ascii_of_string s))
  | _ => Raise (Lib (FIter (type_of v)))
  end.

(** [acc + v] for an [int] accumulator. *)
Definition py_add_int (acc : Z) (v : pyval) : outcome Z :=
  match v with
  | PInt z => Ret (acc + z)
  | PBool b => Ret (acc + (if b then 1 else 0))
  | PFloat _ => Beyond
  | _ => Raise (Lib (FAdd (type_of v)))
  end.

(** Truth value of an [Optional[int]] and of an [Optional[str]]. *)
Definition truthy_int (o : option Z) : bool :=
  match o with
  | Some z => negb (z =? 0)
  | None => false
  end.

Definition truthy_str (o : option string) : bool :=
  match o with
  | Some s => negb (String.eqb s "")
  | None => false
  end.

(** *** [int(v)] *)

Definition is_digit (a : ascii) : bool :=
  let n := nat_of_ascii a in ((48 <=? n) && (n <=? 57))%nat.

Definition digit_val (a : ascii) : Z := Z.of_nat (nat_of_ascii a) - 48.

(** Whitespace [int()] skips around an ASCII literal. *)
Definition is_c_space (a : ascii) : bool :=
  let n := nat_of_ascii a in ((9 <=? n) && (n <=? 13) || (n =? 32))%nat.

(** Characters on which the result of [int()] is not modelled. *)
Definition is_unsure (a : ascii) : bool :=
  let n := nat_of_ascii a in ((28 <=? n) && (n <=? 31) || (128 <=? n))%nat.

(** Digits with single underscores between them, after a first digit;
    trailing whitespace allowed. [after_us]: the previous character was an
    underscore. *)
Fixpoint int_digits (acc : Z) (after_us : bool) (s : string) : option Z :=
  match s with
  | EmptyString => if after_us then None else Some acc
  | String a s' =>
      if is_digit a then int_digits (10 * acc + digit_val a) false s'
      else if ascii_eqb a "_" then
        if after_us then None else int_digits acc true s'
      else if is_c_space a then
        if after_us then None
        else if all_chars is_c_space s' then Some acc else None
      else None
  end.

Definition int_unsigned (s : string) : option Z :=
  match s with
  | String a s' => if is_digit a then int_digits (digit_val a) false s' else None
  | EmptyString => None
  end.

Fixpoint lstrip_c (s : string) : string :=
  match s with
  | EmptyString => EmptyString
  | String a s' => if is_c_space a then lstrip_c s' else s
  end.

Definition int_literal (s : string) : option Z :=
  match lstrip_c s with
  | String "+" s' => int_unsigned s'
  | String "-" s' => option_map Z.opp (int_unsigned s')
  | s' => int_unsigned s'
  end.

Definition py_int (v : pyval) : outcome Z :=
  match v with
  | PInt z => Ret z
  | PBool b => Ret (if b then 1 else 0)
  | PStr s =>
      if (4300 <? String.length s)%nat then Beyond
      else if negb (all_chars (fun a => negb (is_unsure a)) s) then Beyond
      else match int_literal s with
           | Some z => Ret z
           | None => Raise (Lib (FIntLiteral s))
           end
  | PFloat _ => Beyond
  | _ => Raise (Lib (FIntType (type_of v)))
  end.

(** ** config.py *)

Record NodeConfig : Type := {
  name : string;
  implementation : string;
  rpc_host : string;
  rpc_port : Z;
  rest_port : option Z;
  macaroon_path : option string;
  cert_path : option string;
  rune_path : option string;
  client_cert_path : option string;
  client_key_path : option string;
  ca_cert_path : option string;
  socket_path : option string
}.

Record PolarConfig : Type := {
  nodes : gmap string NodeConfig;
  polar_home : string;
  network_name : string
}.

(** ** What both clients use of [requests] *)

Definition str (W : world) (e : exn) : string :=
  match e with
  | Lib f => fault_text W f
  | Raised _ msg => msg
  end.

(** One call of [requests]: the request is issued, then either a response
    object or an exception of the library. *)
Definition http_send (W : world) (rq : http_request) : M (Z * option pyval) :=
  ([rq],
   match net W rq with
   | NoResponse k => Raise (Lib (FTransport k (rq_url rq)))
   | Response status body => Ret (status, body)
   end).

(** [response.raise_for_status()] *)
Definition raise_for_status (url : string) (response : Z * option pyval) : M unit :=
  let status := fst response in
  if (400 <=? status) && (status <? 600)
  then raise (Lib (FHttpStatus status url))
  else ret tt.

(** [response.json()] *)
Definition response_json (url : string) (response : Z * option pyval) : M pyval :=
  match snd response with
  | Some v => ret v
  | None => raise (Lib (FBadJson url))
  end.

(** [{out: v.get(key, default), ...}] *)
Fixpoint project (v : pyval) (fields : list (string * string * pyval))
  : outcome (list (string * pyval)) :=
  match fields with
  | [] => Ret []
  | (out, key, default) :: fields' =>
      obind (py_get v key default) (fun x =>
      obind (project v fields') (fun rest => Ret ((out, x) :: rest)))
  end.

(** [{out: int(v.get(key, 0)), ...}] *)
Fixpoint project_int (v : pyval) (fields : list string)
  : outcome (list (string * pyval)) :=
  match fields with
  | [] => Ret []
  | key :: fields' =>
      obind (py_get v key (PInt 0)) (fun x =>
      obind (py_int x) (fun z =>
      obind (project_int v fields') (fun rest => Ret ((key, PInt z) :: rest))))
  end.

(** [try: m except Exception as e: raise cls(f"{what} '{node}': {e}")] *)
Definition reraise (W : world) (cls : exc_class) (what node : string)
  (m : M pyval) : M pyval :=
  catch m (fun e => raise (Raised cls (what +:+ " '" +:+ node +:+ "': " +:+ str W e))).

Definition is_str (v : pyval) (s : string) : bool :=
  match v with
  | PStr s' => String.eqb s' s
  | _ => false
  end.

(** [f"{x}"] for an [Optional[int]] and an [Optional[str]]. *)
Definition format_opt_int (o : option Z) : string :=
  match o with
  | Some z => str_of_Z z
  | None => "None"
  end.

Definition format_opt_str (o : option string) : string :=
  match o with
  | Some s => s
  | None => "None"
  end.

(** [o or default] *)
Definition or_str (o : option string) (default : string) : string :=
  match o with
  | Some s => if truthy_str o then s else default
  | None => default
  end.

Definition or_int (o : option Z) (default : Z) : Z :=
  match o with
  | Some z => if truthy_int o then z else default
  | None => default
  end.

(** [f"{node_id}@{host}:{port}" if host and port else node_id] *)
Definition peer_address (node_id : string) (host : option string) (port : option Z)
  : string :=
  if truthy_str host && truthy_int port
  then node_id +:+ "@" +:+ format_opt_str host +:+ ":" +:+ format_opt_int port
  else node_id.

(** ** core_lightning.py *)

Module CoreLightningClient.

Record Session : Type := {
  headers : list (string * string);
  cert : option (string * string);
  verify : verify_mode
}.

Record t : Type := {
  node_config : NodeConfig;
  base_url : string;
  node_name : string;
  session : Session
}.

(** Universal newlines of a file opened in text mode. *)
Fixpoint newlines (s : string) : string :=
  match s with
  | EmptyString => EmptyString
  | String a s' =>
      if ascii_eqb a "013" then
        match s' with
        | String b s'' =>
            if ascii_eqb b "010" then String "010" (newlines s'')
            else String "010" (newlines s')
        | EmptyString => String "010" EmptyString
        end
      else String a (newlines s')
  end.

(** [open(path, 'r').read()]; only ASCII content is decoded here. *)
Definition read_text (W : world) (path : string) : outcome string :=
  match fs W path with
  | File (Some bytes) =>
      let s := string_of_list_byte bytes in
      if all_chars is_ascii s then Ret (newlines s) else Beyond
  | _ => Raise (Lib (FOpen path))
  end.

(** [payload = {}; if params: payload = params] *)
Definition payload_of (params : option (list (string * pyval))) : list (string * pyval) :=
  match params with
  | Some (kv :: p) => kv :: p
  | _ => []
  end.

Section WithWorld.

Variable W : world.

Definition _setup_auth (nc : NodeConfig) : outcome Session :=
  obind
    (if truthy_str (rune_path nc) then
       match rune_path nc with
       | Some p =>
           match read_text W p with
           | Ret text => Ret [("Rune", strip text)]
           | Raise _ => Ret []
           | Beyond => Beyond
           end
       | None => Ret []
       end
     else Ret [])
    (fun hs =>
       Ret {| headers := hs;
              cert := match client_cert_path nc, client_key_path nc with
                      | Some c, Some k =>
                          if truthy_str (client_cert_path nc)
                             && truthy_str (client_key_path nc)
                          then Some (c, k) else None
                      | _, _ => None
                      end;
              verify := match ca_cert_path nc with
                        | Some p => if truthy_str (ca_cert_path nc)
                                    then VerifyWith p else VerifyDefault
                        | None => VerifyDefault
                        end |}).

Definition __init__ (config : PolarConfig) (node_name : string) : M t :=
  match nodes config !! node_name with
  | None =>
      raise (Raised ValueError
               ("Node '" +:+ node_name +:+ "' not found in configuration"))
  | Some nc =>
      if negb (String.eqb (implementation nc) "CLN") then
        raise (Raised ValueError
                 ("Node '" +:+ node_name +:+ "' is not a Core Lightning node"))
      else if negb (truthy_int (rest_port nc)) then
        raise (Raised ValueError
                 ("REST port not configured for node '" +:+ node_name +:+ "'"))
      else
        let* s := lift (_setup_auth nc) in
        ret {| node_config := nc;
               base_url := "http://" +:+ rpc_host nc +:+ ":"
                           +:+ format_opt_int (rest_port nc);
               node_name := node_name;
               session := s |}
  end.

Variable self : t.

(** What [self.session.post(url, json=payload)] puts on the wire. *)
Definition request (url : string) (payload : list (string * pyval)) : http_request :=
  {| rq_method := "POST";
     rq_url := url;
     rq_headers := headers (session self);
     rq_json := Some (PDict payload);
     rq_verify := verify (session self);
     rq_cert := cert (session self) |}.

Definition post (url : string) (payload : list (string * pyval)) : M (Z * option pyval) :=
  http_send W (request url payload).

(** [f"{self.base_url}/v1/{method}"] *)
Definition url_of (method : string) : string := base_url self +:+ "/v1/" +:+ method.

Definition _make_request (method : string) (params : option (list (string * pyval)))
  : M pyval :=
  let url := url_of method in
  catch
    (let payload := payload_of params in
     let* response := post url payload in
     let* _ := raise_for_status url response in
     response_json url response)
    (fun e =>
       let connect := Raised ConnectionError
           ("Failed to connect to CLN node '" +:+ node_name self +:+ "': " +:+ str W e) in
       match e with
       | Lib (FTransport _ _) => raise connect
       | Lib (FHttpStatus _ _) => raise connect
       | Lib (FBadJson _) =>
           match json_error W with
           | JsonRequestsError => raise connect
           | JsonStdlibError =>
               raise (Raised RuntimeError
                        ("Invalid JSON response from CLN node '" +:+ node_name self
                         +:+ "': " +:+ str W e))
           | JsonOtherError => raise e
           end
       | _ => raise e
       end).

Definition get_info : M pyval :=
  reraise W ConnectionError "Failed to get info from CLN node" (node_name self)
    (let* info := _make_request "getinfo" None in
     let* d := lift (project info
       [("id", "id", PNone); ("alias", "alias", PNone); ("color", "color", PNone);
        ("num_peers", "num_peers", PNone);
        ("num_pending_channels", "num_pending_channels", PNone);
        ("num_active_channels", "num_active_channels", PNone);
        ("num_inactive_channels", "num_inactive_channels", PNone);
        ("blockheight", "blockheight", PNone); ("network", "network", PNone);
        ("version", "version", PNone)]) in
     ret (PDict d)).

(** [sum(output['amount_msat'] for output in ... if output.get('status') == 'confirmed')],
    from the accumulator [acc]. *)
Fixpoint sum_outputs (acc : Z) (outputs : list pyval) : outcome Z :=
  match outputs with
  | [] => Ret acc
  | output :: rest =>
      obind (py_get output "status" PNone) (fun status =>
      if is_str status "confirmed" then
        obind (py_item output "amount_msat") (fun amount =>
        obind (py_add_int acc amount) (fun acc' => sum_outputs acc' rest))
      else sum_outputs acc rest)
  end.

(** [sum(channel['our_amount_msat'] for channel in ...)] *)
Fixpoint sum_channels (acc : Z) (channels : list pyval) : outcome Z :=
  match channels with
  | [] => Ret acc
  | channel :: rest =>
      obind (py_item channel "our_amount_msat") (fun amount =>
      obind (py_add_int acc amount) (fun acc' => sum_channels acc' rest))
  end.

Definition get_balance : M pyval :=
  reraise W ConnectionError "Failed to get balance from CLN node" (node_name self)
    (let* balance := _make_request "listfunds" None in
     let* outputs := lift (obind (py_get balance "outputs" (PList [])) py_iter) in
     let* total_outputs := lift (sum_outputs 0 outputs) in
     let* channels := lift (obind (py_get balance "channels" (PList [])) py_iter) in
     let* total_channels := lift (sum_channels 0 channels) in
     ret (PInt ((total_outputs + total_channels) / 1000))).

(** The listing calls: [self._make_request(method).get(key, [])]. *)
Definition listing (cls : exc_class) (what method key : string) : M pyval :=
  reraise W cls what (node_name self)
    (let* r := _make_request method None in
     lift (py_get r key (PList []))).

Definition list_channels : M pyval :=
  listing ConnectionError "Failed to list channels from CLN node" "listchannels" "channels".

Definition list_peers : M pyval :=
  listing ConnectionError "Failed to list peers from CLN node" "listpeers" "peers".

Definition list_invoices : M pyval :=
  listing ConnectionError "Failed to list invoices from CLN node" "listinvoices" "invoices".

Definition list_payments : M pyval :=
  listing ConnectionError "Failed to list payments from CLN node" "listpays" "pays".

Definition create_invoice (amount_sats : Z) (label : string) (description : option string)
  : M pyval :=
  reraise W RuntimeError "Failed to create invoice on CLN node" (node_name self)
    (let amount_msat := amount_sats * 1000 in
     let params :=
       [("amount_msat", PInt amount_msat);
        ("label", PStr label);
        ("description", PStr (or_str description label))] in
     let* invoice := _make_request "invoice" (Some params) in
     let* d := lift (project invoice
       [("payment_hash", "payment_hash", PNone);
        ("payment_request", "bolt11", PNone);
        ("expires_at", "expires_at", PNone)]) in
     ret (PDict d)).

Definition pay_invoice (payment_request : string) (amount_sats : option Z) : M pyval :=
  reraise W RuntimeError "Failed to pay invoice on CLN node" (node_name self)
    (let params :=
       [("bolt11", PStr payment_request)]
       ++ match amount_sats with
          | Some a => if truthy_int amount_sats then [("amount_msat", PInt (a * 1000))] else []
          | None => []
          end in
     let* result := _make_request "pay" (Some params) in
     let* d := lift (project result
       [("payment_hash", "payment_hash", PNone);
        ("payment_preimage", "payment_preimage", PNone);
        ("amount_sent_msat", "amount_sent_msat", PNone);
        ("status", "status", PNone)]) in
     ret (PDict d)).

Definition connect_peer (node_id : string) (host : option string) (port : option Z)
  : M pyval :=
  reraise W RuntimeError "Failed to connect to peer on CLN node" (node_name self)
    (let address := peer_address node_id host port in
     let params := [("id", PStr address)] in
     let* _ := _make_request "connect" (Some params) in
     ret (PBool true)).

Definition open_channel (node_id : string) (amount_sats : Z) (push_sats : Z) : M pyval :=
  reraise W RuntimeError "Failed to open channel on CLN node" (node_name self)
    (let params :=
       [("id", PStr node_id); ("amount", PInt amount_sats)]
       ++ (if 0 <? push_sats then [("push_msat", PInt (push_sats * 1000))] else []) in
     let* result := _make_request "fundchannel" (Some params) in
     let* d := lift (project result
       [("funding_txid", "txid", PNone);
        ("funding_output", "outnum", PNone);
        ("channel_id", "channel_id", PNone)]) in
     ret (PDict d)).

Definition close_channel (channel_id : string) (force : bool) : M pyval :=
  reraise W RuntimeError "Failed to close channel on CLN node" (node_name self)
    (let params :=
       [("id", PStr channel_id)]
       ++ (if force then [("unilateraltimeout", PInt 1)] else []) in
     let* result := _make_request "close" (Some params) in
     let* d := lift (project result
       [("closing_txid", "txid", PNone); ("type", "type", PNone)]) in
     ret (PDict d)).

Definition decode_invoice (payment_request : string) : M pyval :=
  reraise W RuntimeError "Failed to decode invoice on CLN node" (node_name self)
    (let params := [("string", PStr payment_request)] in
     let* decoded := _make_request "decode" (Some params) in
     let* d := lift (project decoded
       [("payment_hash", "payment_hash", PNone);
        ("destination", "payee", PNone);
        ("amount_msat", "amount_msat", PNone);
        ("timestamp", "created_at", PNone);
        ("expiry", "expiry", PNone);
        ("description", "description", PNone)]) in
     ret (PDict d)).

Definition get_route (destination : string) (amount_sats : Z) : M pyval :=
  reraise W RuntimeError "Failed to get route on CLN node" (node_name self)
    (let amount_msat := amount_sats * 1000 in
     let params :=
       [("id", PStr destination);
        ("amount_msat", PInt amount_msat);
        ("riskfactor", PFloat "1.0")] in
     let* route := _make_request "getroute" (Some params) in
     lift (py_get route "route" (PList []))).

End WithWorld.

(** The public operations, as values, and their dispatch. *)
Inductive op : Type :=
| GetInfo
| GetBalance
| ListChannels
| ListPeers
| CreateInvoice (amount_sats : Z) (label : string) (description : option string)
| ListInvoices
| PayInvoice (payment_request : string) (amount_sats : option Z)
| ListPayments
| ConnectPeer (node_id : string) (host : option string) (port : option Z)
| OpenChannel (node_id : string) (amount_sats push_sats : Z)
| CloseChannel (channel_id : string) (force : bool)
| DecodeInvoice (payment_request : string)
| GetRoute (destination : string) (amount_sats : Z).

Definition call (W : world) (self : t) (o : op) : M pyval :=
  match o with
  | GetInfo => get_info W self
  | GetBalance => get_balance W self
  | ListChannels => list_channels W self
  | ListPeers => list_peers W self
  | CreateInvoice a l d => create_invoice W self a l d
  | ListInvoices => list_invoices W self
  | PayInvoice pr a => pay_invoice W self pr a
  | ListPayments => list_payments W self
  | ConnectPeer n h p => connect_peer W self n h p
  | OpenChannel n a p => open_channel W self n a p
  | CloseChannel c f => close_channel W self c f
  | DecodeInvoice pr => decode_invoice W self pr
  | GetRoute d a => get_route W self d a
  end.

(** The class named in the [raise] of each operation's [except] clause. *)
Definition raised_class (o : op) : exc_class :=
  match o with
  | GetInfo | GetBalance | ListChannels | ListPeers | ListInvoices | ListPayments =>
      ConnectionError
  | _ => RuntimeError
  end.

(** The words before the node name in that clause's message. *)
Definition raised_what (o : op) : string :=
  match o with
  | GetInfo => "Failed to get info from CLN node"
  | GetBalance => "Failed to get balance from CLN node"
  | ListChannels => "Failed to list channels from CLN node"
  | ListPeers => "Failed to list peers from CLN node"
  | CreateInvoice _ _ _ => "Failed to create invoice on CLN node"
  | ListInvoices => "Failed to list invoices from CLN node"
  | PayInvoice _ _ => "Failed to pay invoice on CLN node"
  | ListPayments => "Failed to list payments from CLN node"
  | ConnectPeer _ _ _ => "Failed to connect to peer on CLN node"
  | OpenChannel _ _ _ => "Failed to open channel on CLN node"
  | CloseChannel _ _ => "Failed to close channel on CLN node"
  | DecodeInvoice _ => "Failed to decode invoice on CLN node"
  | GetRoute _ _ => "Failed to get route on CLN node"
  end.

Definition is_listing (o : op) : bool :=
  match o with
  | ListChannels | ListPeers | ListInvoices | ListPayments => true
  | _ => false
  end.

End CoreLightningClient.

(** ** lnd.py *)

Module LNDClient.

Record t : Type := {
  node_config : NodeConfig;
  node_name : string;
  base_url : string;
  headers : list (string * string);
  verify : verify_mode
}.

(** [Path(p).exists()] *)
Definition exists_ (W : world) (path : string) : bool :=
  match fs W path with
  | NoEntry => false
  | _ => true
  end.

(** [open(path, 'rb').read()] *)
Definition read_bytes (W : world) (path : string) : outcome (list byte) :=
  match fs W path with
  | File (Some bytes) => Ret bytes
  | _ => Raise (Lib (FOpen path))
  end.

(** [l[i]] on the result of a [split]. *)
Definition item_at (l : list string) (i : nat) : outcome string :=
  match nth_error l i with
  | Some s => Ret s
  | None => Raise (Lib FIndex)
  end.

Section WithWorld.

Variable W : world.

Definition macaroon_headers (nc : NodeConfig) : outcome (list (string * string)) :=
  match macaroon_path nc with
  | Some p =>
      if truthy_str (macaroon_path nc) && exists_ W p then
        obind (read_bytes W p) (fun macaroon_bytes =>
        Ret [("Grpc-Metadata-macaroon", hex_encode macaroon_bytes)])
      else Ret []
  | None => Ret []
  end.

Definition ssl_verify (nc : NodeConfig) : verify_mode :=
  match cert_path nc with
  | Some p =>
      if truthy_str (cert_path nc) && exists_ W p
      then VerifyWith (path_str W p) else VerifyOff
  | None => VerifyOff
  end.

Definition _setup_rest_client (nc : NodeConfig) (node_name : string) : outcome t :=
  let rest_port := or_int (rest_port nc) 8080 in
  let base_url := "https://" +:+ rpc_host nc +:+ ":" +:+ str_of_Z rest_port in
  obind (macaroon_headers nc) (fun hs =>
  Ret {| node_config := nc;
         node_name := node_name;
         base_url := base_url;
         headers := hs;
         verify := ssl_verify nc |}).

Definition __init__ (config : PolarConfig) (node_name : string) : M t :=
  match nodes config !! node_name with
  | None =>
      raise (Raised ValueError
               ("Node '" +:+ node_name +:+ "' not found in configuration"))
  | Some nc =>
      if negb (String.eqb (implementation nc) "LND") then
        raise (Raised ValueError ("Node '" +:+ node_name +:+ "' is not an LND node"))
      else lift (_setup_rest_client nc node_name)
  end.

Variable self : t.

(** What [requests.get/post/delete(url, headers=self.headers, json=data,
    verify=self.verify)] puts on the wire. *)
Definition request (method url : string) (data : option pyval) : http_request :=
  {| rq_method := method;
     rq_url := url;
     rq_headers := headers self;
     rq_json := data;
     rq_verify := verify self;
     rq_cert := None |}.

Definition send (method url : string) (data : option pyval) : M (Z * option pyval) :=
  http_send W (request method url data).

Definition _make_request (method endpoint : string) (data : option (list (string * pyval)))
  : M pyval :=
  let url := base_url self +:+ endpoint in
  catch
    (let* m := lift (upper method) in
     let* response :=
       if String.eqb m "GET" then send "GET" url None
       else if String.eqb m "POST" then send "POST" url (option_map PDict data)
       else if String.eqb m "DELETE" then send "DELETE" url None
       else raise (Raised ValueError ("Unsupported HTTP method: " +:+ method)) in
     let* _ := raise_for_status url response in
     response_json url response)
    (fun e =>
       let request_error := Raised RuntimeError
           ("Request error from LND node '" +:+ node_name self +:+ "': " +:+ str W e) in
       match e with
       | Lib (FTransport ConnectFailed _) =>
           raise (Raised ConnectionError
                    ("Failed to connect to LND node '" +:+ node_name self +:+ "' at "
                     +:+ url +:+ ": " +:+ str W e))
       | Lib (FHttpStatus _ _) =>
           raise (Raised RuntimeError
                    ("HTTP error from LND node '" +:+ node_name self +:+ "': " +:+ str W e))
       | Lib (FTransport OtherRequestError _) => raise request_error
       | Lib (FBadJson _) =>
           match json_error W with
           | JsonRequestsError => raise request_error
           | JsonStdlibError =>
               raise (Raised RuntimeError
                        ("Invalid JSON response from LND node '" +:+ node_name self
                         +:+ "': " +:+ str W e))
           | JsonOtherError => raise e
           end
       | _ => raise e
       end).

Definition get_info : M pyval :=
  reraise W ConnectionError "Failed to get info from LND node" (node_name self)
    (let* response := _make_request "GET" "/v1/getinfo" None in
     let* d := lift (project response
       [("identity_pubkey", "identity_pubkey", PNone); ("alias", "alias", PNone);
        ("color", "color", PNone); ("num_peers", "num_peers", PInt 0);
        ("num_pending_channels", "num_pending_channels", PInt 0);
        ("num_active_channels", "num_active_channels", PInt 0);
        ("num_inactive_channels", "num_inactive_channels", PInt 0);
        ("block_height", "block_height", PNone);
        ("synced_to_chain", "synced_to_chain", PNone);
        ("synced_to_graph", "synced_to_graph", PNone);
        ("version", "version", PNone)]) in
     ret (PDict d)).

(** [int(response.get(key, 0))] *)
Definition int_field (response : pyval) (key : string) : outcome Z :=
  obind (py_get response key (PInt 0)) py_int.

Definition get_balance : M pyval :=
  reraise W ConnectionError "Failed to get balance from LND node" (node_name self)
    (let* wallet_response := _make_request "GET" "/v1/balance/blockchain" None in
     let* wallet_balance := lift (int_field wallet_response "confirmed_balance") in
     let* channel_response := _make_request "GET" "/v1/balance/channels" None in
     let* channel_balance := lift (int_field channel_response "balance") in
     ret (PInt (wallet_balance + channel_balance))).

Definition listing (cls : exc_class) (what endpoint key : string) : M pyval :=
  reraise W cls what (node_name self)
    (let* response := _make_request "GET" endpoint None in
     lift (py_get response key (PList []))).

Definition list_channels : M pyval :=
  listing ConnectionError "Failed to list channels from LND node" "/v1/channels" "channels".

Definition list_peers : M pyval :=
  listing ConnectionError "Failed to list peers from LND node" "/v1/peers" "peers".

Definition create_invoice (amount_sats : Z) (memo : option string) (expiry : Z) : M pyval :=
  reraise W RuntimeError "Failed to create invoice on LND node" (node_name self)
    (let data :=
       [("value", PStr (str_of_Z amount_sats));
        ("memo", PStr (or_str memo ("Invoice for " +:+ str_of_Z amount_sats +:+ " sats")));
        ("expiry", PStr (str_of_Z expiry))] in
     let* response := _make_request "POST" "/v1/invoices" (Some data) in
     let* d := lift (project response
       [("payment_hash", "r_hash", PNone);
        ("payment_request", "payment_request", PNone);
        ("add_index", "add_index", PNone)]) in
     ret (PDict d)).

Definition pay_invoice (payment_request : string) (amount_sats : option Z) : M pyval :=
  reraise W RuntimeError "Failed to pay invoice on LND node" (node_name self)
    (let data :=
       [("payment_request", PStr payment_request)]
       ++ match amount_sats with
          | Some a => if truthy_int amount_sats then [("amt", PInt a)] else []
          | None => []
          end in
     let* response := _make_request "POST" "/v1/channels/transactions" (Some data) in
     let* d := lift (project response
       [("payment_hash", "payment_hash", PNone);
        ("payment_preimage", "payment_preimage", PNone);
        ("payment_route", "payment_route", PNone)]) in
     ret (PDict d)).

Definition connect_peer (node_id : string) (host : option string) (port : option Z)
  : M pyval :=
  reraise W RuntimeError "Failed to connect to peer on LND node" (node_name self)
    (let address := peer_address node_id host port in
     let* pubkey := lift (if contains "@" node_id
                          then item_at (split "@" node_id) 0
                          else Ret node_id) in
     let* peer_host := lift (if contains "@" address
                             then item_at (split "@" address) 1
                             else if truthy_str host && truthy_int port
                                  then Ret (format_opt_str host +:+ ":" +:+ format_opt_int port)
                                  else Ret "") in
     let data := [("addr", PDict [("pubkey", PStr pubkey); ("host", PStr peer_host)])] in
     let* _ := _make_request "POST" "/v1/peers" (Some data) in
     ret (PBool true)).

Definition open_channel (node_id : string) (amount_sats : Z) (push_sats : Z) : M pyval :=
  reraise W RuntimeError "Failed to open channel on LND node" (node_name self)
    (let data :=
       [("node_pubkey_string", PStr node_id);
        ("local_funding_amount", PStr (str_of_Z amount_sats));
        ("push_sat", PStr (if 0 <? push_sats then str_of_Z push_sats else "0"))] in
     let* response := _make_request "POST" "/v1/channels" (Some data) in
     let* d := lift (project response
       [("funding_txid", "funding_txid", PNone);
        ("output_index", "output_index", PNone)]) in
     ret (PDict d)).

Definition close_channel (channel_point : string) (force : bool) : M pyval :=
  reraise W RuntimeError "Failed to close channel on LND node" (node_name self)
    (let* parts := match split ":" channel_point with
                   | [txid; output_index] => ret (txid, output_index)
                   | l => raise (Lib (FUnpack 2 (length l)))
                   end in
     let endpoint := "/v1/channels/" +:+ fst parts +:+ "/" +:+ snd parts
                     +:+ (if force then "?force=true" else "") in
     let* response := _make_request "DELETE" endpoint None in
     let* d := lift (project response [("closing_txid", "closing_txid", PNone)]) in
     ret (PDict d)).

Definition decode_invoice (payment_request : string) : M pyval :=
  reraise W RuntimeError "Failed to decode invoice on LND node" (node_name self)
    (let endpoint := "/v1/payreq/" +:+ payment_request in
     let* response := _make_request "GET" endpoint None in
     let* d1 := lift (project response
       [("payment_hash", "payment_hash", PNone); ("destination", "destination", PNone)]) in
     let* d2 := lift (project_int response ["num_satoshis"; "timestamp"; "expiry"]) in
     let* d3 := lift (project response [("description", "description", PNone)]) in
     ret (PDict (d1 ++ d2 ++ d3))).

Definition get_route (destination : string) (amount_sats : Z) : M pyval :=
  reraise W RuntimeError "Failed to get route on LND node" (node_name self)
    (let data := [("pub_key", PStr destination); ("amt", PInt amount_sats)] in
     let* response := _make_request "POST" "/v1/graph/routes" (Some data) in
     lift (py_get response "routes" (PList []))).

Definition get_wallet_balance : M pyval :=
  reraise W RuntimeError "Failed to get wallet balance from LND node" (node_name self)
    (let* response := _make_request "GET" "/v1/balance/blockchain" None in
     let* d := lift (project_int response
       ["confirmed_balance"; "unconfirmed_balance"; "total_balance"]) in
     ret (PDict d)).

Definition get_channel_balance : M pyval :=
  reraise W RuntimeError "Failed to get channel balance from LND node" (node_name self)
    (let* response := _make_request "GET" "/v1/balance/channels" None in
     let* d := lift (project_int response ["balance"; "pending_open_balance"]) in
     ret (PDict d)).

Definition list_invoices (pending_only : bool) : M pyval :=
  listing RuntimeError "Failed to list invoices from LND node"
    ("/v1/invoices" +:+ (if pending_only then "?pending_only=true" else "")) "invoices".

Definition list_payments : M pyval :=
  listing RuntimeError "Failed to list payments from LND node" "/v1/payments" "payments".

End WithWorld.

(** The public operations, as values, and their dispatch. *)
Inductive op : Type :=
| GetInfo
| GetBalance
| ListChannels
| ListPeers
| CreateInvoice (amount_sats : Z) (memo : option string) (expiry : Z)
| PayInvoice (payment_request : string) (amount_sats : option Z)
| ConnectPeer (node_id : string) (host : option string) (port : option Z)
| OpenChannel (node_id : string) (amount_sats push_sats : Z)
| CloseChannel (channel_point : string) (force : bool)
| DecodeInvoice (payment_request : string)
| GetRoute (destination : string) (amount_sats : Z)
| GetWalletBalance
| GetChannelBalance
| ListInvoices (pending_only : bool)
| ListPayments.

Definition call (W : world) (self : t) (o : op) : M pyval :=
  match o with
  | GetInfo => get_info W self
  | GetBalance => get_balance W self
  | ListChannels => list_channels W self
  | ListPeers => list_peers W self
  | CreateInvoice a m e => create_invoice W self a m e
  | PayInvoice pr a => pay_invoice W self pr a
  | ConnectPeer n h p => connect_peer W self n h p
  | OpenChannel n a p => open_channel W self n a p
  | CloseChannel c f => close_channel W self c f
  | DecodeInvoice pr => decode_invoice W self pr
  | GetRoute d a => get_route W self d a
  | GetWalletBalance => get_wallet_balance W self
  | GetChannelBalance => get_channel_balance W self
  | ListInvoices p => list_invoices W self p
  | ListPayments => list_payments W self
  end.

End LNDClient.

(** ** The properties, in the specification's words *)

Definition sum_Z (l : list Z) : Z := fold_right Z.add 0 l.

Definition is_dict (v : pyval) : bool :=
  match v with
  | PDict _ => true
  | _ => false
  end.

(** The integer under [key] of a record. *)
Definition amount_of (key : string) (v : pyval) : Z :=
  match v with
  | PDict d =>
      match dict_lookup key d with
      | Some (PInt z) => z
      | _ => 0
      end
  | _ => 0
  end.

Definition has_int (key : string) (v : pyval) : bool :=
  match v with
  | PDict d =>
      match dict_lookup key d with
      | Some (PInt _) => true
      | _ => false
      end
  | _ => false
  end.

(** An output whose status equals "confirmed". *)
Definition is_confirmed (output : pyval) : bool :=
  match output with
  | PDict d =>
      match dict_lookup "status" d with
      | Some status => is_str status "confirmed"
      | None => false
      end
  | _ => false
  end.

Definition confirmed_msat (outputs : list pyval) : Z :=
  sum_Z (map (amount_of "amount_msat") (List.filter is_confirmed outputs)).

Definition local_msat (channels : list pyval) : Z :=
  sum_Z (map (amount_of "our_amount_msat") channels).

(** A [listfunds] response as CLN sends it: records, integer amounts. An
    unconfirmed output needs no amount. *)
Definition listfunds_output (v : pyval) : bool :=
  is_dict v && (negb (is_confirmed v) || has_int "amount_msat" v).

Definition listfunds_channel (v : pyval) : bool := has_int "our_amount_msat" v.

(** A reply that carries a JSON body and no error status. *)
Definition answers (r : reply) (body : pyval) : Prop :=
  exists status,
    r = Response status (Some body) /\ (400 <=? status) && (status <? 600) = false.

(** A reply on which [requests] raises: no response, an error status, or a
    body that is not JSON. *)
Definition fails (r : reply) : Prop :=
  match r with
  | NoResponse _ => True
  | Response status body =>
      (400 <=? status) && (status <? 600) = true \/ body = None
  end.

(** A request that carries the headers the LND client holds. *)
Definition carries_headers (self : LNDClient.t) (rq : http_request) : Prop :=
  rq_headers rq = LNDClient.headers self.

(** ** Example data *)

Definition no_paths (n impl host : string) (port : Z) (rest : option Z) : NodeConfig :=
  {| name := n; implementation := impl; rpc_host := host; rpc_port := port;
     rest_port := rest; macaroon_path := None; cert_path := None;
     rune_path := None; client_cert_path := None; client_key_path := None;
     ca_cert_path := None; socket_path := None |}.

Definition bob : NodeConfig := no_paths "bob" "CLN" "127.0.0.1" 0 (Some 8182).

Definition alice : NodeConfig :=
  {| name := "alice"; implementation := "LND"; rpc_host := "127.0.0.1";
     rpc_port := 11002; rest_port := None;
     macaroon_path := Some "/lnd/admin.macaroon"; cert_path := None;
     rune_path := None; client_cert_path := None; client_key_path := None;
     ca_cert_path := None; socket_path := None |}.

(** A CLN node whose REST port is the number 0. *)
Definition carol : NodeConfig := no_paths "carol" "CLN" "127.0.0.1" 0 (Some 0).

Definition demo_config : PolarConfig :=
  {| nodes := <["alice" := alice]> (<["bob" := bob]> (<["carol" := carol]> ∅));
     polar_home := "~/.polar";
     network_name := "default" |}.

Definition demo_fs (path : string) : fs_entry :=
  if String.eqb path "/lnd/admin.macaroon" then File (Some [x02; x01; xff]) else NoEntry.

(** CPython's wording, where the examples show a text. *)
Definition demo_text (f : fault) : string :=
  match f with
  | FUnpack expected got =>
      "not enough values to unpack (expected " +:+ str_of_Z (Z.of_nat expected)
      +:+ ", got " +:+ str_of_Z (Z.of_nat got) +:+ ")"
  | FHttpStatus status url =>
      (if status =? 500 then "500 Server Error: Internal Server Error"
       else str_of_Z status +:+ " Error") +:+ " for url: " +:+ url
  | FTransport _ url => "Connection refused: " +:+ url
  | _ => "error"
  end.

Definition demo_world (n : http_request -> reply) : world :=
  {| fs := demo_fs; net := n; fault_text := demo_text; path_str := fun p => p;
     json_error := JsonRequestsError |}.

Definition always (r : reply) : http_request -> reply := fun _ => r.

Definition demo_cln : CoreLightningClient.t :=
  {| CoreLightningClient.node_config := bob;
     CoreLightningClient.base_url := "http://127.0.0.1:8182";
     CoreLightningClient.node_name := "bob";
     CoreLightningClient.session :=
       {| CoreLightningClient.headers := [];
          CoreLightningClient.cert := None;
          CoreLightningClient.verify := VerifyDefault |} |}.

Definition demo_lnd : LNDClient.t :=
  {| LNDClient.node_config := alice;
     LNDClient.node_name := "alice";
     LNDClient.base_url := "https://127.0.0.1:8080";
     LNDClient.headers := [("Grpc-Metadata-macaroon", "0201ff")];
     LNDClient.verify := VerifyOff |}.

Definition demo_funds : pyval :=
  PDict [("outputs",
          PList [PDict [("txid", PStr "aa"); ("amount_msat", PInt 1500999);
                        ("status", PStr "confirmed")];
                 PDict [("txid", PStr "bb"); ("amount_msat", PInt 700000);
                        ("status", PStr "unconfirmed")];
                 PDict [("txid", PStr "cc"); ("status", PStr "immature")]]);
         ("channels",
          PList [PDict [("peer_id", PStr "02"); ("our_amount_msat", PInt 2000500)]])].

(** LND: 500 confirmed and 100 unconfirmed sats on chain, 300 sats in channels. *)
Definition demo_lnd_net (rq : http_request) : reply :=
  if String.eqb (rq_url rq) "https://127.0.0.1:8080/v1/balance/blockchain" then
    Response 200 (Some (PDict [("total_balance", PStr "600");
                               ("confirmed_balance", PStr "500");
                               ("unconfirmed_balance", PStr "100")]))
  else if String.eqb (rq_url rq) "https://127.0.0.1:8080/v1/balance/channels" then
    Response 200 (Some (PDict [("balance", PStr "300");
                               ("pending_open_balance", PStr "0")]))
  else Response 404 None.

(** ** config.py: loading a configuration *)

(** What config.py asks of the process and of [pathlib].  A [Path] is
    carried by its [str]; each field stands for one library call. *)
Record host : Type := {
  (* os.getenv(key), once load_dotenv() has run *)
  getenv : string -> option string;
  (* str(Path(p).expanduser()) *)
  expanduser : string -> outcome string;
  (* str(Path(p) / q) *)
  path_join : string -> string -> string;
  (* Path(p).name *)
  path_name : string -> string;
  (* str(Path(p).parent) *)
  path_parent : string -> string;
  (* Path(p).exists() *)
  path_exists : string -> outcome bool;
  (* Path(p).is_dir() *)
  path_is_dir : string -> outcome bool;
  (* [str(c) for c in Path(p).iterdir()] *)
  path_iterdir : string -> outcome (list string);
  (* [str(c) for c in Path(p).glob(pattern)] *)
  path_glob : string -> string -> outcome (list string)
}.

(** [os.getenv(key, default)] *)
Definition getenv_default (H : host) (key default : string) : string :=
  match getenv H key with
  | Some v => v
  | None => default
  end.

(** [int(v) if v else default], on a variable of the environment. *)
Definition env_int (v : option string) (default : option Z) : outcome (option Z) :=
  match v with
  | Some s => if truthy_str v then obind (py_int (PStr s)) (fun z => Ret (Some z))
              else Ret default
  | None => Ret default
  end.

(** The node 'bob' of [load_config_from_env], when it is defined. *)
Definition env_cln_node (H : host) : outcome (option NodeConfig) :=
  let cln_socket := getenv H "CLN_SOCKET_PATH" in
  let cln_host := getenv_default H "CLN_HOST" "localhost" in
  let cln_rest_port := getenv H "CLN_REST_PORT" in
  if truthy_str cln_socket || truthy_str cln_rest_port then
    obind (if truthy_str cln_socket then Ret 0
           else py_int (PStr (format_opt_str cln_rest_port)))
      (fun port =>
    obind (env_int cln_rest_port None) (fun rest =>
    Ret (Some {| name := "bob";
                 implementation := "CLN";
                 rpc_host := cln_host;
                 rpc_port := port;
                 rest_port := rest;
                 macaroon_path := None;
                 cert_path := None;
                 rune_path := getenv H "CLN_RUNE_PATH";
                 client_cert_path := getenv H "CLN_CLIENT_CERT_PATH";
                 client_key_path := getenv H "CLN_CLIENT_KEY_PATH";
                 ca_cert_path := getenv H "CLN_CA_CERT_PATH";
                 socket_path := cln_socket |})))
  else Ret None.

(** The node 'alice' of [load_config_from_env], when it is defined. *)
Definition env_lnd_node (H : host) : outcome (option NodeConfig) :=
  let lnd_host := getenv_default H "LND_HOST" "localhost" in
  let lnd_port := getenv H "LND_PORT" in
  let lnd_rest_port := getenv H "LND_REST_PORT" in
  if truthy_str lnd_port || truthy_str lnd_rest_port then
    obind (env_int lnd_port (Some 10001)) (fun port =>
    obind (env_int lnd_rest_port None) (fun rest =>
    Ret (Some {| name := "alice";
                 implementation := "LND";
                 rpc_host := lnd_host;
                 rpc_port := match port with Some z => z | None => 10001 end;
                 rest_port := rest;
                 macaroon_path := getenv H "LND_MACAROON_PATH";
                 cert_path := getenv H "LND_CERT_PATH";
                 rune_path := None;
                 client_cert_path := None;
                 client_key_path := None;
                 ca_cert_path := None;
                 socket_path := None |})))
  else Ret None.

(** [nodes[key] = node], when there is a node. *)
Definition add_node (key : string) (node : option NodeConfig)
  (nodes : gmap string NodeConfig) : gmap string NodeConfig :=
  match node with
  | Some nc => <[key := nc]> nodes
  | None => nodes
  end.

Definition load_config_from_env (H : host) : outcome PolarConfig :=
  obind (env_cln_node H) (fun bob =>
  obind (env_lnd_node H) (fun alice =>
  Ret {| nodes := add_node "alice" alice (add_node "bob" bob ∅);
         polar_home := "~/.polar";
         network_name := "default" |})).

Definition get_polar_home (H : host) : outcome string :=
  expanduser H (getenv_default H "POLAR_HOME" "~/.polar").

(** The loop of [find_polar_networks] over the entries of the directory. *)
Fixpoint scan_networks (H : host) (entries : list string) : outcome (list string) :=
  match entries with
  | [] => Ret []
  | network_dir :: rest =>
      obind (path_is_dir H network_dir) (fun is_dir =>
      if is_dir then
        obind (path_exists H (path_join H network_dir "docker-compose.yml")) (fun found =>
        obind (scan_networks H rest) (fun networks =>
        Ret (if found then path_name H network_dir :: networks else networks)))
      else scan_networks H rest)
  end.

Definition find_polar_networks (H : host) : outcome (list string) :=
  obind (get_polar_home H) (fun polar_home =>
  let networks_dir := path_join H polar_home "networks" in
  obind (path_exists H networks_dir) (fun found =>
  if found then obind (path_iterdir H networks_dir) (scan_networks H)
  else Ret [])).

(** The node a [volumes/*/lightningd] directory stands for. *)
Definition polar_cln_node (H : host) (cln_dir : string) : NodeConfig :=
  {| name := path_name H (path_parent H cln_dir);
     implementation := "CLN";
     rpc_host := "127.0.0.1";
     rpc_port := 0;
     rest_port := Some 8182;
     macaroon_path := None;
     cert_path := None;
     rune_path := Some (path_join H cln_dir "admin.rune");
     client_cert_path := Some (path_join H (path_join H cln_dir "regtest") "client.pem");
     client_key_path := Some (path_join H (path_join H cln_dir "regtest") "client-key.pem");
     ca_cert_path := Some (path_join H (path_join H cln_dir "regtest") "ca.pem");
     socket_path := None |}.

(** The node a [volumes/*/lnd] directory stands for. *)
Definition polar_lnd_node (H : host) (lnd_dir : string) : NodeConfig :=
  {| name := path_name H (path_parent H lnd_dir);
     implementation := "LND";
     rpc_host := "127.0.0.1";
     rpc_port := 11002;
     rest_port := Some 8081;
     macaroon_path :=
       Some (path_join H
               (path_join H
                  (path_join H
                     (path_join H (path_join H lnd_dir "data") "chain") "bitcoin")
                  "regtest")
               "admin.macaroon");
     cert_path := Some (path_join H lnd_dir "tls.cert");
     rune_path := None;
     client_cert_path := None;
     client_key_path := None;
     ca_cert_path := None;
     socket_path := None |}.

(** [for d in dirs: nodes[d.parent.name] = node(d)] *)
Definition add_dirs (node : string -> NodeConfig) (dirs : list string)
  (nodes : gmap string NodeConfig) : gmap string NodeConfig :=
  fold_left (fun m d => <[name (node d) := node d]> m) dirs nodes.

Definition load_polar_network_config (H : host) (network_name : option string)
  : outcome PolarConfig :=
  obind (match network_name with
         | None =>
             obind (find_polar_networks H) (fun networks =>
             match networks with
             | [] => Raise (Raised ValueError "No Polar networks found")
             | first :: _ => Ret first
             end)
         | Some n => Ret n
         end) (fun network_name =>
  obind (get_polar_home H) (fun polar_home =>
  let network_dir := path_join H (path_join H polar_home "networks") network_name in
  obind (path_exists H network_dir) (fun found =>
  if negb found then
    Raise (Raised ValueError ("Network '" +:+ network_name +:+ "' not found"))
  else
    obind (path_glob H network_dir "volumes/*/lightningd") (fun cln_dirs =>
    let nodes := add_dirs (polar_cln_node H) cln_dirs ∅ in
    obind (path_glob H network_dir "volumes/*/lnd") (fun lnd_dirs =>
    let nodes := add_dirs (polar_lnd_node H) lnd_dirs nodes in
    Ret {| nodes := nodes;
           polar_home := polar_home;
           network_name := network_name |}))))).

(** The configuration [load_config] makes up when nothing else loads. *)
Definition default_config : PolarConfig :=
  {| nodes :=
       <["bob" :=
          {| name := "bob"; implementation := "CLN"; rpc_host := "127.0.0.1";
             rpc_port := 0; rest_port := Some 8182;
             macaroon_path := None; cert_path := None;
             rune_path :=
               Some "/Users/walter/.polar/networks/2/volumes/c-lightning/bob/lightningd/admin.rune";
             client_cert_path :=
               Some "/Users/walter/.polar/networks/2/volumes/c-lightning/bob/lightningd/regtest/client.pem";
             client_key_path :=
               Some "/Users/walter/.polar/networks/2/volumes/c-lightning/bob/lightningd/regtest/client-key.pem";
             ca_cert_path :=
               Some "/Users/walter/.polar/networks/2/volumes/c-lightning/bob/lightningd/regtest/ca.pem";
             socket_path := None |}]>
       (<["alice" :=
           {| name := "alice"; implementation := "LND"; rpc_host := "127.0.0.1";
              rpc_port := 11002; rest_port := Some 8080;
              macaroon_path :=
                Some "/Users/walter/.polar/networks/2/volumes/lnd/alice/data/chain/bitcoin/regtest/admin.macaroon";
              cert_path := Some "/Users/walter/.polar/networks/2/volumes/lnd/alice/tls.cert";
              rune_path := None; client_cert_path := None; client_key_path := None;
              ca_cert_path := None; socket_path := None |}]> ∅);
     polar_home := "~/.polar";
     network_name := "default" |}.

(** [if env_config.nodes:] *)
Definition has_nodes (c : PolarConfig) : bool := negb (Nat.eqb (size (nodes c)) 0).

Definition load_config (H : host) : outcome PolarConfig :=
  obind (load_config_from_env H) (fun env_config =>
  if has_nodes env_config then Ret env_config
  else match load_polar_network_config H None with
       | Raise _ => Ret default_config
       | o => o
       end).

(** ** Example data for the further properties *)

(** A CLN node with a rune file. *)
Definition erin : NodeConfig :=
  {| name := "erin"; implementation := "CLN"; rpc_host := "10.0.0.5";
     rpc_port := 0; rest_port := Some 3010;
     macaroon_path := None; cert_path := None;
     rune_path := Some "/cln/admin.rune";
     client_cert_path := Some "/cln/client.pem";
     client_key_path := Some "/cln/client-key.pem";
     ca_cert_path := Some "/cln/ca.pem"; socket_path := None |}.

Definition rune_config : PolarConfig :=
  {| nodes := <["erin" := erin]> ∅; polar_home := "~/.polar"; network_name := "default" |}.

(** The rune file holds the text " abc" and a newline. *)
Definition rune_fs (path : string) : fs_entry :=
  if String.eqb path "/cln/admin.rune" then File (Some [x20; x61; x62; x63; x0a])
  else NoEntry.

Definition rune_world (n : http_request -> reply) : world :=
  {| fs := rune_fs; net := n; fault_text := demo_text; path_str := fun p => p;
     json_error := JsonRequestsError |}.

(** The method names of the thirteen CLN operations. *)
Definition cln_methods : list string :=
  ["getinfo"; "listfunds"; "listchannels"; "listpeers"; "invoice"; "listinvoices";
   "pay"; "listpays"; "connect"; "fundchannel"; "close"; "decode"; "getroute"].

(** ** Words for the further properties of lnd.py *)

(** A request as every LNDClient operation is meant to make it: to a
    path under [/v1/] of the client's base URL, with one of three verbs,
    the client's verification setting and no client certificate. *)
Definition lnd_request_ok (self : LNDClient.t) (rq : http_request) : Prop :=
  (exists path, rq_url rq = LNDClient.base_url self +:+ "/v1/" +:+ path)
  /\ In (rq_method rq) ["GET"; "POST"; "DELETE"]
  /\ rq_verify rq = LNDClient.verify self
  /\ rq_cert rq = None.

(** The field [key] of an LND answer stands for the integer [v]: absent
    with [v = 0], or the decimal text Python prints for [v], or the JSON
    number [v]. *)
Definition lnd_field (d : list (string * pyval)) (key : string) (v : Z) : Prop :=
  (dict_lookup key d = None /\ v = 0)
  \/ (dict_lookup key d = Some (PStr (str_of_Z v))
      /\ (String.length (str_of_Z v) <= 4300)%nat)
  \/ dict_lookup key d = Some (PInt v).

(** Reading hexadecimal text back, to state that [hex_encode] loses
    nothing. *)
Definition hex_value (a : ascii) : option N :=
  let n := N_of_ascii a in
  if ((48 <=? n) && (n <=? 57))%N then Some (n - 48)%N
  else if ((97 <=? n) && (n <=? 102))%N then Some (n - 87)%N
  else None.

Fixpoint hex_decode (s : string) : option (list byte) :=
  match s with
  | EmptyString => Some []
  | String hi (String lo s') =>
      match hex_value hi, hex_value lo, hex_decode s' with
      | Some h, Some l, Some bs =>
          match Byte.of_N (16 * h + l) with
          | Some b => Some (b :: bs)
          | None => None
          end
      | _, _, _ => None
      end
  | String _ EmptyString => None
  end.

(** ** Example hosts *)

Definition base_name (p : string) : string := List.last (split "/" p) "".

Definition dir_name (p : string) : string := String.concat "/" (List.removelast (split "/" p)).

(** A host with the given environment and no Polar directory. *)
Definition bare_host (env : string -> option string) : host :=
  {| getenv := env;
     expanduser := fun p => Ret p;
     path_join := fun p q => p +:+ "/" +:+ q;
     path_name := base_name;
     path_parent := dir_name;
     path_exists := fun _ => Ret false;
     path_is_dir := fun _ => Ret false;
     path_iterdir := fun _ => Ret [];
     path_glob := fun _ _ => Ret [] |}.

Definition no_env : string -> option string := fun _ => None.

(** CLN reached through its REST port, LND known by its gRPC port only. *)
Definition rest_env (key : string) : option string :=
  if String.eqb key "CLN_REST_PORT" then Some "3010"
  else if String.eqb key "CLN_HOST" then Some "10.0.0.5"
  else if String.eqb key "LND_PORT" then Some "10009"
  else None.

(** CLN known by its socket only. *)
Definition socket_env (key : string) : option string :=
  if String.eqb key "CLN_SOCKET_PATH" then Some "/cln/lightning-rpc" else None.

Definition bad_port_env (key : string) : option string :=
  if String.eqb key "CLN_REST_PORT" then Some "rest" else None.

(** A host with one Polar network, two CLN nodes and one LND node. *)
Definition polar_host : host :=
  {| getenv := no_env;
     expanduser := fun _ => Ret "/home/u/.polar";
     path_join := fun p q => p +:+ "/" +:+ q;
     path_name := base_name;
     path_parent := dir_name;
     path_exists := fun _ => Ret true;
     path_is_dir := fun _ => Ret true;
     path_iterdir := fun p => Ret [p +:+ "/1"];
     path_glob := fun p pattern =>
       if String.eqb pattern "volumes/*/lightningd"
       then Ret [p +:+ "/volumes/bob/lightningd"; p +:+ "/volumes/carol/lightningd"]
       else Ret [p +:+ "/volumes/alice/lnd"] |}.

(** * Properties *)

(** ** Computations: traces and results *)

Lemma trace_bind_ret {A B} (m : M A) (k : A -> M B) (a : A) :
  result m = Ret a -> trace (bind m k) = trace m ++ trace (k a).
Proof.
  destruct m as [tr o]; simpl; intros ->; simpl.
  destruct (k a); reflexivity.
Qed.

Lemma result_bind_ret {A B} (m : M A) (k : A -> M B) (a : A) :
  result m = Ret a -> result (bind m k) = result (k a).
Proof.
  destruct m as [tr o]; simpl; intros ->; simpl.
  destruct (k a); reflexivity.
Qed.

Lemma bind_lift_ret {A B} (o : outcome A) (k : A -> M B) (a : A) :
  o = Ret a -> bind (lift o) k = k a.
Proof. intros ->; unfold lift, bind; destruct (k a); reflexivity. Qed.

Lemma reraise_ret W cls what node tr v :
  reraise W cls what node (tr, Ret v) = (tr, Ret v).
Proof. reflexivity. Qed.

Lemma reraise_raise W cls what node tr e :
  reraise W cls what node (tr, Raise e)
  = (tr, Raise (Raised cls (what +:+ " '" +:+ node +:+ "': " +:+ str W e))).
Proof. unfold reraise, catch, raise; simpl. rewrite app_nil_r. reflexivity. Qed.

(** ** CoreLightningClient._make_request *)

Section ClnRequest.

Import CoreLightningClient.

Variables (W : world) (self : t).

Lemma cln_make_request_trace method params :
  trace (_make_request W self method params)
  = [request self (url_of self method) (payload_of params)].
Proof.
  unfold _make_request, post, http_send, raise_for_status, response_json.
  destruct (net W _) as [k | status body]; simpl; [reflexivity |].
  destruct ((400 <=? status) && (status <? 600)); simpl; [reflexivity |].
  destruct body; simpl; [reflexivity |].
  destruct (json_error W); reflexivity.
Qed.

Lemma cln_make_request_answers method params body :
  answers (net W (request self (url_of self method) (payload_of params))) body ->
  _make_request W self method params
  = ([request self (url_of self method) (payload_of params)], Ret body).
Proof.
  intros (status & Hnet & Hok).
  unfold _make_request, post, http_send, raise_for_status, response_json.
  rewrite Hnet. simpl. rewrite Hok. reflexivity.
Qed.

Lemma cln_make_request_fails method params :
  fails (net W (request self (url_of self method) (payload_of params))) ->
  exists e,
    _make_request W self method params
    = ([request self (url_of self method) (payload_of params)], Raise e).
Proof.
  unfold _make_request, post, http_send, raise_for_status, response_json.
  destruct (net W _) as [k | status body]; simpl.
  - intros _. destruct k; eauto.
  - destruct ((400 <=? status) && (status <? 600)) eqn:E; simpl.
    + intros _. eauto.
    + intros [Hbad | ->]; [discriminate |]. simpl.
      destruct (json_error W); simpl; eauto.
Qed.

End ClnRequest.

(** ** C1: the CLN balance *)

Lemma sum_outputs_spec outputs : forall acc,
  forallb listfunds_output outputs = true ->
  CoreLightningClient.sum_outputs acc outputs = Ret (acc + confirmed_msat outputs).
Proof.
  induction outputs as [| output rest IH]; intros acc Hwf.
  - simpl. f_equal. unfold confirmed_msat. simpl. lia.
  - simpl in Hwf. apply andb_prop in Hwf as [Ho Hrest].
    unfold listfunds_output in Ho. apply andb_prop in Ho as [Hd Hamt].
    destruct output as [| | | | | | d]; try discriminate.
    unfold confirmed_msat in *. simpl.
    simpl in Hamt.
    destruct (dict_lookup "status" d) as [status |] eqn:Est; simpl.
    + destruct (is_str status "confirmed") eqn:Ec; simpl.
      * simpl in Hamt.
        destruct (dict_lookup "amount_msat" d) as [[| | z | | | |] |] eqn:Ea;
          try discriminate.
        simpl. rewrite IH by assumption. f_equal. lia.
      * apply IH; assumption.
    + apply IH; assumption.
Qed.

Lemma sum_channels_spec channels : forall acc,
  forallb listfunds_channel channels = true ->
  CoreLightningClient.sum_channels acc channels = Ret (acc + local_msat channels).
Proof.
  induction channels as [| channel rest IH]; intros acc Hwf.
  - simpl. f_equal. unfold local_msat. simpl. lia.
  - simpl in Hwf. apply andb_prop in Hwf as [Hc Hrest].
    unfold listfunds_channel, has_int in Hc.
    destruct channel as [| | | | | | d]; try discriminate.
    unfold local_msat in *. simpl.
    destruct (dict_lookup "our_amount_msat" d) as [[| | z | | | |] |] eqn:Ea;
      try discriminate.
    simpl. rewrite IH by assumption. f_equal. lia.
Qed.

Lemma cln_get_balance_value (W : world) (self : CoreLightningClient.t)
    (body : pyval) (outputs channels : list pyval) :
  answers (net W (CoreLightningClient.request self
                    (CoreLightningClient.url_of self "listfunds") [])) body ->
  py_get body "outputs" (PList []) = Ret (PList outputs) ->
  py_get body "channels" (PList []) = Ret (PList channels) ->
  forallb listfunds_output outputs = true ->
  forallb listfunds_channel channels = true ->
  result (CoreLightningClient.get_balance W self)
  = Ret (PInt ((confirmed_msat outputs + local_msat channels) / 1000)).
Proof.
  intros Hnet Hout Hch Hwo Hwc.
  unfold CoreLightningClient.get_balance.
  rewrite (cln_make_request_answers W self "listfunds" None body Hnet).
  unfold bind at 1. rewrite Hout. simpl obind.
  rewrite (bind_lift_ret _ _ outputs eq_refl).
  rewrite (bind_lift_ret _ _ _ (sum_outputs_spec outputs 0 Hwo)).
  rewrite Hch. simpl obind.
  rewrite (bind_lift_ret _ _ channels eq_refl).
  rewrite (bind_lift_ret _ _ _ (sum_channels_spec channels 0 Hwc)).
  reflexivity.
Qed.

(** C1. For a [listfunds] response, [CoreLightningClient.get_balance]
    returns the floor division by 1000 of the sum of [amount_msat] over
    exactly the outputs whose status equals "confirmed" plus the sum of
    [our_amount_msat] over all channels: unconfirmed outputs add nothing,
    and the remainder below one satoshi is dropped, never rounded up. *)
Theorem cln_get_balance_floor (W : world) (self : CoreLightningClient.t)
    (body : pyval) (outputs channels : list pyval) :
  answers (net W (CoreLightningClient.request self
                    (CoreLightningClient.url_of self "listfunds") [])) body ->
  py_get body "outputs" (PList []) = Ret (PList outputs) ->
  py_get body "channels" (PList []) = Ret (PList channels) ->
  forallb listfunds_output outputs = true ->
  forallb listfunds_channel channels = true ->
  let total := confirmed_msat outputs + local_msat channels in
  result (CoreLightningClient.get_balance W self) = Ret (PInt (total / 1000))
  /\ 1000 * (total / 1000) <= total < 1000 * (total / 1000) + 1000.
Proof.
  intros Hnet Hout Hch Hwo Hwc total. split.
  - apply (cln_get_balance_value W self body); assumption.
  - pose proof (Z.mul_div_le total 1000 ltac:(lia)).
    pose proof (Z.mul_succ_div_gt total 1000 ltac:(lia)). lia.
Qed.

Lemma cln_get_balance_floor_witness :
  result (CoreLightningClient.get_balance
            (demo_world (always (Response 200 (Some demo_funds)))) demo_cln)
  = Ret (PInt 3501).
Proof.
  refine (proj1 (cln_get_balance_floor
                   (demo_world (always (Response 200 (Some demo_funds)))) demo_cln
                   demo_funds
                   [PDict [("txid", PStr "aa"); ("amount_msat", PInt 1500999);
                           ("status", PStr "confirmed")];
                    PDict [("txid", PStr "bb"); ("amount_msat", PInt 700000);
                           ("status", PStr "unconfirmed")];
                    PDict [("txid", PStr "cc"); ("status", PStr "immature")]]
                   [PDict [("peer_id", PStr "02"); ("our_amount_msat", PInt 2000500)]]
                   _ _ _ _ _)).
  - exists 200. split; reflexivity.
  - reflexivity.
  - reflexivity.
  - reflexivity.
  - reflexivity.
Defined.

(** ** The requests an operation issues *)

Lemma trace_reraise W cls what node (m : M pyval) :
  trace (reraise W cls what node m) = trace m.
Proof.
  destruct m as [tr [v | e |]]; try reflexivity.
  rewrite reraise_raise. reflexivity.
Qed.

Lemma trace_bind_quiet {A B} (m : M A) (k : A -> M B) :
  (forall a, trace (k a) = []) -> trace (bind m k) = trace m.
Proof.
  intros Hk. destruct m as [tr [a | e |]]; simpl; try reflexivity.
  specialize (Hk a). destruct (k a) as [tr' o]. simpl in *. subst.
  apply app_nil_r.
Qed.

Lemma trace_lift_bind {A B} (o : outcome A) (k : A -> M B) :
  (forall a, trace (k a) = []) -> trace (bind (lift o) k) = [].
Proof. intros Hk. rewrite trace_bind_quiet by assumption. reflexivity. Qed.

Lemma trace_lift {A} (o : outcome A) : trace (lift o) = [].
Proof. reflexivity. Qed.

Lemma trace_ret {A} (a : A) : trace (ret a) = [].
Proof. reflexivity. Qed.

(** Closes [trace (k a) = []] for the value-shaping code after a request. *)
Ltac quiet :=
  intros;
  repeat first
    [ reflexivity
    | apply trace_lift
    | apply trace_ret
    | apply trace_lift_bind; intros ].

Section ClnTraces.

Import CoreLightningClient.

Variables (W : world) (self : t).

Lemma cln_listing_trace cls what method key :
  trace (listing W self cls what method key) = [request self (url_of self method) []].
Proof.
  unfold listing. rewrite trace_reraise, trace_bind_quiet by quiet.
  apply cln_make_request_trace.
Qed.

Lemma cln_create_invoice_trace amount_sats label description :
  trace (create_invoice W self amount_sats label description)
  = [request self (url_of self "invoice")
       [("amount_msat", PInt (amount_sats * 1000));
        ("label", PStr label);
        ("description", PStr (or_str description label))]].
Proof.
  unfold create_invoice. rewrite trace_reraise, trace_bind_quiet by quiet.
  apply cln_make_request_trace.
Qed.

Lemma cln_get_route_trace destination amount_sats :
  trace (get_route W self destination amount_sats)
  = [request self (url_of self "getroute")
       [("id", PStr destination);
        ("amount_msat", PInt (amount_sats * 1000));
        ("riskfactor", PFloat "1.0")]].
Proof.
  unfold get_route. rewrite trace_reraise, trace_bind_quiet by quiet.
  apply cln_make_request_trace.
Qed.

Lemma cln_pay_invoice_trace payment_request amount_sats :
  trace (pay_invoice W self payment_request amount_sats)
  = [request self (url_of self "pay")
       (("bolt11", PStr payment_request)
        :: match amount_sats with
           | Some a => if a =? 0 then [] else [("amount_msat", PInt (a * 1000))]
           | None => []
           end)].
Proof.
  unfold pay_invoice. rewrite trace_reraise, trace_bind_quiet by quiet.
  rewrite cln_make_request_trace. simpl.
  destruct amount_sats as [a |]; simpl; [| reflexivity].
  destruct (a =? 0); reflexivity.
Qed.

Lemma cln_open_channel_trace node_id amount_sats push_sats :
  trace (open_channel W self node_id amount_sats push_sats)
  = [request self (url_of self "fundchannel")
       (("id", PStr node_id) :: ("amount", PInt amount_sats)
        :: (if 0 <? push_sats then [("push_msat", PInt (push_sats * 1000))] else []))].
Proof.
  unfold open_channel. rewrite trace_reraise, trace_bind_quiet by quiet.
  rewrite cln_make_request_trace. reflexivity.
Qed.

Lemma cln_call_trace o :
  exists method payload, trace (call W self o) = [request self (url_of self method) payload].
Proof.
  destruct o; simpl;
    try (unfold list_channels, list_peers, list_invoices, list_payments;
         rewrite cln_listing_trace; eauto);
    match goal with
    | |- context [trace (?f W self)] => unfold f
    | |- context [trace (?f W self _)] => unfold f
    | |- context [trace (?f W self _ _)] => unfold f
    | |- context [trace (?f W self _ _ _)] => unfold f
    end;
    rewrite trace_reraise, trace_bind_quiet by quiet;
    rewrite cln_make_request_trace; eauto.
Qed.

End ClnTraces.

(** ** C3: units of the amounts sent to CLN *)

(** C3, as stated, fails: [open_channel] takes a satoshi amount and sends it
    unchanged, 5 and not 5000, in the [amount] field of [fundchannel]. *)
Lemma cln_open_channel_sends_satoshis :
  trace (CoreLightningClient.open_channel
           (demo_world (always (Response 200 (Some (PDict []))))) demo_cln "02ab" 5 0)
  = [CoreLightningClient.request demo_cln "http://127.0.0.1:8182/v1/fundchannel"
       [("id", PStr "02ab"); ("amount", PInt 5)]]
  /\ PInt 5 <> PInt (5 * 1000).
Proof. split; [reflexivity | discriminate]. Qed.

(** C3, amended. [create_invoice] and [get_route] send the caller's satoshi
    amount times 1000 as [amount_msat]; [pay_invoice] does so for a nonzero
    override; [open_channel] sends the funding amount unchanged, in
    satoshis, as [amount] and a positive push amount times 1000 as
    [push_msat]; [get_balance] returns the millisatoshi total of a
    [listfunds] response divided by 1000, rounded down. *)
Theorem cln_amount_units (W : world) (self : CoreLightningClient.t) :
  (forall amount_sats label description,
     trace (CoreLightningClient.create_invoice W self amount_sats label description)
     = [CoreLightningClient.request self (CoreLightningClient.url_of self "invoice")
          [("amount_msat", PInt (amount_sats * 1000));
           ("label", PStr label);
           ("description", PStr (or_str description label))]])
  /\ (forall destination amount_sats,
        trace (CoreLightningClient.get_route W self destination amount_sats)
        = [CoreLightningClient.request self (CoreLightningClient.url_of self "getroute")
             [("id", PStr destination);
              ("amount_msat", PInt (amount_sats * 1000));
              ("riskfactor", PFloat "1.0")]])
  /\ (forall payment_request amount_sats,
        amount_sats <> 0 ->
        trace (CoreLightningClient.pay_invoice W self payment_request (Some amount_sats))
        = [CoreLightningClient.request self (CoreLightningClient.url_of self "pay")
             [("bolt11", PStr payment_request);
              ("amount_msat", PInt (amount_sats * 1000))]])
  /\ (forall node_id amount_sats push_sats,
        trace (CoreLightningClient.open_channel W self node_id amount_sats push_sats)
        = [CoreLightningClient.request self (CoreLightningClient.url_of self "fundchannel")
             (("id", PStr node_id) :: ("amount", PInt amount_sats)
              :: (if 0 <? push_sats
                  then [("push_msat", PInt (push_sats * 1000))] else []))])
  /\ (forall body outputs channels,
        answers (net W (CoreLightningClient.request self
                          (CoreLightningClient.url_of self "listfunds") [])) body ->
        py_get body "outputs" (PList []) = Ret (PList outputs) ->
        py_get body "channels" (PList []) = Ret (PList channels) ->
        forallb listfunds_output outputs = true ->
        forallb listfunds_channel channels = true ->
        result (CoreLightningClient.get_balance W self)
        = Ret (PInt ((confirmed_msat outputs + local_msat channels) / 1000))).
Proof.
  repeat split.
  - apply cln_create_invoice_trace.
  - apply cln_get_route_trace.
  - intros pr a Ha. rewrite cln_pay_invoice_trace.
    destruct (Z.eqb_spec a 0); [contradiction | reflexivity].
  - apply cln_open_channel_trace.
  - apply cln_get_balance_value.
Qed.

Lemma cln_amount_units_witness :
  trace (CoreLightningClient.pay_invoice
           (demo_world (always (Response 200 (Some (PDict []))))) demo_cln "lnbc1" (Some 7))
  = [CoreLightningClient.request demo_cln "http://127.0.0.1:8182/v1/pay"
       [("bolt11", PStr "lnbc1"); ("amount_msat", PInt 7000)]]
  /\ result (CoreLightningClient.get_balance
               (demo_world (always (Response 200 (Some demo_funds)))) demo_cln)
     = Ret (PInt 3501).
Proof.
  split.
  - refine (proj1 (proj2 (proj2 (cln_amount_units
              (demo_world (always (Response 200 (Some (PDict []))))) demo_cln)))
              "lnbc1" 7 _).
    discriminate.
  - refine (proj2 (proj2 (proj2 (proj2 (cln_amount_units
              (demo_world (always (Response 200 (Some demo_funds)))) demo_cln))))
              demo_funds
              [PDict [("txid", PStr "aa"); ("amount_msat", PInt 1500999);
                      ("status", PStr "confirmed")];
               PDict [("txid", PStr "bb"); ("amount_msat", PInt 700000);
                      ("status", PStr "unconfirmed")];
               PDict [("txid", PStr "cc"); ("status", PStr "immature")]]
              [PDict [("peer_id", PStr "02"); ("our_amount_msat", PInt 2000500)]]
              _ _ _ _ _).
    + exists 200. split; reflexivity.
    + reflexivity.
    + reflexivity.
    + reflexivity.
    + reflexivity.
Defined.

(** ** C7: the override amount of [pay_invoice] *)

(** C7, as stated, fails: with the override 0 present, no amount field is
    sent. *)
Lemma cln_pay_invoice_zero_override :
  trace (CoreLightningClient.pay_invoice
           (demo_world (always (Response 200 (Some (PDict []))))) demo_cln "lnbc1" (Some 0))
  = [CoreLightningClient.request demo_cln "http://127.0.0.1:8182/v1/pay"
       [("bolt11", PStr "lnbc1")]].
Proof. reflexivity. Qed.

(** C7, amended. [CoreLightningClient.pay_invoice] with an override amount
    that is present and not zero sends it times 1000 as [amount_msat] in
    the parameters of [pay]; with the override absent, or zero, it sends
    the invoice alone, no amount field. *)
Theorem cln_pay_invoice_override (W : world) (self : CoreLightningClient.t)
    (payment_request : string) :
  (forall amount_sats,
     amount_sats <> 0 ->
     trace (CoreLightningClient.pay_invoice W self payment_request (Some amount_sats))
     = [CoreLightningClient.request self (CoreLightningClient.url_of self "pay")
          [("bolt11", PStr payment_request);
           ("amount_msat", PInt (amount_sats * 1000))]])
  /\ trace (CoreLightningClient.pay_invoice W self payment_request None)
     = [CoreLightningClient.request self (CoreLightningClient.url_of self "pay")
          [("bolt11", PStr payment_request)]]
  /\ trace (CoreLightningClient.pay_invoice W self payment_request (Some 0))
     = [CoreLightningClient.request self (CoreLightningClient.url_of self "pay")
          [("bolt11", PStr payment_request)]].
Proof.
  repeat split.
  - intros a Ha. rewrite cln_pay_invoice_trace.
    destruct (Z.eqb_spec a 0); [contradiction | reflexivity].
  - rewrite cln_pay_invoice_trace. reflexivity.
  - rewrite cln_pay_invoice_trace. reflexivity.
Qed.

Lemma cln_pay_invoice_override_witness :
  trace (CoreLightningClient.pay_invoice
           (demo_world (always (NoResponse ConnectFailed))) demo_cln "lnbc1" (Some 250))
  = [CoreLightningClient.request demo_cln "http://127.0.0.1:8182/v1/pay"
       [("bolt11", PStr "lnbc1"); ("amount_msat", PInt 250000)]].
Proof.
  refine (proj1 (cln_pay_invoice_override
                   (demo_world (always (NoResponse ConnectFailed))) demo_cln "lnbc1")
                250 _).
  discriminate.
Defined.

(** ** C4: how CoreLightningClient reports a failed request *)

(** C4, as stated, fails: an HTTP 500 answer to a listing call is raised as
    [ConnectionError], the class raised when the node cannot be reached,
    and under the same "Failed to connect" wording. *)
Lemma cln_list_channels_http_500 :
  result (CoreLightningClient.list_channels
            (demo_world (always (Response 500 None))) demo_cln)
  = Raise (Raised ConnectionError
      "Failed to list channels from CLN node 'bob': Failed to connect to CLN node 'bob': 500 Server Error: Internal Server Error for url: http://127.0.0.1:8182/v1/listchannels")
  /\ result (CoreLightningClient.list_channels
               (demo_world (always (NoResponse ConnectFailed))) demo_cln)
     = Raise (Raised ConnectionError
         "Failed to list channels from CLN node 'bob': Failed to connect to CLN node 'bob': Connection refused: http://127.0.0.1:8182/v1/listchannels").
Proof. split; reflexivity. Qed.

Section ClnFailures.

Import CoreLightningClient.

Variables (W : world) (self : t).

Lemma cln_wrapped_fails cls what method params (k : pyval -> M pyval) :
  (forall a, trace (k a) = []) ->
  (forall rq,
     In rq (trace (reraise W cls what (node_name self)
                     (bind (_make_request W self method params) k))) ->
     fails (net W rq)) ->
  exists inner,
    reraise W cls what (node_name self) (bind (_make_request W self method params) k)
    = ([request self (url_of self method) (payload_of params)],
       Raise (Raised cls (what +:+ " '" +:+ node_name self +:+ "': " +:+ inner))).
Proof.
  intros Hk Hfail.
  rewrite trace_reraise, trace_bind_quiet, cln_make_request_trace in Hfail by assumption.
  destruct (cln_make_request_fails W self method params (Hfail _ (or_introl eq_refl)))
    as (e & Hreq).
  exists (str W e). rewrite Hreq. unfold bind. apply reraise_raise.
Qed.

Lemma cln_call_fails o :
  (forall rq, In rq (trace (call W self o)) -> fails (net W rq)) ->
  exists method payload inner,
    call W self o
    = ([request self (url_of self method) payload],
       Raise (Raised (raised_class o)
                (raised_what o +:+ " '" +:+ node_name self +:+ "': " +:+ inner))).
Proof.
  destruct o; simpl; intros Hfail;
    match goal with
    | |- context [?f W self = _] => unfold f, listing in Hfail |- *
    | |- context [?f W self _ = _] => unfold f in Hfail |- *
    | |- context [?f W self _ _ = _] => unfold f in Hfail |- *
    | |- context [?f W self _ _ _ = _] => unfold f in Hfail |- *
    end;
    match goal with
    | |- context [_make_request W self ?m ?p] =>
        exists m, (payload_of p)
    end;
    apply cln_wrapped_fails; solve [assumption | quiet].
Qed.

End ClnFailures.

(** C4, amended. When the request of a CoreLightningClient operation fails
    (no response, an error status, or a body that is not JSON), the
    operation issues that one POST to [{base_url}/v1/{method}] and raises a
    single exception whose class is fixed by the operation and whose
    message names the operation and the node before the underlying text.
    In particular an HTTP 500 answer to a listing call is raised as
    [ConnectionError]. *)
Theorem cln_failure_reraised (W : world) (self : CoreLightningClient.t)
    (o : CoreLightningClient.op) :
  ((forall rq, In rq (trace (CoreLightningClient.call W self o)) -> fails (net W rq)) ->
   exists method payload inner,
     CoreLightningClient.call W self o
     = ([CoreLightningClient.request self (CoreLightningClient.url_of self method) payload],
        Raise (Raised (CoreLightningClient.raised_class o)
                 (CoreLightningClient.raised_what o +:+ " '"
                  +:+ CoreLightningClient.node_name self +:+ "': " +:+ inner))))
  /\ (CoreLightningClient.is_listing o = true ->
      (forall rq, In rq (trace (CoreLightningClient.call W self o)) ->
                  exists body, net W rq = Response 500 body) ->
      exists msg,
        result (CoreLightningClient.call W self o) = Raise (Raised ConnectionError msg)).
Proof.
  split.
  - apply cln_call_fails.
  - intros Hl H500.
    destruct (cln_call_fails W self o) as (method & payload & inner & Hcall).
    + intros rq Hin. destruct (H500 rq Hin) as (body & ->). simpl. left. reflexivity.
    + rewrite Hcall. simpl. destruct o; try discriminate; simpl; eauto.
Qed.

Lemma cln_failure_reraised_witness :
  exists method payload inner,
    CoreLightningClient.call (demo_world (always (Response 500 None))) demo_cln
      (CoreLightningClient.CreateInvoice 10 "order-1" None)
    = ([CoreLightningClient.request demo_cln
          (CoreLightningClient.url_of demo_cln method) payload],
       Raise (Raised RuntimeError
                ("Failed to create invoice on CLN node" +:+ " '" +:+ "bob" +:+ "': "
                 +:+ inner))).
Proof.
  refine (proj1 (cln_failure_reraised (demo_world (always (Response 500 None))) demo_cln
                   (CoreLightningClient.CreateInvoice 10 "order-1" None)) _).
  intros rq _. simpl. left. reflexivity.
Defined.

(** ** C5: constructing a CoreLightningClient *)

Lemma cln_init_trace W config node_name :
  trace (CoreLightningClient.__init__ W config node_name) = [].
Proof.
  unfold CoreLightningClient.__init__.
  destruct (nodes config !! node_name) as [nc |]; [| reflexivity].
  destruct (negb (String.eqb (implementation nc) "CLN")); [reflexivity |].
  destruct (negb (truthy_int (rest_port nc))); [reflexivity |].
  apply trace_lift_bind. quiet.
Qed.

Lemma setup_auth_not_raise W nc e : CoreLightningClient._setup_auth W nc <> Raise e.
Proof.
  unfold CoreLightningClient._setup_auth.
  destruct (truthy_str (rune_path nc)); simpl; try discriminate.
  destruct (rune_path nc) as [p |]; simpl; try discriminate.
  destruct (CoreLightningClient.read_text W p); simpl; discriminate.
Qed.

Lemma truthy_int_false o : truthy_int o = false <-> o = None \/ o = Some 0.
Proof.
  destruct o as [z |]; simpl.
  - rewrite negb_false_iff, Z.eqb_eq. split.
    + intros ->. right. reflexivity.
    + intros [H | H]; [discriminate | congruence].
  - split; auto.
Qed.

(** C5. Constructing a CoreLightningClient raises [ValueError], the
    configuration error, exactly when the named node is absent from the
    configuration, or its implementation is not "CLN", or it lacks a
    configured REST port: the field is unset, or holds 0, the number
    config.py writes for a port that is not in use.  No request is issued
    by the constructor, whatever its outcome. *)
Theorem cln_init_config_error (W : world) (config : PolarConfig) (node_name : string) :
  ((exists msg,
      result (CoreLightningClient.__init__ W config node_name)
      = Raise (Raised ValueError msg))
   <-> (nodes config !! node_name = None
        \/ exists nc, nodes config !! node_name = Some nc
                      /\ (implementation nc <> "CLN"
                          \/ rest_port nc = None \/ rest_port nc = Some 0)))
  /\ trace (CoreLightningClient.__init__ W config node_name) = []
  /\ (forall c msg,
        result (CoreLightningClient.__init__ W config node_name) = Raise (Raised c msg) ->
        c = ValueError).
Proof.
  split; [| split; [apply cln_init_trace |]].
  - unfold CoreLightningClient.__init__.
    destruct (nodes config !! node_name) as [nc |] eqn:Hnode.
    + destruct (String.eqb_spec (implementation nc) "CLN") as [Himpl | Himpl]; simpl.
      * destruct (truthy_int (rest_port nc)) eqn:Hport; simpl.
        -- split.
           ++ intros (msg & Hres).
              destruct (CoreLightningClient._setup_auth W nc) as [s | e |] eqn:Hs;
                simpl in Hres; try discriminate.
              exfalso. exact (setup_auth_not_raise W nc e Hs).
           ++ intros [Habs | (nc' & Hnc' & [Hne | Hp])]; try discriminate.
              ** injection Hnc' as <-. contradiction.
              ** injection Hnc' as <-. apply truthy_int_false in Hp. congruence.
        -- split; [| eauto].
           intros _. right. exists nc. split; [reflexivity |].
           right. apply truthy_int_false. assumption.
      * split; [| eauto].
        intros _. right. exists nc. split; [reflexivity |]. left. assumption.
    + split; eauto.
  - intros c msg. unfold CoreLightningClient.__init__.
    destruct (nodes config !! node_name) as [nc |]; simpl; [| congruence].
    destruct (negb (String.eqb (implementation nc) "CLN")); simpl; [congruence |].
    destruct (negb (truthy_int (rest_port nc))); simpl; [congruence |].
    destruct (CoreLightningClient._setup_auth W nc) as [s | e |] eqn:Hs;
      simpl; try discriminate.
    exfalso. exact (setup_auth_not_raise W nc e Hs).
Qed.

Lemma cln_init_config_error_witness :
  (exists msg,
     result (CoreLightningClient.__init__ (demo_world demo_lnd_net) demo_config "alice")
     = Raise (Raised ValueError msg))
  /\ (exists msg,
        result (CoreLightningClient.__init__ (demo_world demo_lnd_net) demo_config "dave")
        = Raise (Raised ValueError msg)).
Proof.
  split.
  - apply (proj2 (proj1 (cln_init_config_error (demo_world demo_lnd_net)
                           demo_config "alice"))).
    right. exists alice. split; [reflexivity |]. left. discriminate.
  - apply (proj2 (proj1 (cln_init_config_error (demo_world demo_lnd_net)
                           demo_config "dave"))).
    left. reflexivity.
Defined.

(** ** C8: constructing an LNDClient *)

Lemma lnd_init_trace W config node_name :
  trace (LNDClient.__init__ W config node_name) = [].
Proof.
  unfold LNDClient.__init__.
  destruct (nodes config !! node_name) as [nc |]; [| reflexivity].
  destruct (negb (String.eqb (implementation nc) "LND")); reflexivity.
Qed.

Lemma lnd_init_present W config node_name nc :
  nodes config !! node_name = Some nc ->
  implementation nc = "LND" ->
  LNDClient.__init__ W config node_name
  = lift (LNDClient._setup_rest_client W nc node_name).
Proof.
  intros Hnode Himpl. unfold LNDClient.__init__. rewrite Hnode, Himpl. reflexivity.
Qed.

(** C8. Constructing an LNDClient raises [ValueError], the configuration
    error, when the named node is absent from the configuration and when its
    implementation is not "LND".  An unset REST port is no error: the port
    is then 8080 and the base URL is [https://{rpc_host}:8080]; what the
    constructor still does is load the macaroon. *)
Theorem lnd_init_port_default (W : world) (config : PolarConfig) (node_name : string) :
  (nodes config !! node_name = None ->
   LNDClient.__init__ W config node_name
   = ([], Raise (Raised ValueError
                   ("Node '" +:+ node_name +:+ "' not found in configuration"))))
  /\ (forall nc,
        nodes config !! node_name = Some nc ->
        implementation nc <> "LND" ->
        LNDClient.__init__ W config node_name
        = ([], Raise (Raised ValueError
                        ("Node '" +:+ node_name +:+ "' is not an LND node"))))
  /\ (forall nc,
        nodes config !! node_name = Some nc ->
        implementation nc = "LND" ->
        rest_port nc = None ->
        LNDClient.__init__ W config node_name
        = ([], obind (LNDClient.macaroon_headers W nc) (fun hs =>
               Ret {| LNDClient.node_config := nc;
                      LNDClient.node_name := node_name;
                      LNDClient.base_url := "https://" +:+ rpc_host nc +:+ ":8080";
                      LNDClient.headers := hs;
                      LNDClient.verify := LNDClient.ssl_verify W nc |}))
        /\ (forall msg, result (LNDClient.__init__ W config node_name)
                        <> Raise (Raised ValueError msg))).
Proof.
  split; [| split].
  - intros Hnode. unfold LNDClient.__init__. rewrite Hnode. reflexivity.
  - intros nc Hnode Himpl. unfold LNDClient.__init__. rewrite Hnode.
    destruct (String.eqb_spec (implementation nc) "LND"); [contradiction | reflexivity].
  - intros nc Hnode Himpl Hport.
    rewrite (lnd_init_present W config node_name nc Hnode Himpl).
    unfold LNDClient._setup_rest_client. rewrite Hport. simpl or_int.
    split; [reflexivity |].
    intros msg. unfold lift, result, snd, LNDClient.macaroon_headers.
    destruct (macaroon_path nc) as [p |]; [| discriminate].
    destruct (truthy_str (Some p) && LNDClient.exists_ W p); [| discriminate].
    unfold LNDClient.read_bytes. destruct (fs W p) as [| | [bytes |]]; discriminate.
Qed.

Lemma lnd_init_port_default_witness :
  LNDClient.__init__ (demo_world demo_lnd_net) demo_config "alice" = ([], Ret demo_lnd)
  /\ LNDClient.__init__ (demo_world demo_lnd_net) demo_config "bob"
     = ([], Raise (Raised ValueError "Node 'bob' is not an LND node"))
  /\ LNDClient.__init__ (demo_world demo_lnd_net) demo_config "dave"
     = ([], Raise (Raised ValueError "Node 'dave' not found in configuration")).
Proof.
  split; [| split].
  - refine (proj1 (proj2 (proj2 (lnd_init_port_default (demo_world demo_lnd_net)
                                   demo_config "alice")) alice _ _ _));
      reflexivity.
  - refine (proj1 (proj2 (lnd_init_port_default (demo_world demo_lnd_net)
                            demo_config "bob")) bob _ _);
      [reflexivity | discriminate].
  - refine (proj1 (lnd_init_port_default (demo_world demo_lnd_net) demo_config "dave") _).
    reflexivity.
Defined.

(** ** LNDClient._make_request *)

Lemma all_bind {A B} (P : http_request -> Prop) (m : M A) (k : A -> M B) :
  Forall P (trace m) -> (forall a, Forall P (trace (k a))) -> Forall P (trace (bind m k)).
Proof.
  intros Hm Hk. destruct m as [tr [a | e |]]; simpl in *; try assumption.
  specialize (Hk a). destruct (k a) as [tr' o]. simpl in *.
  apply Forall_app. split; assumption.
Qed.

Lemma all_catch {A} (P : http_request -> Prop) (m : M A) (h : exn -> M A) :
  Forall P (trace m) -> (forall e, Forall P (trace (h e))) -> Forall P (trace (catch m h)).
Proof.
  intros Hm Hh. destruct m as [tr [a | e |]]; simpl in *; try assumption.
  specialize (Hh e). destruct (h e) as [tr' o]. simpl in *.
  apply Forall_app. split; assumption.
Qed.

Lemma all_send (P : http_request -> Prop) W rq : P rq -> Forall P (trace (http_send W rq)).
Proof. intros H. simpl. constructor; [assumption | constructor]. Qed.

Section LndRequest.

Import LNDClient.

Variables (W : world) (self : t).

Lemma lnd_make_request_headers method endpoint data :
  Forall (carries_headers self) (trace (_make_request W self method endpoint data)).
Proof.
  unfold _make_request. apply all_catch.
  - apply all_bind; [constructor |]. intros m.
    apply all_bind.
    + destruct (String.eqb m "GET"); [apply all_send; reflexivity |].
      destruct (String.eqb m "POST"); [apply all_send; reflexivity |].
      destruct (String.eqb m "DELETE"); [apply all_send; reflexivity |].
      constructor.
    + intros response. apply all_bind.
      * unfold raise_for_status. destruct (_ && _); constructor.
      * intros _. unfold response_json. destruct (snd response); constructor.
  - intros e. destruct e as [[[] | | | | | | | | | | | |] |];
      try destruct (json_error W); constructor.
Qed.

Lemma lnd_get_answers endpoint body :
  answers (net W (request self "GET" (base_url self +:+ endpoint) None)) body ->
  _make_request W self "GET" endpoint None
  = ([request self "GET" (base_url self +:+ endpoint) None], Ret body).
Proof.
  intros (status & Hnet & Hok).
  unfold _make_request, send, http_send, raise_for_status, response_json.
  simpl. rewrite Hnet. simpl. rewrite Hok. reflexivity.
Qed.

(** With one of the three verbs the clients use, a request returns a value
    or raises. *)
Lemma lnd_make_request_result method endpoint data :
  method = "GET" \/ method = "POST" \/ method = "DELETE" ->
  (exists v, result (_make_request W self method endpoint data) = Ret v)
  \/ (exists e, result (_make_request W self method endpoint data) = Raise e).
Proof.
  intros [-> | [-> | ->]];
    unfold _make_request, send, http_send, raise_for_status, response_json; simpl;
    (destruct (net W _) as [[] | status body]; simpl; [eauto | eauto |]);
    (destruct ((400 <=? status) && (status <? 600)); simpl; [eauto |]);
    (destruct body; simpl; [eauto |]);
    destruct (json_error W); simpl; eauto.
Qed.

End LndRequest.

(** ** C9: the macaroon header *)

Ltac all_requests :=
  repeat first
    [ rewrite trace_reraise
    | apply lnd_make_request_headers
    | apply all_bind; [| intros ]
    | match goal with
      | |- Forall _ (trace (match ?x with _ => _ end)) => destruct x
      | |- Forall _ (trace (lift _)) => apply List.Forall_nil
      | |- Forall _ (trace (ret _)) => apply List.Forall_nil
      | |- Forall _ (trace (raise _)) => apply List.Forall_nil
      end ].

Lemma lnd_call_headers W self o :
  Forall (carries_headers self) (trace (LNDClient.call W self o)).
Proof.
  destruct o; simpl;
    match goal with
    | |- context [trace (?f W self)] => unfold f; try unfold LNDClient.listing
    | |- context [trace (?f W self _)] => unfold f; try unfold LNDClient.listing
    | |- context [trace (?f W self _ _)] => unfold f
    | |- context [trace (?f W self _ _ _)] => unfold f
    end;
    all_requests.
Qed.

Lemma lnd_call_headers_in W self o rq :
  In rq (trace (LNDClient.call W self o)) -> rq_headers rq = LNDClient.headers self.
Proof.
  intros Hin. pose proof (lnd_call_headers W self o) as Hall.
  rewrite List.Forall_forall in Hall. exact (Hall rq Hin).
Qed.

Lemma hex_encode_length bs : String.length (hex_encode bs) = (2 * length bs)%nat.
Proof. induction bs as [| b bs IH]; simpl; [reflexivity | rewrite IH; lia]. Qed.

(** C9. While an LNDClient is constructed, the raw bytes of a macaroon file
    that exists are hex-encoded and held as the one header
    [Grpc-Metadata-macaroon], and every request of every later operation
    carries it; with no path configured, or no file at the path, the
    client is constructed all the same, holds no header and sends none. *)
Theorem lnd_macaroon_header (W : world) (config : PolarConfig) (node_name : string)
    (nc : NodeConfig) :
  nodes config !! node_name = Some nc ->
  implementation nc = "LND" ->
  (forall p bytes,
     macaroon_path nc = Some p -> p <> "" -> fs W p = File (Some bytes) ->
     exists c,
       LNDClient.__init__ W config node_name = ([], Ret c)
       /\ LNDClient.headers c = [("Grpc-Metadata-macaroon", hex_encode bytes)]
       /\ forall o rq, In rq (trace (LNDClient.call W c o)) ->
                       rq_headers rq = [("Grpc-Metadata-macaroon", hex_encode bytes)])
  /\ (macaroon_path nc = None \/ macaroon_path nc = Some ""
      \/ (exists p, macaroon_path nc = Some p /\ fs W p = NoEntry) ->
      exists c,
        LNDClient.__init__ W config node_name = ([], Ret c)
        /\ LNDClient.headers c = []
        /\ forall o rq, In rq (trace (LNDClient.call W c o)) -> rq_headers rq = []).
Proof.
  intros Hnode Himpl.
  rewrite (lnd_init_present W config node_name nc Hnode Himpl).
  unfold LNDClient._setup_rest_client, LNDClient.macaroon_headers, lift.
  split.
  - intros p bytes Hp Hne Hfs. rewrite Hp.
    unfold LNDClient.exists_, LNDClient.read_bytes. rewrite Hfs. simpl.
    destruct (String.eqb_spec p ""); [contradiction |]. simpl.
    eexists. split; [reflexivity |]. split; [reflexivity |].
    intros o rq Hin.
    exact (lnd_call_headers_in _ _ _ _ Hin).
  - intros Hno.
    assert (Hhs : match macaroon_path nc with
                  | Some p =>
                      if truthy_str (macaroon_path nc) && LNDClient.exists_ W p
                      then obind (LNDClient.read_bytes W p) (fun macaroon_bytes =>
                           Ret [("Grpc-Metadata-macaroon", hex_encode macaroon_bytes)])
                      else Ret []
                  | None => Ret []
                  end = Ret []).
    { destruct Hno as [-> | [-> | (p & -> & Hfs)]]; try reflexivity.
      unfold LNDClient.exists_. rewrite Hfs. rewrite andb_false_r. reflexivity. }
    rewrite Hhs. simpl.
    eexists. split; [reflexivity |]. split; [reflexivity |].
    intros o rq Hin.
    exact (lnd_call_headers_in _ _ _ _ Hin).
Qed.

Lemma lnd_macaroon_header_witness :
  exists c,
    LNDClient.__init__ (demo_world demo_lnd_net) demo_config "alice" = ([], Ret c)
    /\ LNDClient.headers c = [("Grpc-Metadata-macaroon", "0201ff")]
    /\ forall o rq, In rq (trace (LNDClient.call (demo_world demo_lnd_net) c o)) ->
                    rq_headers rq = [("Grpc-Metadata-macaroon", "0201ff")].
Proof.
  refine (proj1 (lnd_macaroon_header (demo_world demo_lnd_net) demo_config "alice" alice
                   _ _) "/lnd/admin.macaroon" [x02; x01; xff] _ _ _).
  - reflexivity.
  - reflexivity.
  - reflexivity.
  - discriminate.
  - reflexivity.
Defined.

(** ** C2: the LND balance *)

(** C2. For every pair of answers of LND, [LNDClient.get_balance] returns
    the integer of the [confirmed_balance] field of [/v1/balance/blockchain]
    plus the integer of the [balance] field of [/v1/balance/channels]; no
    other field, [unconfirmed_balance] among them, is read.  With 500
    confirmed and 100 unconfirmed sats on chain and 300 sats in channels it
    returns 800. *)
Theorem lnd_get_balance_sum :
  (forall (W : world) (self : LNDClient.t) (wallet channel : pyval) (w c : Z),
     answers (net W (LNDClient.request self "GET"
                       (LNDClient.base_url self +:+ "/v1/balance/blockchain") None))
             wallet ->
     answers (net W (LNDClient.request self "GET"
                       (LNDClient.base_url self +:+ "/v1/balance/channels") None))
             channel ->
     LNDClient.int_field wallet "confirmed_balance" = Ret w ->
     LNDClient.int_field channel "balance" = Ret c ->
     LNDClient.get_balance W self
     = ([LNDClient.request self "GET"
           (LNDClient.base_url self +:+ "/v1/balance/blockchain") None;
         LNDClient.request self "GET"
           (LNDClient.base_url self +:+ "/v1/balance/channels") None],
        Ret (PInt (w + c))))
  /\ result (LNDClient.get_balance (demo_world demo_lnd_net) demo_lnd) = Ret (PInt 800).
Proof.
  split; [| reflexivity].
  intros W self wallet channel w c Hw Hc Hwi Hci.
  unfold LNDClient.get_balance.
  rewrite (lnd_get_answers W self _ wallet Hw).
  unfold bind at 1. rewrite (bind_lift_ret _ _ w Hwi).
  rewrite (lnd_get_answers W self _ channel Hc).
  unfold bind at 1. rewrite (bind_lift_ret _ _ c Hci).
  reflexivity.
Qed.

Lemma lnd_get_balance_sum_witness :
  LNDClient.get_balance (demo_world demo_lnd_net) demo_lnd
  = ([LNDClient.request demo_lnd "GET" "https://127.0.0.1:8080/v1/balance/blockchain" None;
      LNDClient.request demo_lnd "GET" "https://127.0.0.1:8080/v1/balance/channels" None],
     Ret (PInt (500 + 300))).
Proof.
  refine (proj1 lnd_get_balance_sum (demo_world demo_lnd_net) demo_lnd
            (PDict [("total_balance", PStr "600"); ("confirmed_balance", PStr "500");
                    ("unconfirmed_balance", PStr "100")])
            (PDict [("balance", PStr "300"); ("pending_open_balance", PStr "0")])
            500 300 _ _ _ _).
  - exists 200. split; reflexivity.
  - exists 200. split; reflexivity.
  - reflexivity.
  - reflexivity.
Defined.

(** ** C6: a channel point without a colon *)

Lemma split_no_sep sep s : contains sep s = false -> split sep s = [s].
Proof.
  induction s as [| a s IH]; simpl; [reflexivity |].
  destruct (ascii_eqb a sep); [discriminate |].
  intros H. rewrite (IH H). reflexivity.
Qed.

(** C6, as stated, fails: for the channel point "deadbeef" the exception is
    the [RuntimeError] of every failure of [close_channel], the one an HTTP
    500 answer produces too; its text is that of Python's failed tuple
    unpacking. *)
Lemma lnd_close_channel_untyped :
  LNDClient.close_channel (demo_world (always (Response 200 (Some (PDict [])))))
    demo_lnd "deadbeef" false
  = ([], Raise (Raised RuntimeError
       "Failed to close channel on LND node 'alice': not enough values to unpack (expected 2, got 1)"))
  /\ result (LNDClient.close_channel (demo_world (always (Response 500 None)))
               demo_lnd "deadbeef:0" false)
     = Raise (Raised RuntimeError
         "Failed to close channel on LND node 'alice': HTTP error from LND node 'alice': 500 Server Error: Internal Server Error for url: https://127.0.0.1:8080/v1/channels/deadbeef/0").
Proof. split; reflexivity. Qed.

(** C6, amended. For every channel point that contains no colon,
    [LNDClient.close_channel] fails before any HTTP request is issued, with
    the [RuntimeError] of the operation, whose message names the operation
    and the node and ends with the text of the failed unpacking of one
    value into two names. *)
Theorem lnd_close_channel_no_colon (W : world) (self : LNDClient.t)
    (channel_point : string) (force : bool) :
  contains ":" channel_point = false ->
  LNDClient.close_channel W self channel_point force
  = ([], Raise (Raised RuntimeError
                  ("Failed to close channel on LND node" +:+ " '"
                   +:+ LNDClient.node_name self +:+ "': "
                   +:+ fault_text W (FUnpack 2 1)))).
Proof.
  intros Hno. unfold LNDClient.close_channel.
  rewrite (split_no_sep _ _ Hno). reflexivity.
Qed.

Lemma lnd_close_channel_no_colon_witness :
  LNDClient.close_channel (demo_world demo_lnd_net) demo_lnd "deadbeef" true
  = ([], Raise (Raised RuntimeError
       "Failed to close channel on LND node 'alice': not enough values to unpack (expected 2, got 1)")).
Proof.
  refine (lnd_close_channel_no_colon (demo_world demo_lnd_net) demo_lnd "deadbeef" true _).
  reflexivity.
Defined.

(** ** C10: the result of [connect_peer] *)

Lemma reraise_true_or_raise W cls what node (m : M pyval) :
  result m = Ret (PBool true) \/ (exists e, result m = Raise e) ->
  result (reraise W cls what node m) = Ret (PBool true)
  \/ exists msg, result (reraise W cls what node m) = Raise (Raised cls msg).
Proof.
  destruct m as [tr [v | e |]]; intros [H | (e' & H)]; simpl in H; try discriminate.
  - injection H as ->. left. reflexivity.
  - right. rewrite reraise_raise. simpl. eauto.
Qed.

Lemma bind_true_or_raise {A} (m : M A) (k : A -> M pyval) :
  (exists a, result m = Ret a) \/ (exists e, result m = Raise e) ->
  (forall a, result (k a) = Ret (PBool true) \/ exists e, result (k a) = Raise e) ->
  result (bind m k) = Ret (PBool true) \/ exists e, result (bind m k) = Raise e.
Proof.
  destruct m as [tr o]. simpl. intros [(a & ->) | (e & ->)] Hk; simpl.
  - specialize (Hk a). destruct (k a) as [tr' o']. simpl in *. assumption.
  - right. eauto.
Qed.

Lemma item_at_result l i :
  (exists a, LNDClient.item_at l i = Ret a) \/ (exists e, LNDClient.item_at l i = Raise e).
Proof. unfold LNDClient.item_at. destruct (nth_error l i); eauto. Qed.

(** C10. [connect_peer] of either client, when it returns, returns [True]:
    every other end of the call is an exception, the [RuntimeError] of the
    operation, so [False] is never returned. *)
Theorem connect_peer_true_or_raises (W : world) (node_id : string)
    (host : option string) (port : option Z) :
  (forall self : CoreLightningClient.t,
     (result (CoreLightningClient.connect_peer W self node_id host port) = Ret (PBool true)
      \/ exists msg, result (CoreLightningClient.connect_peer W self node_id host port)
                     = Raise (Raised RuntimeError msg))
     /\ result (CoreLightningClient.connect_peer W self node_id host port)
        <> Ret (PBool false))
  /\ (forall self : LNDClient.t,
        (result (LNDClient.connect_peer W self node_id host port) = Ret (PBool true)
         \/ exists msg, result (LNDClient.connect_peer W self node_id host port)
                        = Raise (Raised RuntimeError msg))
        /\ result (LNDClient.connect_peer W self node_id host port) <> Ret (PBool false)).
Proof.
  assert (Hno : forall o : outcome pyval,
             (o = Ret (PBool true) \/ exists msg, o = Raise (Raised RuntimeError msg)) ->
             o <> Ret (PBool false)).
  { intros o [-> | (msg & ->)]; discriminate. }
  split; intros self.
  - assert (H : result (CoreLightningClient.connect_peer W self node_id host port)
                = Ret (PBool true)
                \/ exists msg,
                     result (CoreLightningClient.connect_peer W self node_id host port)
                     = Raise (Raised RuntimeError msg)).
    { unfold CoreLightningClient.connect_peer. apply reraise_true_or_raise.
      apply bind_true_or_raise; [| intros; left; reflexivity].
      unfold CoreLightningClient._make_request, CoreLightningClient.post, http_send,
        raise_for_status, response_json.
      destruct (net W _) as [[] | status body]; simpl; [eauto | eauto |].
      destruct ((400 <=? status) && (status <? 600)); simpl; [eauto |].
      destruct body; simpl; [eauto |].
      destruct (json_error W); simpl; eauto. }
    split; [exact H | exact (Hno _ H)].
  - assert (H : result (LNDClient.connect_peer W self node_id host port) = Ret (PBool true)
                \/ exists msg, result (LNDClient.connect_peer W self node_id host port)
                               = Raise (Raised RuntimeError msg)).
    { unfold LNDClient.connect_peer. apply reraise_true_or_raise.
      apply bind_true_or_raise.
      { unfold lift, result, snd. destruct (contains "@" node_id); [| eauto].
        apply item_at_result. }
      intros pubkey. apply bind_true_or_raise.
      { unfold lift, result, snd.
        destruct (contains "@" (peer_address node_id host port)); [apply item_at_result |].
        destruct (truthy_str host && truthy_int port); eauto. }
      intros peer_host. apply bind_true_or_raise; [| intros; left; reflexivity].
      apply lnd_make_request_result. right. left. reflexivity. }
    split; [exact H | exact (Hno _ H)].
Qed.

(** [connect_peer] does return: whenever the node answers the request with
    a JSON body and no error status. *)
Lemma cln_connect_peer_answers W self node_id host port body :
  answers (net W (CoreLightningClient.request self
                    (CoreLightningClient.url_of self "connect")
                    [("id", PStr (peer_address node_id host port))])) body ->
  result (CoreLightningClient.connect_peer W self node_id host port) = Ret (PBool true).
Proof.
  intros Hnet. unfold CoreLightningClient.connect_peer.
  rewrite (cln_make_request_answers W self "connect"
             (Some [("id", PStr (peer_address node_id host port))]) body Hnet).
  reflexivity.
Qed.

Lemma lnd_connect_peer_example :
  LNDClient.connect_peer (demo_world (always (Response 200 (Some (PDict [])))))
    demo_lnd "02ab" (Some "10.0.0.1") (Some 9735)
  = ([LNDClient.request demo_lnd "POST" "https://127.0.0.1:8080/v1/peers"
        (Some (PDict [("addr", PDict [("pubkey", PStr "02ab");
                                      ("host", PStr "10.0.0.1:9735")])]))],
     Ret (PBool true)).
Proof. reflexivity. Qed.

(** ** The Python primitives on examples *)

Example py_int_500 : py_int (PStr "500") = Ret 500.
Proof. reflexivity. Qed.

Example py_int_signed : py_int (PStr " -1_000 ") = Ret (-1000).
Proof. reflexivity. Qed.

Example py_int_bad : py_int (PStr "12a") = Raise (Lib (FIntLiteral "12a")).
Proof. reflexivity. Qed.

Example py_int_none : py_int PNone = Raise (Lib (FIntType TNone)).
Proof. reflexivity. Qed.

Example split_two : split ":" "ab:1" = ["ab"; "1"].
Proof. reflexivity. Qed.

Example split_three : split ":" "a:b:c" = ["a"; "b"; "c"].
Proof. reflexivity. Qed.

Example split_empty : split ":" "" = [""].
Proof. reflexivity. Qed.

Example hex_encode_bytes : hex_encode [x02; x01; xff; x0a] = "0201ff0a".
Proof. reflexivity. Qed.

Example floor_negative : (-1) / 1000 = -1.
Proof. reflexivity. Qed.

(** * Further properties of the code *)

(** ** [str(n)] read back by [int()] *)

(** The value of the digits of [d] after the digits already read as [acc]. *)
Lemma int_digits_uint (d : Decimal.uint) : forall acc,
  exists v, int_digits acc false (NilEmpty.string_of_uint d) = Some v
            /\ (forall p, acc = Z.pos p -> v = Z.pos (Pos.of_uint_acc d p))
            /\ (acc = 0 -> v = Z.of_N (Pos.of_uint d)).
Proof.
  induction d as [| d IH | d IH | d IH | d IH | d IH | d IH | d IH | d IH | d IH | d IH];
    intros acc.
  1: { exists acc. simpl. repeat split.
       - intros p ->. reflexivity.
       - intros ->. reflexivity. }
  all: cbn [NilEmpty.string_of_uint int_digits];
    match goal with
    | |- context [is_digit ?c] => change (is_digit c) with true; cbv iota
    end;
    match goal with
    | |- context [digit_val ?c] =>
        let k := eval vm_compute in (digit_val c) in change (digit_val c) with k
    end;
    match goal with
    | |- context [int_digits ?a false _] =>
        destruct (IH a) as (v & Hv & Hpos & Hzero)
    end;
    exists v; (split; [exact Hv |]); split.
  all: try (intros p ->; apply Hpos; simpl; try reflexivity; lia).
  all: intros ->; simpl in *.
  - apply Hzero. reflexivity.
  - apply (Hpos 1%positive). reflexivity.
  - apply (Hpos 2%positive). reflexivity.
  - apply (Hpos 3%positive). reflexivity.
  - apply (Hpos 4%positive). reflexivity.
  - apply (Hpos 5%positive). reflexivity.
  - apply (Hpos 6%positive). reflexivity.
  - apply (Hpos 7%positive). reflexivity.
  - apply (Hpos 8%positive). reflexivity.
  - apply (Hpos 9%positive). reflexivity.
Qed.

Lemma int_literal_uint (d : Decimal.uint) :
  d <> Decimal.Nil ->
  int_literal (NilEmpty.string_of_uint d) = Some (Z.of_N (Pos.of_uint d))
  /\ int_literal (String "-" (NilEmpty.string_of_uint d))
     = Some (- Z.of_N (Pos.of_uint d)).
Proof.
  intros Hd.
  destruct (int_digits_uint d 0) as (v & Hv & _ & Hz).
  rewrite (Hz eq_refl) in Hv. clear Hz.
  assert (Hu : int_unsigned (NilEmpty.string_of_uint d) = Some (Z.of_N (Pos.of_uint d))).
  { destruct d; [contradiction | ..]; exact Hv. }
  split.
  - destruct d; [contradiction | ..]; exact Hu.
  - change (int_literal (String "-" (NilEmpty.string_of_uint d)))
      with (option_map Z.opp (int_unsigned (NilEmpty.string_of_uint d))).
    rewrite Hu. reflexivity.
Qed.

Lemma uint_chars_sure (d : Decimal.uint) :
  all_chars (fun a => negb (is_unsure a)) (NilEmpty.string_of_uint d) = true.
Proof. induction d; simpl; try assumption; reflexivity. Qed.

(** Python reads back the decimal text it prints for an integer: the
    round trip of [str] and [int], within the length [int()] accepts in
    every version. *)
Lemma py_int_str_of_Z (z : Z) :
  (String.length (str_of_Z z) <= 4300)%nat -> py_int (PStr (str_of_Z z)) = Ret z.
Proof.
  intros Hlen. unfold py_int.
  destruct (Nat.ltb_spec 4300 (String.length (str_of_Z z))) as [Hgt | _]; [lia |].
  pose proof (DecimalZ.of_to z) as Hz.
  unfold str_of_Z in *. clear Hlen.
  destruct (Z.to_int z) as [d | d] eqn:Hd.
  - assert (Hnil : d <> Decimal.Nil).
    { destruct z; simpl in Hd; try discriminate; injection Hd as <-;
        [discriminate | apply DecimalPos.Unsigned.to_uint_nonnil]. }
    assert (Hs : NilZero.string_of_int (Decimal.Pos d) = NilEmpty.string_of_uint d).
    { destruct d; [contradiction | ..]; reflexivity. }
    rewrite Hs, uint_chars_sure. simpl negb. cbv iota.
    rewrite (proj1 (int_literal_uint d Hnil)). f_equal. exact Hz.
  - assert (Hnil : d <> Decimal.Nil).
    { destruct z; simpl in Hd; try discriminate. injection Hd as <-.
      apply DecimalPos.Unsigned.to_uint_nonnil. }
    assert (Hs : NilZero.string_of_int (Decimal.Neg d)
                 = String "-" (NilEmpty.string_of_uint d)).
    { destruct d; [contradiction | ..]; reflexivity. }
    rewrite Hs. cbn [all_chars]. rewrite uint_chars_sure. simpl negb. cbv iota.
    rewrite (proj2 (int_literal_uint d Hnil)). f_equal. exact Hz.
Qed.

(** ** core_lightning.py: requests and credentials *)

(** X1. Every CoreLightningClient operation issues exactly one request,
    whatever the node answers: a POST to [{base_url}/v1/{method}] for one of
    the thirteen method names, with the headers, the client certificate and
    the verification setting of the session. *)
Theorem cln_call_one_post (W : world) (self : CoreLightningClient.t)
    (o : CoreLightningClient.op) :
  exists method payload,
    In method cln_methods
    /\ trace (CoreLightningClient.call W self o)
       = [{| rq_method := "POST";
             rq_url := CoreLightningClient.base_url self +:+ "/v1/" +:+ method;
             rq_headers := CoreLightningClient.headers (CoreLightningClient.session self);
             rq_json := Some (PDict payload);
             rq_verify := CoreLightningClient.verify (CoreLightningClient.session self);
             rq_cert := CoreLightningClient.cert (CoreLightningClient.session self) |}].
Proof.
  destruct o; simpl;
    try (unfold CoreLightningClient.list_channels, CoreLightningClient.list_peers,
           CoreLightningClient.list_invoices, CoreLightningClient.list_payments;
         rewrite cln_listing_trace);
    try match goal with
      | |- context [trace (?f W self)] => unfold f
      | |- context [trace (?f W self _)] => unfold f
      | |- context [trace (?f W self _ _)] => unfold f
      | |- context [trace (?f W self _ _ _)] => unfold f
      end;
    try (rewrite trace_reraise, trace_bind_quiet by quiet;
         rewrite cln_make_request_trace);
    match goal with
    | |- context [CoreLightningClient.url_of self ?m] =>
        exists m; eexists; split; [simpl; tauto | reflexivity]
    end.
Qed.

Lemma cln_call_headers_in W self o rq :
  In rq (trace (CoreLightningClient.call W self o)) ->
  rq_headers rq = CoreLightningClient.headers (CoreLightningClient.session self).
Proof.
  destruct (cln_call_trace W self o) as (method & payload & ->).
  intros [<- | []]. reflexivity.
Qed.

(** X2. A rune file that can be read (ASCII text) is loaded once, while
    the client is constructed: its text, stripped of surrounding whitespace,
    becomes the [Rune] header, and every request of every later operation
    carries it.  A rune file that is missing or cannot be read does not stop
    the construction: the client then holds and sends no header. *)
Theorem cln_rune_header (W : world) (config : PolarConfig) (node_name : string)
    (nc : NodeConfig) (p : string) :
  nodes config !! node_name = Some nc ->
  implementation nc = "CLN" ->
  truthy_int (rest_port nc) = true ->
  rune_path nc = Some p ->
  p <> "" ->
  (forall bytes,
     fs W p = File (Some bytes) ->
     all_chars is_ascii (string_of_list_byte bytes) = true ->
     exists c,
       CoreLightningClient.__init__ W config node_name = ([], Ret c)
       /\ CoreLightningClient.headers (CoreLightningClient.session c)
          = [("Rune", strip (CoreLightningClient.newlines (string_of_list_byte bytes)))]
       /\ forall o rq, In rq (trace (CoreLightningClient.call W c o)) ->
            rq_headers rq
            = [("Rune", strip (CoreLightningClient.newlines (string_of_list_byte bytes)))])
  /\ ((forall bytes, fs W p <> File (Some bytes)) ->
      exists c,
        CoreLightningClient.__init__ W config node_name = ([], Ret c)
        /\ CoreLightningClient.headers (CoreLightningClient.session c) = []
        /\ forall o rq, In rq (trace (CoreLightningClient.call W c o)) ->
             rq_headers rq = []).
Proof.
  intros Hnode Himpl Hport Hrune Hne.
  assert (Htruthy : truthy_str (Some p) = true).
  { simpl. destruct (String.eqb_spec p ""); [contradiction | reflexivity]. }
  unfold CoreLightningClient.__init__. rewrite Hnode, Himpl, Hport. simpl negb. cbv iota.
  unfold CoreLightningClient._setup_auth. rewrite Hrune, Htruthy.
  unfold CoreLightningClient.read_text.
  split.
  - intros bytes Hfs Hascii. rewrite Hfs, Hascii. simpl.
    eexists. split; [reflexivity |]. split; [reflexivity |].
    intros o rq Hin. exact (cln_call_headers_in _ _ _ _ Hin).
  - intros Hno.
    assert (Hread : match fs W p with
                    | File (Some bytes) =>
                        if all_chars is_ascii (string_of_list_byte bytes)
                        then Ret (CoreLightningClient.newlines (string_of_list_byte bytes))
                        else Beyond
                    | _ => Raise (Lib (FOpen p))
                    end = Raise (Lib (FOpen p))).
    { destruct (fs W p) as [| | [bytes |]]; try reflexivity.
      exfalso. exact (Hno bytes eq_refl). }
    rewrite Hread. simpl.
    eexists. split; [reflexivity |]. split; [reflexivity |].
    intros o rq Hin. exact (cln_call_headers_in _ _ _ _ Hin).
Qed.

Lemma cln_rune_header_witness :
  exists c,
    CoreLightningClient.__init__ (rune_world (always (NoResponse ConnectFailed)))
      rune_config "erin" = ([], Ret c)
    /\ CoreLightningClient.headers (CoreLightningClient.session c) = [("Rune", "abc")]
    /\ forall o rq,
         In rq (trace (CoreLightningClient.call
                         (rune_world (always (NoResponse ConnectFailed))) c o)) ->
         rq_headers rq = [("Rune", "abc")].
Proof.
  refine (proj1 (cln_rune_header (rune_world (always (NoResponse ConnectFailed)))
                   rune_config "erin" erin "/cln/admin.rune" _ _ _ _ _)
            [x20; x61; x62; x63; x0a] _ _).
  - reflexivity.
  - reflexivity.
  - reflexivity.
  - reflexivity.
  - discriminate.
  - reflexivity.
  - reflexivity.
Defined.

(** ** core_lightning.py: what the operations return *)

Lemma sum_outputs_app good : forall acc rest,
  forallb listfunds_output good = true ->
  CoreLightningClient.sum_outputs acc (good ++ rest)
  = CoreLightningClient.sum_outputs (acc + confirmed_msat good) rest.
Proof.
  induction good as [| output good IH]; intros acc rest Hwf.
  - simpl. f_equal. unfold confirmed_msat. simpl. lia.
  - simpl in Hwf. apply andb_prop in Hwf as [Ho Hgood].
    pose proof (sum_outputs_spec [output] acc) as Hone.
    simpl forallb in Hone. rewrite Ho in Hone. specialize (Hone eq_refl).
    change ((output :: good) ++ rest) with (output :: (good ++ rest)).
    assert (Hstep : forall l,
               CoreLightningClient.sum_outputs acc (output :: l)
               = CoreLightningClient.sum_outputs (acc + confirmed_msat [output]) l).
    { intros l. unfold listfunds_output in Ho. apply andb_prop in Ho as [Hd Hamt].
      destruct output as [| | | | | | d]; try discriminate.
      unfold confirmed_msat. simpl. simpl in Hamt.
      destruct (dict_lookup "status" d) as [status |]; simpl.
      - destruct (is_str status "confirmed"); simpl.
        + simpl in Hamt.
          destruct (dict_lookup "amount_msat" d) as [[| | z | | | |] |];
            try discriminate.
          simpl. f_equal. lia.
        + f_equal. lia.
      - f_equal. lia. }
    rewrite Hstep, IH by assumption. f_equal.
    unfold confirmed_msat. simpl.
    destruct (is_confirmed output); simpl; lia.
Qed.

(** X3. When the first output of a [listfunds] answer that is not
    well-formed is a confirmed output without [amount_msat],
    [CoreLightningClient.get_balance] returns no balance at all: it raises
    [ConnectionError], naming the node, with the text of the missing key,
    though the node was reached and answered. *)
Theorem cln_get_balance_missing_amount (W : world) (self : CoreLightningClient.t)
    (body : pyval) (good rest : list pyval) (d : list (string * pyval)) :
  answers (net W (CoreLightningClient.request self
                    (CoreLightningClient.url_of self "listfunds") [])) body ->
  py_get body "outputs" (PList []) = Ret (PList (good ++ PDict d :: rest)) ->
  forallb listfunds_output good = true ->
  is_confirmed (PDict d) = true ->
  dict_lookup "amount_msat" d = None ->
  result (CoreLightningClient.get_balance W self)
  = Raise (Raised ConnectionError
             ("Failed to get balance from CLN node" +:+ " '"
              +:+ CoreLightningClient.node_name self +:+ "': "
              +:+ fault_text W (FKey "amount_msat"))).
Proof.
  intros Hnet Hout Hgood Hconf Hmiss.
  unfold CoreLightningClient.get_balance.
  rewrite (cln_make_request_answers W self "listfunds" None body Hnet).
  unfold bind at 1. rewrite Hout. simpl obind.
  rewrite (bind_lift_ret _ _ _ eq_refl).
  rewrite (sum_outputs_app good 0 _ Hgood).
  simpl in Hconf. simpl CoreLightningClient.sum_outputs.
  destruct (dict_lookup "status" d) as [status |]; [| discriminate].
  simpl. rewrite Hconf, Hmiss. reflexivity.
Qed.

Lemma cln_get_balance_missing_amount_witness :
  result (CoreLightningClient.get_balance
            (demo_world (always (Response 200 (Some
               (PDict [("outputs",
                        PList [PDict [("amount_msat", PInt 5000); ("status", PStr "confirmed")];
                               PDict [("status", PStr "confirmed")]])])))))
            demo_cln)
  = Raise (Raised ConnectionError "Failed to get balance from CLN node 'bob': error").
Proof.
  refine (cln_get_balance_missing_amount _ demo_cln _
            [PDict [("amount_msat", PInt 5000); ("status", PStr "confirmed")]] []
            [("status", PStr "confirmed")] _ _ _ _ _).
  - exists 200. split; reflexivity.
  - reflexivity.
  - reflexivity.
  - reflexivity.
  - reflexivity.
Defined.

(** X4. A listing call of CoreLightningClient returns what the answer
    holds under the key of the call, as it is, a list or not, and the empty
    list when the answer is a JSON object without that key; on an answer
    that is not a JSON object it raises the exception of the call with the
    text of the failed attribute access. *)
Theorem cln_listing_result (W : world) (self : CoreLightningClient.t)
    (cls : exc_class) (what method key : string) (body : pyval) :
  answers (net W (CoreLightningClient.request self
                    (CoreLightningClient.url_of self method) [])) body ->
  result (CoreLightningClient.listing W self cls what method key)
  = match body with
    | PDict d =>
        Ret (match dict_lookup key d with
             | Some v => v
             | None => PList []
             end)
    | _ =>
        Raise (Raised cls (what +:+ " '" +:+ CoreLightningClient.node_name self +:+ "': "
                           +:+ fault_text W (FAttr (type_of body) "get")))
    end.
Proof.
  intros Hnet. unfold CoreLightningClient.listing.
  rewrite (cln_make_request_answers W self method None body Hnet).
  destruct body as [| b | z | lit | s | l | d]; try reflexivity.
  simpl. destruct (dict_lookup key d); reflexivity.
Qed.

Lemma cln_listing_result_witness :
  result (CoreLightningClient.list_peers
            (demo_world (always (Response 200 (Some (PDict [("other", PInt 1)]))))) demo_cln)
  = Ret (PList []).
Proof.
  refine (cln_listing_result (demo_world (always (Response 200 (Some (PDict [("other", PInt 1)])))))
            demo_cln ConnectionError "Failed to list peers from CLN node" "listpeers" "peers"
            (PDict [("other", PInt 1)]) _).
  exists 200. split; reflexivity.
Defined.

(** X5. [CoreLightningClient.connect_peer] addresses the peer as
    [node_id@host:port] only when a non-empty host and a non-zero port are
    both given; with either missing, the other is dropped and the bare
    [node_id] is sent.  It returns [True] whenever the node answers the
    [connect] request with a JSON body and no error status, whatever the
    body says. *)
Theorem cln_connect_peer_address (W : world) (self : CoreLightningClient.t)
    (node_id : string) :
  (forall h p,
     h <> "" -> p <> 0 ->
     trace (CoreLightningClient.connect_peer W self node_id (Some h) (Some p))
     = [CoreLightningClient.request self (CoreLightningClient.url_of self "connect")
          [("id", PStr (node_id +:+ "@" +:+ h +:+ ":" +:+ str_of_Z p))]])
  /\ (forall host port,
        host = None \/ host = Some "" \/ port = None \/ port = Some 0 ->
        trace (CoreLightningClient.connect_peer W self node_id host port)
        = [CoreLightningClient.request self (CoreLightningClient.url_of self "connect")
             [("id", PStr node_id)]])
  /\ (forall host port body,
        answers (net W (CoreLightningClient.request self
                          (CoreLightningClient.url_of self "connect")
                          [("id", PStr (peer_address node_id host port))])) body ->
        result (CoreLightningClient.connect_peer W self node_id host port)
        = Ret (PBool true)).
Proof.
  assert (Htrace : forall host port,
             trace (CoreLightningClient.connect_peer W self node_id host port)
             = [CoreLightningClient.request self (CoreLightningClient.url_of self "connect")
                  [("id", PStr (peer_address node_id host port))]]).
  { intros host port. unfold CoreLightningClient.connect_peer.
    rewrite trace_reraise, trace_bind_quiet by quiet.
    apply cln_make_request_trace. }
  split; [| split].
  - intros h p Hh Hp. rewrite Htrace. unfold peer_address. simpl.
    destruct (String.eqb_spec h ""); [contradiction |].
    destruct (Z.eqb_spec p 0); [contradiction |]. reflexivity.
  - intros host port Hmiss. rewrite Htrace. unfold peer_address.
    assert (Hf : truthy_str host && truthy_int port = false).
    { destruct Hmiss as [-> | [-> | [-> | ->]]]; simpl; try reflexivity;
        apply andb_false_r. }
    rewrite Hf. reflexivity.
  - intros host port body Hnet. exact (cln_connect_peer_answers W self _ _ _ body Hnet).
Qed.

Lemma cln_connect_peer_address_witness :
  trace (CoreLightningClient.connect_peer (demo_world (always (NoResponse ConnectFailed)))
           demo_cln "02ab" (Some "10.0.0.9") (Some 9735))
  = [CoreLightningClient.request demo_cln "http://127.0.0.1:8182/v1/connect"
       [("id", PStr "02ab@10.0.0.9:9735")]]
  /\ trace (CoreLightningClient.connect_peer (demo_world (always (NoResponse ConnectFailed)))
              demo_cln "02ab" (Some "10.0.0.9") None)
     = [CoreLightningClient.request demo_cln "http://127.0.0.1:8182/v1/connect"
          [("id", PStr "02ab")]].
Proof.
  split.
  - refine (proj1 (cln_connect_peer_address (demo_world (always (NoResponse ConnectFailed)))
                     demo_cln "02ab") "10.0.0.9" 9735 _ _); discriminate.
  - refine (proj1 (proj2 (cln_connect_peer_address
                            (demo_world (always (NoResponse ConnectFailed)))
                            demo_cln "02ab")) (Some "10.0.0.9") None _).
    right. right. left. reflexivity.
Defined.

(** ** lnd.py: the request primitive *)

Lemma upper_literal_get : upper "GET" = Ret "GET".
Proof. reflexivity. Qed.

(** X6. [LNDClient._make_request] takes its verb in any letter case.  A
    verb that is none of GET, POST and DELETE raises [ValueError] naming
    it, before any request is issued, and no handler of the primitive
    turns that error into another. *)
Theorem lnd_make_request_method (W : world) (self : LNDClient.t)
    (method endpoint : string) (data : option (list (string * pyval))) (m : string) :
  upper method = Ret m ->
  (m = "GET" \/ m = "POST" \/ m = "DELETE" ->
   LNDClient._make_request W self method endpoint data
   = LNDClient._make_request W self m endpoint data)
  /\ (m <> "GET" -> m <> "POST" -> m <> "DELETE" ->
      LNDClient._make_request W self method endpoint data
      = ([], Raise (Raised ValueError ("Unsupported HTTP method: " +:+ method)))).
Proof.
  intros Hup. split.
  - intros [-> | [-> | ->]]; unfold LNDClient._make_request; rewrite Hup; reflexivity.
  - intros Hg Hp Hd. unfold LNDClient._make_request. rewrite Hup.
    unfold lift, bind at 1.
    destruct (String.eqb_spec m "GET"); [contradiction |].
    destruct (String.eqb_spec m "POST"); [contradiction |].
    destruct (String.eqb_spec m "DELETE"); [contradiction |].
    reflexivity.
Qed.

Lemma lnd_make_request_method_witness :
  LNDClient._make_request (demo_world demo_lnd_net) demo_lnd "get"
    "/v1/balance/channels" None
  = LNDClient._make_request (demo_world demo_lnd_net) demo_lnd "GET"
      "/v1/balance/channels" None
  /\ LNDClient._make_request (demo_world demo_lnd_net) demo_lnd "patch" "/v1/peers" None
     = ([], Raise (Raised ValueError "Unsupported HTTP method: patch")).
Proof.
  split.
  - refine (proj1 (lnd_make_request_method (demo_world demo_lnd_net) demo_lnd "get"
                     "/v1/balance/channels" None "GET" _) _).
    + reflexivity.
    + left. reflexivity.
  - refine (proj2 (lnd_make_request_method (demo_world demo_lnd_net) demo_lnd "patch"
                     "/v1/peers" None "PATCH" _) _ _ _).
    + reflexivity.
    + discriminate.
    + discriminate.
    + discriminate.
Defined.

(** The request a supported verb sends. *)
Lemma lnd_make_request_trace W self method endpoint data :
  method = "GET" \/ method = "POST" \/ method = "DELETE" ->
  trace (LNDClient._make_request W self method endpoint data)
  = [LNDClient.request self method (LNDClient.base_url self +:+ endpoint)
       (if String.eqb method "POST" then option_map PDict data else None)].
Proof.
  intros [-> | [-> | ->]];
    unfold LNDClient._make_request, LNDClient.send, http_send, raise_for_status,
      response_json; simpl;
    (destruct (net W _) as [[] | status body]; simpl; [reflexivity | reflexivity |]);
    (destruct ((400 <=? status) && (status <? 600)); simpl; [reflexivity |]);
    (destruct body; simpl; [reflexivity |]);
    destruct (json_error W); reflexivity.
Qed.

(** X7. With a supported verb, [LNDClient._make_request] issues one
    request to [base_url + endpoint] and raises [ConnectionError] exactly
    when the connection itself fails; its message then names the node and
    the URL.  An error status, a timeout or a body that is not JSON never
    surfaces as [ConnectionError] from the primitive. *)
Theorem lnd_connection_error_iff (W : world) (self : LNDClient.t)
    (method endpoint : string) (data : option (list (string * pyval))) :
  method = "GET" \/ method = "POST" \/ method = "DELETE" ->
  let url := LNDClient.base_url self +:+ endpoint in
  let rq := LNDClient.request self method url
              (if String.eqb method "POST" then option_map PDict data else None) in
  trace (LNDClient._make_request W self method endpoint data) = [rq]
  /\ ((exists msg, result (LNDClient._make_request W self method endpoint data)
                   = Raise (Raised ConnectionError msg))
      <-> net W rq = NoResponse ConnectFailed)
  /\ (net W rq = NoResponse ConnectFailed ->
      result (LNDClient._make_request W self method endpoint data)
      = Raise (Raised ConnectionError
                 ("Failed to connect to LND node '" +:+ LNDClient.node_name self
                  +:+ "' at " +:+ url +:+ ": "
                  +:+ fault_text W (FTransport ConnectFailed url)))).
Proof.
  intros Hm url rq. split; [apply lnd_make_request_trace; assumption |].
  subst url rq.
  destruct Hm as [-> | [-> | ->]];
    unfold LNDClient._make_request, LNDClient.send, http_send, raise_for_status,
      response_json; simpl;
    (destruct (net W _) as [[] | status body] eqn:Hnet; simpl;
     [ split; [split; [intros _; reflexivity | intros _; eexists; reflexivity]
              | intros _; reflexivity]
     | split; [split; [intros (msg & H); discriminate | discriminate] | discriminate]
     | ]);
    (destruct ((400 <=? status) && (status <? 600)); simpl;
     [ split; [split; [intros (msg & H); discriminate | discriminate] | discriminate] | ]);
    (destruct body; simpl;
     [ split; [split; [intros (msg & H); discriminate | discriminate] | discriminate] | ]);
    destruct (json_error W); simpl;
    (split; [split; [intros (msg & H); discriminate | discriminate] | discriminate]).
Qed.

Lemma lnd_connection_error_iff_witness :
  result (LNDClient._make_request (demo_world (always (NoResponse ConnectFailed)))
            demo_lnd "GET" "/v1/getinfo" None)
  = Raise (Raised ConnectionError
      "Failed to connect to LND node 'alice' at https://127.0.0.1:8080/v1/getinfo: Connection refused: https://127.0.0.1:8080/v1/getinfo").
Proof.
  refine (proj2 (proj2 (lnd_connection_error_iff
                          (demo_world (always (NoResponse ConnectFailed)))
                          demo_lnd "GET" "/v1/getinfo" None _)) _).
  - left. reflexivity.
  - reflexivity.
Defined.

Lemma lnd_get_fails W self endpoint :
  fails (net W (LNDClient.request self "GET" (LNDClient.base_url self +:+ endpoint) None)) ->
  exists e,
    LNDClient._make_request W self "GET" endpoint None
    = ([LNDClient.request self "GET" (LNDClient.base_url self +:+ endpoint) None], Raise e).
Proof.
  unfold LNDClient._make_request, LNDClient.send, http_send, raise_for_status,
    response_json. simpl.
  destruct (net W _) as [[] | status body]; simpl; [eauto | eauto |].
  destruct ((400 <=? status) && (status <? 600)) eqn:E; simpl; [eauto |].
  intros [Hbad | ->]; [discriminate |]. simpl.
  destruct (json_error W); simpl; eauto.
Qed.

(** ** lnd.py: the operations *)

(** X8. When the wallet request of [LNDClient.get_balance] fails, the
    channel balance is never asked for: the one request issued is the GET
    of [/v1/balance/blockchain], and the call raises [ConnectionError]
    naming the node. *)
Theorem lnd_get_balance_stops (W : world) (self : LNDClient.t) :
  fails (net W (LNDClient.request self "GET"
                  (LNDClient.base_url self +:+ "/v1/balance/blockchain") None)) ->
  exists inner,
    LNDClient.get_balance W self
    = ([LNDClient.request self "GET"
          (LNDClient.base_url self +:+ "/v1/balance/blockchain") None],
       Raise (Raised ConnectionError
                ("Failed to get balance from LND node" +:+ " '"
                 +:+ LNDClient.node_name self +:+ "': " +:+ inner))).
Proof.
  intros Hfail. destruct (lnd_get_fails W self _ Hfail) as (e & Hreq).
  exists (str W e). unfold LNDClient.get_balance. rewrite Hreq.
  unfold bind. apply reraise_raise.
Qed.

Lemma lnd_get_balance_stops_witness :
  exists inner,
    LNDClient.get_balance (demo_world (always (Response 503 None))) demo_lnd
    = ([LNDClient.request demo_lnd "GET" "https://127.0.0.1:8080/v1/balance/blockchain" None],
       Raise (Raised ConnectionError
                ("Failed to get balance from LND node" +:+ " '" +:+ "alice" +:+ "': "
                 +:+ inner))).
Proof.
  refine (lnd_get_balance_stops (demo_world (always (Response 503 None))) demo_lnd _).
  simpl. left. reflexivity.
Defined.

Lemma lnd_make_request_ok W self method path data :
  Forall (lnd_request_ok self)
    (trace (LNDClient._make_request W self method ("/v1/" +:+ path) data)).
Proof.
  assert (Hok : forall m d, In m ["GET"; "POST"; "DELETE"] ->
            lnd_request_ok self
              (LNDClient.request self m (LNDClient.base_url self +:+ "/v1/" +:+ path) d)).
  { intros m d Hm. repeat split; try assumption. exists path. reflexivity. }
  unfold LNDClient._make_request. apply all_catch.
  - apply all_bind; [apply List.Forall_nil |]. intros m.
    apply all_bind.
    + destruct (String.eqb m "GET"); [apply all_send, Hok; simpl; tauto |].
      destruct (String.eqb m "POST"); [apply all_send, Hok; simpl; tauto |].
      destruct (String.eqb m "DELETE"); [apply all_send, Hok; simpl; tauto |].
      apply List.Forall_nil.
    + intros response. apply all_bind.
      * unfold raise_for_status. destruct (_ && _); apply List.Forall_nil.
      * intros _. unfold response_json. destruct (snd response); apply List.Forall_nil.
  - intros e. destruct e as [[[] | | | | | | | | | | | |] |];
      try destruct (json_error W); apply List.Forall_nil.
Qed.

Lemma count_bind {A B} (m : M A) (k : A -> M B) (a b : nat) :
  (length (trace m) <= a)%nat -> (forall x, (length (trace (k x)) <= b)%nat) ->
  (length (trace (bind m k)) <= a + b)%nat.
Proof.
  intros Hm Hk. destruct m as [tr [x | e |]]; simpl in *; try lia.
  specialize (Hk x). destruct (k x) as [tr' o]. simpl in *.
  rewrite length_app. lia.
Qed.

Lemma count_catch {A} (m : M A) (h : exn -> M A) (a b : nat) :
  (length (trace m) <= a)%nat -> (forall e, (length (trace (h e)) <= b)%nat) ->
  (length (trace (catch m h)) <= a + b)%nat.
Proof.
  intros Hm Hh. destruct m as [tr [x | e |]]; simpl in *; try lia.
  specialize (Hh e). destruct (h e) as [tr' o]. simpl in *.
  rewrite length_app. lia.
Qed.

Lemma lnd_make_request_count W self method endpoint data :
  (length (trace (LNDClient._make_request W self method endpoint data)) <= 1)%nat.
Proof.
  unfold LNDClient._make_request. apply (count_catch _ _ 1 0).
  - apply (count_bind _ _ 0 1); [simpl; lia |]. intros m.
    apply (count_bind _ _ 1 0).
    + destruct (String.eqb m "GET"); [simpl; lia |].
      destruct (String.eqb m "POST"); [simpl; lia |].
      destruct (String.eqb m "DELETE"); simpl; lia.
    + intros response. apply (count_bind _ _ 0 0).
      * unfold raise_for_status. destruct (_ && _); simpl; lia.
      * intros _. unfold response_json. destruct (snd response); simpl; lia.
  - intros e. destruct e as [[[] | | | | | | | | | | | |] |];
      try destruct (json_error W); simpl; lia.
Qed.

Ltac lnd_requests :=
  repeat first
    [ rewrite trace_reraise
    | apply (lnd_make_request_ok _ _ _ "getinfo")
    | apply (lnd_make_request_ok _ _ _ "balance/blockchain")
    | apply (lnd_make_request_ok _ _ _ "balance/channels")
    | apply (lnd_make_request_ok _ _ _ "channels")
    | apply (lnd_make_request_ok _ _ _ "peers")
    | apply (lnd_make_request_ok _ _ _ "invoices")
    | apply (lnd_make_request_ok _ _ _ "channels/transactions")
    | apply (lnd_make_request_ok _ _ _ "graph/routes")
    | apply (lnd_make_request_ok _ _ _ "payments")
    | apply (lnd_make_request_ok _ _ _ ("payreq/" +:+ _))
    | apply (lnd_make_request_ok _ _ _ ("channels/" +:+ _))
    | apply (lnd_make_request_ok _ _ _ ("invoices" +:+ _))
    | apply all_bind; [| intros ]
    | match goal with
      | |- Forall _ (trace (match ?x with _ => _ end)) => destruct x
      | |- Forall _ (trace (lift _)) => apply List.Forall_nil
      | |- Forall _ (trace (ret _)) => apply List.Forall_nil
      | |- Forall _ (trace (raise _)) => apply List.Forall_nil
      end ].

Lemma count_quiet_bind {A B} (m : M A) (k : A -> M B) (n : nat) :
  trace m = [] -> (forall x, (length (trace (k x)) <= n)%nat) ->
  (length (trace (bind m k)) <= n)%nat.
Proof.
  intros Hm Hk. apply (count_bind m k 0 n); [rewrite Hm; simpl; lia | assumption].
Qed.

Ltac one_request :=
  rewrite trace_bind_quiet by quiet; apply lnd_make_request_count.

Lemma lnd_call_ok (W : world) (self : LNDClient.t) (o : LNDClient.op) :
  Forall (lnd_request_ok self) (trace (LNDClient.call W self o)).
Proof.
  destruct o; simpl;
    match goal with
    | |- context [trace (?f W self)] => unfold f; try unfold LNDClient.listing
    | |- context [trace (?f W self _)] => unfold f; try unfold LNDClient.listing
    | |- context [trace (?f W self _ _)] => unfold f
    | |- context [trace (?f W self _ _ _)] => unfold f
    end;
    lnd_requests.
Qed.

Lemma lnd_call_count (W : world) (self : LNDClient.t) (o : LNDClient.op) :
  (length (trace (LNDClient.call W self o))
   <= match o with LNDClient.GetBalance => 2 | _ => 1 end)%nat.
Proof.
  destruct o; simpl;
    match goal with
    | |- context [trace (?f W self)] => unfold f; try unfold LNDClient.listing
    | |- context [trace (?f W self _)] => unfold f; try unfold LNDClient.listing
    | |- context [trace (?f W self _ _)] => unfold f
    | |- context [trace (?f W self _ _ _)] => unfold f
    end;
    rewrite trace_reraise.
  all: try one_request.
  - apply (count_bind _ _ 1 1); [apply lnd_make_request_count |].
    intros wallet_response. apply count_quiet_bind; [reflexivity |].
    intros wallet_balance. one_request.
  - apply count_quiet_bind; [reflexivity |]. intros pubkey.
    apply count_quiet_bind; [reflexivity |]. intros peer_host. one_request.
  - apply count_quiet_bind.
    + destruct (split ":" channel_point) as [| txid [| output_index [| extra l]]];
        reflexivity.
    + intros parts. one_request.
Qed.

(** X9. Every request of every LNDClient operation goes to a path under
    [/v1/] of the client's base URL, with GET, POST or DELETE, the client's
    certificate verification setting and no client certificate.  An
    operation issues at most one request, [get_balance] at most two. *)
Theorem lnd_call_requests (W : world) (self : LNDClient.t) (o : LNDClient.op) :
  Forall (lnd_request_ok self) (trace (LNDClient.call W self o))
  /\ (length (trace (LNDClient.call W self o))
      <= match o with LNDClient.GetBalance => 2 | _ => 1 end)%nat.
Proof. split; [apply lnd_call_ok | apply lnd_call_count]. Qed.

(** *** Splitting identifiers *)

Lemma contains_append c a b : contains c (a +:+ b) = contains c a || contains c b.
Proof.
  induction a as [| x a IH]; simpl; [reflexivity |].
  destruct (ascii_eqb x c); [reflexivity | exact IH].
Qed.

Lemma ascii_eqb_refl a : ascii_eqb a a = true.
Proof. apply Ascii.eqb_refl. Qed.

Lemma split_not_nil sep s : split sep s <> [].
Proof.
  destruct s as [| a s]; simpl; [discriminate |].
  destruct (ascii_eqb a sep); [discriminate |].
  destruct (split sep s); discriminate.
Qed.

Lemma split_at_sep sep a b :
  contains sep a = false -> split sep (a +:+ String sep b) = a :: split sep b.
Proof.
  induction a as [| x a IH]; simpl.
  - intros _. rewrite ascii_eqb_refl. reflexivity.
  - destruct (ascii_eqb x sep); [discriminate |].
    intros H. rewrite (IH H). reflexivity.
Qed.

Lemma split_length_append sep a b :
  length (split sep (a +:+ String sep b))
  = (length (split sep a) + length (split sep b))%nat.
Proof.
  induction a as [| x a IH]; simpl.
  - rewrite ascii_eqb_refl. reflexivity.
  - destruct (ascii_eqb x sep); simpl; [rewrite IH; reflexivity |].
    destruct (split sep (a +:+ String sep b)) as [| w ws] eqn:E1;
      [exfalso; exact (split_not_nil _ _ E1) |].
    destruct (split sep a) as [| v vs] eqn:E2;
      [exfalso; exact (split_not_nil _ _ E2) |].
    simpl in *. exact IH.
Qed.

Lemma split_length_pos sep s : (1 <= length (split sep s))%nat.
Proof.
  destruct (split sep s) eqn:E; [exfalso; exact (split_not_nil _ _ E) | simpl; lia].
Qed.

Lemma append_assoc (a b c : string) : (a +:+ b) +:+ c = a +:+ (b +:+ c).
Proof.
  induction a as [| x a IH]; [reflexivity |].
  change (String x ((a +:+ b) +:+ c) = String x (a +:+ (b +:+ c))).
  f_equal. exact IH.
Qed.

Lemma bind_ret_l {A B} (a : A) (k : A -> M B) : bind (ret a) k = k a.
Proof. unfold bind, ret. destruct (k a); reflexivity. Qed.

(** X10. [LNDClient.close_channel] on [txid:index], one colon, issues one
    DELETE to [/v1/channels/{txid}/{index}], with [?force=true] appended
    exactly when [force] is set.  On a channel point with two colons or
    more it issues no request and raises the [RuntimeError] of the
    operation, with the text of the failed unpacking. *)
Theorem lnd_close_channel_colons (W : world) (self : LNDClient.t) (force : bool) :
  (forall txid output_index,
     contains ":" txid = false -> contains ":" output_index = false ->
     trace (LNDClient.close_channel W self (txid +:+ ":" +:+ output_index) force)
     = [LNDClient.request self "DELETE"
          (LNDClient.base_url self +:+ "/v1/channels/" +:+ txid +:+ "/" +:+ output_index
           +:+ (if force then "?force=true" else "")) None])
  /\ (forall a b c,
        LNDClient.close_channel W self (a +:+ ":" +:+ b +:+ ":" +:+ c) force
        = ([], Raise (Raised RuntimeError
                 ("Failed to close channel on LND node" +:+ " '"
                  +:+ LNDClient.node_name self +:+ "': "
                  +:+ fault_text W
                        (FUnpack 2 (length (split ":" (a +:+ ":" +:+ b +:+ ":" +:+ c)))))))).
Proof.
  split.
  - intros txid output_index Ht Hi. unfold LNDClient.close_channel.
    change (txid +:+ ":" +:+ output_index) with (txid +:+ String ":" output_index).
    rewrite (split_at_sep _ _ _ Ht), (split_no_sep _ _ Hi).
    rewrite trace_reraise, bind_ret_l.
    rewrite trace_bind_quiet by quiet.
    rewrite lnd_make_request_trace by (right; right; reflexivity).
    reflexivity.
  - intros a b c. unfold LNDClient.close_channel.
    pose proof (split_length_append ":" a (b +:+ ":" +:+ c)) as Hlen.
    change (b +:+ ":" +:+ c) with (b +:+ String ":" c) in Hlen.
    rewrite (split_length_append ":" b c) in Hlen.
    pose proof (split_length_pos ":" a). pose proof (split_length_pos ":" b).
    pose proof (split_length_pos ":" c).
    change (a +:+ ":" +:+ b +:+ ":" +:+ c) with (a +:+ String ":" (b +:+ String ":" c)).
    destruct (split ":" (a +:+ String ":" (b +:+ String ":" c)))
      as [| x [| y [| z l]]]; simpl in Hlen; try lia.
    reflexivity.
Qed.

Lemma lnd_close_channel_colons_witness :
  trace (LNDClient.close_channel (demo_world (always (Response 200 (Some (PDict [])))))
           demo_lnd "beef:1" true)
  = [LNDClient.request demo_lnd "DELETE"
       "https://127.0.0.1:8080/v1/channels/beef/1?force=true" None].
Proof.
  refine (proj1 (lnd_close_channel_colons (demo_world (always (Response 200 (Some (PDict [])))))
                   demo_lnd true) "beef" "1" _ _); reflexivity.
Defined.

Lemma uint_no_at (d : Decimal.uint) : contains "@" (NilEmpty.string_of_uint d) = false.
Proof. induction d; simpl; try assumption; reflexivity. Qed.

Lemma str_of_Z_no_at z : contains "@" (str_of_Z z) = false.
Proof.
  unfold str_of_Z. destruct (Z.to_int z) as [d | d]; simpl.
  - destruct d; try reflexivity; apply (uint_no_at (_ d)).
  - destruct d; try reflexivity; apply (uint_no_at (_ d)).
Qed.

Lemma lnd_connect_peer_trace W self node_id host port pubkey peer_host :
  (if contains "@" node_id then LNDClient.item_at (split "@" node_id) 0 else Ret node_id)
  = Ret pubkey ->
  (if contains "@" (peer_address node_id host port)
   then LNDClient.item_at (split "@" (peer_address node_id host port)) 1
   else if truthy_str host && truthy_int port
        then Ret (format_opt_str host +:+ ":" +:+ format_opt_int port)
        else Ret "") = Ret peer_host ->
  trace (LNDClient.connect_peer W self node_id host port)
  = [LNDClient.request self "POST" (LNDClient.base_url self +:+ "/v1/peers")
       (Some (PDict [("addr", PDict [("pubkey", PStr pubkey);
                                     ("host", PStr peer_host)])]))].
Proof.
  intros Hpk Hhost. unfold LNDClient.connect_peer.
  rewrite trace_reraise, Hpk, (bind_lift_ret _ _ pubkey eq_refl).
  rewrite Hhost, (bind_lift_ret _ _ peer_host eq_refl).
  rewrite trace_bind_quiet by quiet.
  rewrite lnd_make_request_trace by (right; left; reflexivity).
  reflexivity.
Qed.

(** X11. What [LNDClient.connect_peer] sends to [/v1/peers].  When
    [node_id] is itself [pubkey@address], the public key and the address are
    taken from it and the [host] and [port] arguments are ignored, given or
    not.  When [node_id] holds no [@], it is the public key, and the host is
    [host:port] if a host without [@] and a non-zero port are given, the
    empty string otherwise. *)
Theorem lnd_connect_peer_payload (W : world) (self : LNDClient.t) :
  (forall pubkey address host port,
     contains "@" pubkey = false -> contains "@" address = false ->
     trace (LNDClient.connect_peer W self (pubkey +:+ "@" +:+ address) host port)
     = [LNDClient.request self "POST" (LNDClient.base_url self +:+ "/v1/peers")
          (Some (PDict [("addr", PDict [("pubkey", PStr pubkey);
                                        ("host", PStr address)])]))])
  /\ (forall node_id h p,
        contains "@" node_id = false -> contains "@" h = false -> h <> "" -> p <> 0 ->
        trace (LNDClient.connect_peer W self node_id (Some h) (Some p))
        = [LNDClient.request self "POST" (LNDClient.base_url self +:+ "/v1/peers")
             (Some (PDict [("addr", PDict [("pubkey", PStr node_id);
                                           ("host", PStr (h +:+ ":" +:+ str_of_Z p))])]))])
  /\ (forall node_id host port,
        contains "@" node_id = false ->
        host = None \/ host = Some "" \/ port = None \/ port = Some 0 ->
        trace (LNDClient.connect_peer W self node_id host port)
        = [LNDClient.request self "POST" (LNDClient.base_url self +:+ "/v1/peers")
             (Some (PDict [("addr", PDict [("pubkey", PStr node_id);
                                           ("host", PStr "")])]))]).
Proof.
  split; [| split].
  - intros pubkey address host port Hpk Haddr.
    assert (Hsplit : split "@" (pubkey +:+ "@" +:+ address) = [pubkey; address]).
    { change (pubkey +:+ "@" +:+ address) with (pubkey +:+ String "@" address).
      rewrite (split_at_sep _ _ _ Hpk), (split_no_sep _ _ Haddr). reflexivity. }
    assert (Hin : contains "@" (pubkey +:+ "@" +:+ address) = true).
    { rewrite contains_append. simpl. apply orb_true_r. }
    apply lnd_connect_peer_trace.
    + rewrite Hin, Hsplit. reflexivity.
    + destruct (truthy_str host && truthy_int port) eqn:Hgiven.
      * assert (Hpa : peer_address (pubkey +:+ "@" +:+ address) host port
                      = pubkey +:+ String "@"
                          (address +:+ String "@" (format_opt_str host +:+ ":"
                                                   +:+ format_opt_int port))).
        { unfold peer_address. rewrite Hgiven. rewrite append_assoc. reflexivity. }
        rewrite Hpa, contains_append. simpl. rewrite orb_true_r.
        rewrite (split_at_sep _ _ _ Hpk), (split_at_sep _ _ _ Haddr). reflexivity.
      * unfold peer_address. rewrite Hgiven, Hin, Hsplit. reflexivity.
  - intros node_id h p Hid Hh Hne Hp.
    assert (Hpa : peer_address node_id (Some h) (Some p)
                  = node_id +:+ String "@" (h +:+ ":" +:+ str_of_Z p)).
    { unfold peer_address. simpl.
      destruct (String.eqb_spec h ""); [contradiction |].
      destruct (Z.eqb_spec p 0); [contradiction |]. reflexivity. }
    assert (Hrest : contains "@" (h +:+ ":" +:+ str_of_Z p) = false).
    { rewrite contains_append, Hh. simpl. apply str_of_Z_no_at. }
    apply lnd_connect_peer_trace.
    + rewrite Hid. reflexivity.
    + rewrite Hpa, contains_append, Hid. simpl.
      rewrite (split_at_sep _ _ _ Hid), (split_no_sep _ _ Hrest). reflexivity.
  - intros node_id host port Hid Hmiss.
    assert (Hf : truthy_str host && truthy_int port = false).
    { destruct Hmiss as [-> | [-> | [-> | ->]]]; simpl; try reflexivity;
        apply andb_false_r. }
    apply lnd_connect_peer_trace.
    + rewrite Hid. reflexivity.
    + unfold peer_address. rewrite Hf, Hid. reflexivity.
Qed.

Lemma lnd_connect_peer_payload_witness :
  trace (LNDClient.connect_peer (demo_world (always (NoResponse ConnectFailed))) demo_lnd
           ("02ab" +:+ "@" +:+ "10.0.0.1:9735") (Some "192.168.1.1") (Some 1234))
  = [LNDClient.request demo_lnd "POST" "https://127.0.0.1:8080/v1/peers"
       (Some (PDict [("addr", PDict [("pubkey", PStr "02ab");
                                     ("host", PStr "10.0.0.1:9735")])]))]
  /\ trace (LNDClient.connect_peer (demo_world (always (NoResponse ConnectFailed))) demo_lnd
              "02ab" (Some "192.168.1.1") (Some 1234))
     = [LNDClient.request demo_lnd "POST" "https://127.0.0.1:8080/v1/peers"
          (Some (PDict [("addr", PDict [("pubkey", PStr "02ab");
                                        ("host", PStr "192.168.1.1:1234")])]))]
  /\ trace (LNDClient.connect_peer (demo_world (always (NoResponse ConnectFailed))) demo_lnd
              "02ab" (Some "192.168.1.1") None)
     = [LNDClient.request demo_lnd "POST" "https://127.0.0.1:8080/v1/peers"
          (Some (PDict [("addr", PDict [("pubkey", PStr "02ab"); ("host", PStr "")])]))].
Proof.
  split; [| split].
  - refine (proj1 (lnd_connect_peer_payload (demo_world (always (NoResponse ConnectFailed)))
                     demo_lnd) "02ab" "10.0.0.1:9735" _ _ _ _); reflexivity.
  - refine (proj1 (proj2 (lnd_connect_peer_payload
                            (demo_world (always (NoResponse ConnectFailed))) demo_lnd))
              "02ab" "192.168.1.1" 1234 _ _ _ _);
      try reflexivity; discriminate.
  - refine (proj2 (proj2 (lnd_connect_peer_payload
                            (demo_world (always (NoResponse ConnectFailed))) demo_lnd))
              "02ab" (Some "192.168.1.1") None _ _); [reflexivity |].
    right. right. left. reflexivity.
Defined.

Lemma lnd_post_trace W self what endpoint data (k : pyval -> M pyval) :
  (forall a, trace (k a) = []) ->
  trace (reraise W RuntimeError what (LNDClient.node_name self)
           (bind (LNDClient._make_request W self "POST" endpoint (Some data)) k))
  = [LNDClient.request self "POST" (LNDClient.base_url self +:+ endpoint)
       (Some (PDict data))].
Proof.
  intros Hk. rewrite trace_reraise, trace_bind_quiet by assumption.
  rewrite lnd_make_request_trace by (right; left; reflexivity). reflexivity.
Qed.

(** X12. LNDClient sends the caller's satoshi amounts unchanged, never
    times 1000: as the decimal text of the number in [create_invoice]
    ([value], [expiry]) and [open_channel] ([local_funding_amount], and
    [push_sat], which is "0" unless the push amount is positive), as the
    number itself in [get_route] and, for an override that is not zero, in
    [pay_invoice]; without an override, or with 0, [pay_invoice] sends no
    [amt].  The decimal text reads back as the same integer. *)
Theorem lnd_amount_units (W : world) (self : LNDClient.t) :
  (forall amount_sats memo expiry,
     trace (LNDClient.create_invoice W self amount_sats memo expiry)
     = [LNDClient.request self "POST" (LNDClient.base_url self +:+ "/v1/invoices")
          (Some (PDict
             [("value", PStr (str_of_Z amount_sats));
              ("memo", PStr (or_str memo
                               ("Invoice for " +:+ str_of_Z amount_sats +:+ " sats")));
              ("expiry", PStr (str_of_Z expiry))]))])
  /\ (forall payment_request amount_sats,
        amount_sats <> 0 ->
        trace (LNDClient.pay_invoice W self payment_request (Some amount_sats))
        = [LNDClient.request self "POST"
             (LNDClient.base_url self +:+ "/v1/channels/transactions")
             (Some (PDict [("payment_request", PStr payment_request);
                           ("amt", PInt amount_sats)]))])
  /\ (forall payment_request amount_sats,
        amount_sats = None \/ amount_sats = Some 0 ->
        trace (LNDClient.pay_invoice W self payment_request amount_sats)
        = [LNDClient.request self "POST"
             (LNDClient.base_url self +:+ "/v1/channels/transactions")
             (Some (PDict [("payment_request", PStr payment_request)]))])
  /\ (forall node_id amount_sats push_sats,
        trace (LNDClient.open_channel W self node_id amount_sats push_sats)
        = [LNDClient.request self "POST" (LNDClient.base_url self +:+ "/v1/channels")
             (Some (PDict
                [("node_pubkey_string", PStr node_id);
                 ("local_funding_amount", PStr (str_of_Z amount_sats));
                 ("push_sat", PStr (if 0 <? push_sats then str_of_Z push_sats else "0"))]))])
  /\ (forall destination amount_sats,
        trace (LNDClient.get_route W self destination amount_sats)
        = [LNDClient.request self "POST" (LNDClient.base_url self +:+ "/v1/graph/routes")
             (Some (PDict [("pub_key", PStr destination); ("amt", PInt amount_sats)]))])
  /\ (forall amount_sats,
        (String.length (str_of_Z amount_sats) <= 4300)%nat ->
        py_int (PStr (str_of_Z amount_sats)) = Ret amount_sats).
Proof.
  split; [| split; [| split; [| split; [| split]]]].
  - intros. unfold LNDClient.create_invoice. apply lnd_post_trace. quiet.
  - intros pr a Ha. unfold LNDClient.pay_invoice.
    rewrite lnd_post_trace by quiet. simpl.
    destruct (Z.eqb_spec a 0); [contradiction | reflexivity].
  - intros pr a [-> | ->]; unfold LNDClient.pay_invoice;
      rewrite lnd_post_trace by quiet; reflexivity.
  - intros. unfold LNDClient.open_channel. apply lnd_post_trace. quiet.
  - intros. unfold LNDClient.get_route. apply lnd_post_trace. quiet.
  - apply py_int_str_of_Z.
Qed.

Lemma lnd_amount_units_witness :
  trace (LNDClient.pay_invoice (demo_world (always (NoResponse ConnectFailed))) demo_lnd
           "lnbc1" (Some 250))
  = [LNDClient.request demo_lnd "POST" "https://127.0.0.1:8080/v1/channels/transactions"
       (Some (PDict [("payment_request", PStr "lnbc1"); ("amt", PInt 250)]))]
  /\ trace (LNDClient.pay_invoice (demo_world (always (NoResponse ConnectFailed))) demo_lnd
              "lnbc1" (Some 0))
     = [LNDClient.request demo_lnd "POST" "https://127.0.0.1:8080/v1/channels/transactions"
          (Some (PDict [("payment_request", PStr "lnbc1")]))]
  /\ py_int (PStr (str_of_Z (-2100000000000000))) = Ret (-2100000000000000).
Proof.
  split; [| split].
  - refine (proj1 (proj2 (lnd_amount_units (demo_world (always (NoResponse ConnectFailed)))
                            demo_lnd)) "lnbc1" 250 _).
    discriminate.
  - refine (proj1 (proj2 (proj2 (lnd_amount_units
                                   (demo_world (always (NoResponse ConnectFailed)))
                                   demo_lnd))) "lnbc1" (Some 0) _).
    right. reflexivity.
  - refine (proj2 (proj2 (proj2 (proj2 (proj2 (lnd_amount_units
              (demo_world (always (NoResponse ConnectFailed))) demo_lnd)))))
              (-2100000000000000) _).
    apply Nat.leb_le. reflexivity.
Defined.

Lemma lnd_field_int d key v :
  lnd_field d key v -> LNDClient.int_field (PDict d) key = Ret v.
Proof.
  unfold LNDClient.int_field, py_get.
  intros [[-> ->] | [[-> Hlen] | ->]]; simpl obind.
  - reflexivity.
  - apply py_int_str_of_Z. exact Hlen.
  - reflexivity.
Qed.

Lemma project_int_cons v key keys :
  project_int v (key :: keys)
  = obind (LNDClient.int_field v key) (fun z =>
    obind (project_int v keys) (fun rest => Ret ((key, PInt z) :: rest))).
Proof.
  unfold LNDClient.int_field. simpl.
  destruct (py_get v key (PInt 0)); reflexivity.
Qed.

(** X13. [LNDClient.get_wallet_balance] returns the three balances of the
    answer as integers: a field LND sends as decimal text, or as a number,
    comes back as that integer, and a field the answer lacks comes back as
    0.  Nothing relates the three: [total_balance] is passed on as sent. *)
Theorem lnd_wallet_balance_fields (W : world) (self : LNDClient.t)
    (d : list (string * pyval)) (confirmed unconfirmed total : Z) :
  answers (net W (LNDClient.request self "GET"
                    (LNDClient.base_url self +:+ "/v1/balance/blockchain") None))
          (PDict d) ->
  lnd_field d "confirmed_balance" confirmed ->
  lnd_field d "unconfirmed_balance" unconfirmed ->
  lnd_field d "total_balance" total ->
  result (LNDClient.get_wallet_balance W self)
  = Ret (PDict [("confirmed_balance", PInt confirmed);
                ("unconfirmed_balance", PInt unconfirmed);
                ("total_balance", PInt total)]).
Proof.
  intros Hnet Hc Hu Ht.
  apply lnd_field_int in Hc, Hu, Ht.
  unfold LNDClient.get_wallet_balance.
  rewrite (lnd_get_answers W self _ (PDict d) Hnet).
  unfold bind at 1.
  rewrite !project_int_cons, Hc, Hu, Ht. reflexivity.
Qed.

Lemma lnd_wallet_balance_fields_witness :
  result (LNDClient.get_wallet_balance (demo_world demo_lnd_net) demo_lnd)
  = Ret (PDict [("confirmed_balance", PInt 500);
                ("unconfirmed_balance", PInt 100);
                ("total_balance", PInt 600)])
  /\ result (LNDClient.get_wallet_balance
               (demo_world (always (Response 200 (Some (PDict []))))) demo_lnd)
     = Ret (PDict [("confirmed_balance", PInt 0);
                   ("unconfirmed_balance", PInt 0);
                   ("total_balance", PInt 0)]).
Proof.
  split.
  - refine (lnd_wallet_balance_fields (demo_world demo_lnd_net) demo_lnd
              [("total_balance", PStr "600"); ("confirmed_balance", PStr "500");
               ("unconfirmed_balance", PStr "100")] 500 100 600 _ _ _ _).
    + exists 200. split; reflexivity.
    + right. left. split; [reflexivity | apply Nat.leb_le; reflexivity].
    + right. left. split; [reflexivity | apply Nat.leb_le; reflexivity].
    + right. left. split; [reflexivity | apply Nat.leb_le; reflexivity].
  - refine (lnd_wallet_balance_fields (demo_world (always (Response 200 (Some (PDict [])))))
              demo_lnd [] 0 0 0 _ _ _ _).
    + exists 200. split; reflexivity.
    + left. split; reflexivity.
    + left. split; reflexivity.
    + left. split; reflexivity.
Defined.

(** ** lnd.py: the macaroon text *)

Lemma hex_byte (b : byte) :
  match hex_value (hex_digit (N.div (Byte.to_N b) 16)),
        hex_value (hex_digit (N.modulo (Byte.to_N b) 16)) with
  | Some h, Some l => Byte.of_N (16 * h + l) = Some b
  | _, _ => False
  end.
Proof. destruct b; vm_compute; reflexivity. Qed.

(** X14. The header text [LNDClient] makes of a macaroon loses nothing:
    it has two characters per byte, and reading it back as hexadecimal
    gives the bytes of the file, so two different macaroons never get the
    same header. *)
Theorem hex_encode_round_trip (bs : list byte) :
  hex_decode (hex_encode bs) = Some bs
  /\ String.length (hex_encode bs) = (2 * length bs)%nat
  /\ (forall bs', hex_encode bs = hex_encode bs' -> bs = bs').
Proof.
  assert (Hrt : forall l, hex_decode (hex_encode l) = Some l).
  { induction l as [| b l IH]; [reflexivity |].
    cbn [hex_encode hex_decode]. pose proof (hex_byte b) as Hb.
    destruct (hex_value (hex_digit (N.div (Byte.to_N b) 16))) as [h |]; [| contradiction].
    destruct (hex_value (hex_digit (N.modulo (Byte.to_N b) 16))) as [lo |];
      [| contradiction].
    rewrite IH, Hb. reflexivity. }
  split; [apply Hrt | split; [apply hex_encode_length |]].
  intros bs' Heq. pose proof (Hrt bs) as H1. rewrite Heq, Hrt in H1.
  injection H1 as ->. reflexivity.
Qed.

Lemma hex_encode_round_trip_witness :
  hex_decode "0201ff" = Some [x02; x01; xff] /\ [x02; x01; xff] = [x02; x01; xff].
Proof.
  split.
  - exact (proj1 (hex_encode_round_trip [x02; x01; xff])).
  - refine (proj2 (proj2 (hex_encode_round_trip [x02; x01; xff])) [x02; x01; xff] _).
    reflexivity.
Defined.

(** ** config.py: the configuration from the environment *)

Lemma env_int_ret v default o :
  env_int v default = Ret o ->
  (truthy_str v = false /\ o = default)
  \/ (exists s z, v = Some s /\ truthy_str v = true /\ py_int (PStr s) = Ret z /\ o = Some z).
Proof.
  unfold env_int. destruct v as [s |]; [| intros [= <-]; left; split; reflexivity].
  destruct (truthy_str (Some s)) eqn:Ht.
  - destruct (py_int (PStr s)) as [z | e |] eqn:Hz; simpl; try discriminate.
    intros [= <-]. right. exists s, z. repeat split; assumption.
  - intros [= <-]. left. split; reflexivity.
Qed.

Lemma env_cln_node_ret H o :
  env_cln_node H = Ret o ->
  (truthy_str (getenv H "CLN_SOCKET_PATH") || truthy_str (getenv H "CLN_REST_PORT") = false
   /\ o = None)
  \/ (exists nc,
        o = Some nc
        /\ truthy_str (getenv H "CLN_SOCKET_PATH")
           || truthy_str (getenv H "CLN_REST_PORT") = true
        /\ name nc = "bob" /\ implementation nc = "CLN"
        /\ rpc_host nc = getenv_default H "CLN_HOST" "localhost"
        /\ env_int (getenv H "CLN_REST_PORT") None = Ret (rest_port nc)).
Proof.
  unfold env_cln_node.
  destruct (truthy_str (getenv H "CLN_SOCKET_PATH")
            || truthy_str (getenv H "CLN_REST_PORT")) eqn:Hset.
  - destruct (if truthy_str (getenv H "CLN_SOCKET_PATH") then Ret 0
              else py_int (PStr (format_opt_str (getenv H "CLN_REST_PORT"))))
      as [port | e |]; simpl; try discriminate.
    destruct (env_int (getenv H "CLN_REST_PORT") None) as [rest | e |] eqn:Hrest;
      simpl; try discriminate.
    intros [= <-]. right. eexists. split; [reflexivity |].
    repeat split.
  - intros [= <-]. left. split; reflexivity.
Qed.

Lemma env_lnd_node_ret H o :
  env_lnd_node H = Ret o ->
  (truthy_str (getenv H "LND_PORT") || truthy_str (getenv H "LND_REST_PORT") = false
   /\ o = None)
  \/ (exists nc,
        o = Some nc
        /\ truthy_str (getenv H "LND_PORT") || truthy_str (getenv H "LND_REST_PORT") = true
        /\ name nc = "alice" /\ implementation nc = "LND"
        /\ rpc_host nc = getenv_default H "LND_HOST" "localhost"
        /\ env_int (getenv H "LND_REST_PORT") None = Ret (rest_port nc)).
Proof.
  unfold env_lnd_node.
  destruct (truthy_str (getenv H "LND_PORT")
            || truthy_str (getenv H "LND_REST_PORT")) eqn:Hset.
  - destruct (env_int (getenv H "LND_PORT") (Some 10001)) as [port | e |];
      simpl; try discriminate.
    destruct (env_int (getenv H "LND_REST_PORT") None) as [rest | e |] eqn:Hrest;
      simpl; try discriminate.
    intros [= <-]. right. eexists. split; [reflexivity |].
    repeat split.
  - intros [= <-]. left. split; reflexivity.
Qed.

Lemma load_config_from_env_ret H c :
  load_config_from_env H = Ret c ->
  exists bob alice,
    env_cln_node H = Ret bob /\ env_lnd_node H = Ret alice
    /\ nodes c = add_node "alice" alice (add_node "bob" bob ∅).
Proof.
  unfold load_config_from_env.
  destruct (env_cln_node H) as [bob | e |]; simpl; try discriminate.
  destruct (env_lnd_node H) as [alice | e |]; simpl; try discriminate.
  intros [= <-]. exists bob, alice. repeat split.
Qed.

Lemma add_nodes_lookup (bob alice : option NodeConfig) (k : string) :
  add_node "alice" alice (add_node "bob" bob ∅) !! k
  = if String.eqb k "alice" then alice
    else if String.eqb k "bob" then bob else None.
Proof.
  unfold add_node.
  destruct (String.eqb_spec k "alice") as [-> | Ha];
    destruct alice as [a |]; destruct bob as [b |];
    rewrite ?lookup_insert_eq; try reflexivity;
    rewrite ?(lookup_insert_ne _ "alice" k) by congruence;
    try (rewrite lookup_insert_ne by discriminate);
    rewrite ?lookup_empty; try reflexivity;
    destruct (String.eqb_spec k "bob") as [-> | Hb];
    rewrite ?lookup_insert_eq, ?lookup_empty; try reflexivity;
    rewrite ?lookup_insert_ne by congruence; rewrite ?lookup_empty; reflexivity.
Qed.

(** X15. The configuration read from the environment holds at most two
    nodes: 'bob', a CLN node, exactly when CLN_SOCKET_PATH or CLN_REST_PORT
    is set to a non-empty value, and 'alice', an LND node, exactly when
    LND_PORT or LND_REST_PORT is.  Each node is filed under its own name. *)
Theorem load_config_from_env_nodes (H : host) (c : PolarConfig) :
  load_config_from_env H = Ret c ->
  (is_Some (nodes c !! "bob")
   <-> truthy_str (getenv H "CLN_SOCKET_PATH") || truthy_str (getenv H "CLN_REST_PORT")
       = true)
  /\ (is_Some (nodes c !! "alice")
      <-> truthy_str (getenv H "LND_PORT") || truthy_str (getenv H "LND_REST_PORT") = true)
  /\ (forall k nc,
        nodes c !! k = Some nc ->
        name nc = k
        /\ (k = "bob" /\ implementation nc = "CLN"
            \/ k = "alice" /\ implementation nc = "LND")).
Proof.
  intros Hload.
  destruct (load_config_from_env_ret H c Hload) as (bob & alice & Hb & Ha & Hnodes).
  rewrite Hnodes. clear Hnodes Hload.
  apply env_cln_node_ret in Hb. apply env_lnd_node_ret in Ha.
  split; [| split].
  - rewrite add_nodes_lookup. simpl.
    destruct Hb as [[Hset ->] | (nc & -> & Hset & _)]; rewrite Hset.
    + split; [intros [x Hx]; discriminate | discriminate].
    + split; [reflexivity | eauto].
  - rewrite add_nodes_lookup. simpl.
    destruct Ha as [[Hset ->] | (nc & -> & Hset & _)]; rewrite Hset.
    + split; [intros [x Hx]; discriminate | discriminate].
    + split; [reflexivity | eauto].
  - intros k nc. rewrite add_nodes_lookup.
    destruct (String.eqb_spec k "alice") as [-> | Hka].
    + intros ->. destruct Ha as [[_ Hn] | (nc' & [= <-] & _ & Hname & Himpl & _)];
        [discriminate |].
      split; [assumption | right; split; [reflexivity | assumption]].
    + destruct (String.eqb_spec k "bob") as [-> | Hkb]; [| discriminate].
      intros ->. destruct Hb as [[_ Hn] | (nc' & [= <-] & _ & Hname & Himpl & _)];
        [discriminate |].
      split; [assumption | left; split; [reflexivity | assumption]].
Qed.

Lemma load_config_from_env_nodes_witness :
  exists c,
    load_config_from_env (bare_host rest_env) = Ret c
    /\ is_Some (nodes c !! "bob") /\ is_Some (nodes c !! "alice").
Proof.
  eexists. split; [reflexivity |].
  split.
  - refine (proj2 (proj1 (load_config_from_env_nodes (bare_host rest_env) _ eq_refl)) _).
    reflexivity.
  - refine (proj2 (proj1 (proj2 (load_config_from_env_nodes (bare_host rest_env) _ eq_refl)))
              _).
    reflexivity.
Defined.

Lemma env_int_falsy v default : truthy_str v = false -> env_int v default = Ret default.
Proof. unfold env_int. destruct v as [s |]; [intros -> |]; reflexivity. Qed.

Lemma env_bob H c nc :
  load_config_from_env H = Ret c ->
  nodes c !! "bob" = Some nc ->
  name nc = "bob" /\ implementation nc = "CLN"
  /\ rpc_host nc = getenv_default H "CLN_HOST" "localhost"
  /\ env_int (getenv H "CLN_REST_PORT") None = Ret (rest_port nc).
Proof.
  intros Hload Hlook.
  destruct (load_config_from_env_ret H c Hload) as (bob & alice & Hb & _ & Hnodes).
  rewrite Hnodes, add_nodes_lookup in Hlook. simpl in Hlook. subst bob.
  destruct (env_cln_node_ret H _ Hb) as [[_ Hn] | (nc' & [= <-] & _ & Hrest)];
    [discriminate | exact Hrest].
Qed.

Lemma env_alice H c nc :
  load_config_from_env H = Ret c ->
  nodes c !! "alice" = Some nc ->
  name nc = "alice" /\ implementation nc = "LND"
  /\ rpc_host nc = getenv_default H "LND_HOST" "localhost"
  /\ env_int (getenv H "LND_REST_PORT") None = Ret (rest_port nc).
Proof.
  intros Hload Hlook.
  destruct (load_config_from_env_ret H c Hload) as (bob & alice & _ & Ha & Hnodes).
  rewrite Hnodes, add_nodes_lookup in Hlook. simpl in Hlook. subst alice.
  destruct (env_lnd_node_ret H _ Ha) as [[_ Hn] | (nc' & [= <-] & _ & Hrest)];
    [discriminate | exact Hrest].
Qed.

Lemma bind_lift_pure {A B} (o : outcome A) (f : A -> B) :
  bind (lift o) (fun x => ret (f x)) = ([], obind o (fun x => Ret (f x))).
Proof. destruct o; reflexivity. Qed.

(** X16. A CLN node configured through CLN_SOCKET_PATH alone, with no
    CLN_REST_PORT, is loaded into the configuration but cannot be used:
    constructing its CoreLightningClient raises the [ValueError] "REST
    port not configured for node 'bob'", without any request. *)
Theorem env_socket_only_cln (H : host) (W : world) (c : PolarConfig) :
  truthy_str (getenv H "CLN_SOCKET_PATH") = true ->
  truthy_str (getenv H "CLN_REST_PORT") = false ->
  load_config_from_env H = Ret c ->
  is_Some (nodes c !! "bob")
  /\ CoreLightningClient.__init__ W c "bob"
     = ([], Raise (Raised ValueError "REST port not configured for node 'bob'")).
Proof.
  intros Hsock Hrest Hload.
  assert (Hsome : is_Some (nodes c !! "bob")).
  { destruct (load_config_from_env_ret H c Hload) as (bob & alice & Hb & _ & Hnodes).
    rewrite Hnodes, add_nodes_lookup. simpl.
    destruct (env_cln_node_ret H _ Hb) as [[Hset _] | (nc & -> & _)]; [| eauto].
    rewrite Hsock in Hset. discriminate. }
  split; [exact Hsome |].
  destruct Hsome as [nc Hnc].
  destruct (env_bob H c nc Hload Hnc) as (_ & Himpl & _ & Hport).
  rewrite (env_int_falsy _ _ Hrest) in Hport. injection Hport as Hport.
  unfold CoreLightningClient.__init__. rewrite Hnc, Himpl, <- Hport. reflexivity.
Qed.

Lemma env_socket_only_cln_witness :
  exists c,
    load_config_from_env (bare_host socket_env) = Ret c
    /\ CoreLightningClient.__init__ (demo_world demo_lnd_net) c "bob"
       = ([], Raise (Raised ValueError "REST port not configured for node 'bob'")).
Proof.
  eexists. split; [reflexivity |].
  refine (proj2 (env_socket_only_cln (bare_host socket_env) (demo_world demo_lnd_net)
                   _ _ _ eq_refl)); reflexivity.
Defined.

(** X17. With CLN_REST_PORT set to text that [int()] reads as a number
    other than 0, the client of 'bob' is built for
    [http://{CLN_HOST}:{port}], with the host "localhost" when CLN_HOST is
    not set and the port written in plain decimal, whatever the spelling in
    the environment; the constructor cannot raise. *)
Theorem env_cln_base_url (H : host) (W : world) (c : PolarConfig) (s : string) (p : Z) :
  getenv H "CLN_REST_PORT" = Some s ->
  s <> "" ->
  py_int (PStr s) = Ret p ->
  p <> 0 ->
  load_config_from_env H = Ret c ->
  exists nc,
    nodes c !! "bob" = Some nc
    /\ CoreLightningClient.__init__ W c "bob"
       = ([], obind (CoreLightningClient._setup_auth W nc) (fun session =>
              Ret {| CoreLightningClient.node_config := nc;
                     CoreLightningClient.base_url :=
                       "http://" +:+ getenv_default H "CLN_HOST" "localhost" +:+ ":"
                       +:+ str_of_Z p;
                     CoreLightningClient.node_name := "bob";
                     CoreLightningClient.session := session |})).
Proof.
  intros Henv Hne Hint Hp Hload.
  assert (Htruthy : truthy_str (getenv H "CLN_REST_PORT") = true).
  { rewrite Henv. simpl. destruct (String.eqb_spec s ""); [contradiction | reflexivity]. }
  destruct (load_config_from_env_ret H c Hload) as (bob & alice & Hb & _ & Hnodes).
  destruct (env_cln_node_ret H _ Hb) as [[Hset _] | (nc & -> & _)].
  { rewrite Htruthy, orb_true_r in Hset. discriminate. }
  assert (Hnc : nodes c !! "bob" = Some nc).
  { rewrite Hnodes, add_nodes_lookup. reflexivity. }
  exists nc. split; [exact Hnc |].
  destruct (env_bob H c nc Hload Hnc) as (_ & Himpl & Hhost & Hport).
  unfold env_int in Hport. rewrite Henv in Hport. rewrite Henv in Htruthy.
  rewrite Htruthy, Hint in Hport. simpl in Hport. injection Hport as Hport.
  unfold CoreLightningClient.__init__. rewrite Hnc, Himpl, <- Hport, Hhost. simpl.
  destruct (Z.eqb_spec p 0); [contradiction |]. simpl.
  apply (bind_lift_pure (CoreLightningClient._setup_auth W nc)).
Qed.

Lemma env_cln_base_url_witness :
  exists c nc,
    load_config_from_env (bare_host rest_env) = Ret c
    /\ nodes c !! "bob" = Some nc
    /\ CoreLightningClient.__init__ (demo_world demo_lnd_net) c "bob"
       = ([], obind (CoreLightningClient._setup_auth (demo_world demo_lnd_net) nc)
              (fun session =>
                 Ret {| CoreLightningClient.node_config := nc;
                        CoreLightningClient.base_url :=
                          "http://" +:+ "10.0.0.5" +:+ ":" +:+ "3010";
                        CoreLightningClient.node_name := "bob";
                        CoreLightningClient.session := session |})).
Proof.
  destruct (env_cln_base_url (bare_host rest_env) (demo_world demo_lnd_net)
              _ "3010" 3010 eq_refl ltac:(discriminate) eq_refl ltac:(discriminate) eq_refl)
    as (nc & Hnc & Hinit).
  eexists. exists nc. split; [reflexivity |]. split; [exact Hnc | exact Hinit].
Defined.

(** X18. LND_PORT, the gRPC port, takes no part in the address the client
    uses: with LND_PORT set and LND_REST_PORT not, the client of 'alice'
    is built for [https://{LND_HOST}:8080], the host being "localhost" when
    LND_HOST is not set. *)
Theorem env_lnd_default_port (H : host) (W : world) (c : PolarConfig) :
  truthy_str (getenv H "LND_PORT") = true ->
  truthy_str (getenv H "LND_REST_PORT") = false ->
  load_config_from_env H = Ret c ->
  exists nc,
    nodes c !! "alice" = Some nc
    /\ LNDClient.__init__ W c "alice"
       = ([], obind (LNDClient.macaroon_headers W nc) (fun hs =>
              Ret {| LNDClient.node_config := nc;
                     LNDClient.node_name := "alice";
                     LNDClient.base_url :=
                       "https://" +:+ getenv_default H "LND_HOST" "localhost" +:+ ":8080";
                     LNDClient.headers := hs;
                     LNDClient.verify := LNDClient.ssl_verify W nc |})).
Proof.
  intros Hport Hrest Hload.
  destruct (load_config_from_env_ret H c Hload) as (bob & alice & _ & Ha & Hnodes).
  destruct (env_lnd_node_ret H _ Ha) as [[Hset _] | (nc & -> & _)].
  { rewrite Hport in Hset. discriminate. }
  assert (Hnc : nodes c !! "alice" = Some nc).
  { rewrite Hnodes, add_nodes_lookup. reflexivity. }
  exists nc. split; [exact Hnc |].
  destruct (env_alice H c nc Hload Hnc) as (_ & Himpl & Hhost & Hrp).
  rewrite (env_int_falsy _ _ Hrest) in Hrp. injection Hrp as Hrp.
  rewrite (lnd_init_present W c "alice" nc Hnc Himpl).
  unfold LNDClient._setup_rest_client. rewrite <- Hrp, Hhost. reflexivity.
Qed.

Lemma env_lnd_default_port_witness :
  exists c nc,
    load_config_from_env (bare_host rest_env) = Ret c
    /\ nodes c !! "alice" = Some nc
    /\ rpc_port nc = 10009
    /\ result (LNDClient.__init__ (demo_world demo_lnd_net) c "alice")
       = Ret {| LNDClient.node_config := nc;
                LNDClient.node_name := "alice";
                LNDClient.base_url := "https://localhost:8080";
                LNDClient.headers := [];
                LNDClient.verify := VerifyOff |}.
Proof.
  destruct (env_lnd_default_port (bare_host rest_env) (demo_world demo_lnd_net)
              _ eq_refl eq_refl eq_refl) as (nc & Hnc & Hinit).
  eexists. exists nc. split; [reflexivity |]. split; [exact Hnc |].
  vm_compute in Hnc. injection Hnc as <-.
  split; [reflexivity |]. rewrite Hinit. reflexivity.
Defined.

(** X19. A CLN_REST_PORT that [int()] rejects is not tolerated: the
    exception of [int()] leaves [load_config_from_env] and leaves
    [load_config] too, which reads the environment before the block whose
    failures it catches; no fallback configuration is made. *)
Theorem env_bad_port_raises (H : host) (s : string) (e : exn) :
  getenv H "CLN_REST_PORT" = Some s ->
  s <> "" ->
  py_int (PStr s) = Raise e ->
  load_config_from_env H = Raise e /\ load_config H = Raise e.
Proof.
  intros Henv Hne Hint.
  assert (Htruthy : truthy_str (Some s) = true).
  { simpl. destruct (String.eqb_spec s ""); [contradiction | reflexivity]. }
  assert (Hload : load_config_from_env H = Raise e).
  { unfold load_config_from_env, env_cln_node, env_int. rewrite Henv, Htruthy.
    rewrite orb_true_r. simpl format_opt_str. rewrite Hint.
    destruct (truthy_str (getenv H "CLN_SOCKET_PATH")); reflexivity. }
  split; [exact Hload |]. unfold load_config. rewrite Hload. reflexivity.
Qed.

Lemma env_bad_port_raises_witness :
  load_config (bare_host bad_port_env) = Raise (Lib (FIntLiteral "rest")).
Proof.
  refine (proj2 (env_bad_port_raises (bare_host bad_port_env) "rest" _ _ _ _)).
  - reflexivity.
  - discriminate.
  - reflexivity.
Defined.

(** ** config.py: [load_config] and the Polar directory *)

Lemma load_config_from_env_ext (H H' : host) :
  (forall k, getenv H k = getenv H' k) ->
  load_config_from_env H = load_config_from_env H'.
Proof.
  intros Hext.
  unfold load_config_from_env, env_cln_node, env_lnd_node, getenv_default.
  rewrite !Hext. reflexivity.
Qed.

Lemma has_nodes_lookup (c : PolarConfig) k nc : nodes c !! k = Some nc -> has_nodes c = true.
Proof.
  intros Hlook. unfold has_nodes.
  destruct (size (nodes c)) eqn:Hsize; [| reflexivity].
  apply map_size_empty_iff in Hsize. rewrite Hsize, lookup_empty in Hlook. discriminate.
Qed.

Lemma env_has_nodes H c :
  load_config_from_env H = Ret c ->
  has_nodes c
  = (truthy_str (getenv H "CLN_SOCKET_PATH") || truthy_str (getenv H "CLN_REST_PORT"))
    || (truthy_str (getenv H "LND_PORT") || truthy_str (getenv H "LND_REST_PORT")).
Proof.
  intros Hload.
  destruct (load_config_from_env_ret H c Hload) as (bob & alice & Hb & Ha & Hnodes).
  destruct (env_cln_node_ret H _ Hb) as [[Hsb ->] | (nb & -> & Hsb & _)];
    destruct (env_lnd_node_ret H _ Ha) as [[Hsa ->] | (na & -> & Hsa & _)];
    rewrite Hsb, Hsa; simpl.
  - unfold has_nodes. rewrite Hnodes. reflexivity.
  - apply (has_nodes_lookup c "alice" na). rewrite Hnodes, add_nodes_lookup. reflexivity.
  - apply (has_nodes_lookup c "bob" nb). rewrite Hnodes, add_nodes_lookup. reflexivity.
  - apply (has_nodes_lookup c "alice" na). rewrite Hnodes, add_nodes_lookup. reflexivity.
Qed.

(** X20. The environment comes first.  As soon as one of CLN_SOCKET_PATH,
    CLN_REST_PORT, LND_PORT and LND_REST_PORT is set to a non-empty value,
    [load_config] returns the configuration of the environment and is the
    same on every host with that environment: the Polar directory is not
    looked at. *)
Theorem load_config_prefers_env (H H' : host) (c : PolarConfig) :
  (forall k, getenv H k = getenv H' k) ->
  load_config_from_env H = Ret c ->
  (truthy_str (getenv H "CLN_SOCKET_PATH") || truthy_str (getenv H "CLN_REST_PORT"))
  || (truthy_str (getenv H "LND_PORT") || truthy_str (getenv H "LND_REST_PORT")) = true ->
  load_config H = Ret c /\ load_config H' = Ret c.
Proof.
  intros Hext Hload Hset.
  pose proof (env_has_nodes H c Hload) as Hhas. rewrite Hset in Hhas.
  split.
  - unfold load_config. rewrite Hload. simpl. rewrite Hhas. reflexivity.
  - unfold load_config. rewrite <- (load_config_from_env_ext H H' Hext), Hload.
    simpl. rewrite Hhas. reflexivity.
Qed.

Lemma load_config_prefers_env_witness :
  exists c,
    load_config (bare_host rest_env) = Ret c /\ load_config polar_host <> Ret c
    /\ load_config {| getenv := rest_env;
                      expanduser := expanduser polar_host;
                      path_join := path_join polar_host;
                      path_name := path_name polar_host;
                      path_parent := path_parent polar_host;
                      path_exists := path_exists polar_host;
                      path_is_dir := path_is_dir polar_host;
                      path_iterdir := path_iterdir polar_host;
                      path_glob := path_glob polar_host |} = Ret c.
Proof.
  eexists.
  pose proof (load_config_prefers_env (bare_host rest_env)
                {| getenv := rest_env;
                   expanduser := expanduser polar_host;
                   path_join := path_join polar_host;
                   path_name := path_name polar_host;
                   path_parent := path_parent polar_host;
                   path_exists := path_exists polar_host;
                   path_is_dir := path_is_dir polar_host;
                   path_iterdir := path_iterdir polar_host;
                   path_glob := path_glob polar_host |}
                _ (fun k => eq_refl) eq_refl eq_refl) as [H1 H2].
  split; [exact H1 |]. split; [| exact H2].
  vm_compute. intros Heq. discriminate Heq.
Defined.

(** X21. Once the environment has been read, [load_config] cannot raise.
    With none of the four variables set, it returns what the Polar
    directory gives, and on any exception from there the made-up
    configuration with 'alice' and 'bob'. *)
Theorem load_config_never_raises (H : host) (c : PolarConfig) :
  load_config_from_env H = Ret c ->
  (forall e, load_config H <> Raise e)
  /\ ((truthy_str (getenv H "CLN_SOCKET_PATH") || truthy_str (getenv H "CLN_REST_PORT"))
      || (truthy_str (getenv H "LND_PORT") || truthy_str (getenv H "LND_REST_PORT")) = false ->
      (forall e, load_polar_network_config H None = Raise e ->
                 load_config H = Ret default_config)
      /\ (forall polar, load_polar_network_config H None = Ret polar ->
                        load_config H = Ret polar)).
Proof.
  intros Hload. pose proof (env_has_nodes H c Hload) as Hhas.
  split.
  - intros e. unfold load_config. rewrite Hload. simpl.
    destruct (has_nodes c); [discriminate |].
    destruct (load_polar_network_config H None); discriminate.
  - intros Hunset. rewrite Hunset in Hhas.
    split.
    + intros e Hpolar. unfold load_config. rewrite Hload. simpl.
      rewrite Hhas, Hpolar. reflexivity.
    + intros polar Hpolar. unfold load_config. rewrite Hload. simpl.
      rewrite Hhas, Hpolar. reflexivity.
Qed.

Lemma load_config_never_raises_witness :
  load_config (bare_host no_env) = Ret default_config.
Proof.
  refine (proj1 (proj2 (load_config_never_raises (bare_host no_env) _ eq_refl) eq_refl)
            (Raised ValueError "No Polar networks found") _).
  reflexivity.
Defined.

(** X22. Without a [networks] directory under the Polar home,
    [find_polar_networks] finds nothing and does not fail, and
    [load_polar_network_config] with no network name raises [ValueError]
    "No Polar networks found".  With a name whose directory does not exist
    it raises [ValueError] naming the network. *)
Theorem polar_missing_directories (H : host) (home : string) :
  get_polar_home H = Ret home ->
  (path_exists H (path_join H home "networks") = Ret false ->
   find_polar_networks H = Ret []
   /\ load_polar_network_config H None
      = Raise (Raised ValueError "No Polar networks found"))
  /\ (forall n,
        path_exists H (path_join H (path_join H home "networks") n) = Ret false ->
        load_polar_network_config H (Some n)
        = Raise (Raised ValueError ("Network '" +:+ n +:+ "' not found"))).
Proof.
  intros Hhome. split.
  - intros Hno.
    assert (Hfind : find_polar_networks H = Ret []).
    { unfold find_polar_networks. rewrite Hhome. simpl. rewrite Hno. reflexivity. }
    split; [exact Hfind |].
    unfold load_polar_network_config. rewrite Hfind. reflexivity.
  - intros n Hno. unfold load_polar_network_config. simpl. rewrite Hhome. simpl.
    rewrite Hno. reflexivity.
Qed.

Lemma polar_missing_directories_witness :
  load_polar_network_config (bare_host no_env) None
  = Raise (Raised ValueError "No Polar networks found")
  /\ load_polar_network_config (bare_host no_env) (Some "lab")
     = Raise (Raised ValueError "Network 'lab' not found").
Proof.
  split.
  - refine (proj2 (proj1 (polar_missing_directories (bare_host no_env) "~/.polar" _) _));
      reflexivity.
  - refine (proj2 (polar_missing_directories (bare_host no_env) "~/.polar" _) "lab" _);
      reflexivity.
Defined.

Lemma add_dirs_lookup (node : string -> NodeConfig) (dirs : list string) :
  forall (m : gmap string NodeConfig) k nc,
    add_dirs node dirs m !! k = Some nc ->
    m !! k = Some nc \/ exists d, In d dirs /\ nc = node d /\ k = name (node d).
Proof.
  unfold add_dirs.
  induction dirs as [| d dirs IH]; intros m k nc Hlook; simpl in *.
  - left. exact Hlook.
  - destruct (IH _ _ _ Hlook) as [Hm | (d' & Hin & Hnc & Hk)].
    + destruct (decide (name (node d) = k)) as [<- | Hne].
      * rewrite lookup_insert_eq in Hm. injection Hm as <-.
        right. exists d. repeat split. left. reflexivity.
      * rewrite lookup_insert_ne in Hm by assumption. left. exact Hm.
    + right. exists d'. repeat split; try assumption. right. exact Hin.
Qed.

Lemma polar_nodes H network_name c k nc :
  load_polar_network_config H network_name = Ret c ->
  nodes c !! k = Some nc ->
  exists d, k = name nc /\ (nc = polar_cln_node H d \/ nc = polar_lnd_node H d).
Proof.
  unfold load_polar_network_config. intros Hload Hlook.
  destruct (match network_name with
            | Some n => Ret n
            | None => _
            end) as [n | e |]; simpl in Hload; try discriminate.
  destruct (get_polar_home H) as [home | e |]; simpl in Hload; try discriminate.
  destruct (path_exists H _) as [found | e |]; simpl in Hload; try discriminate.
  destruct (negb found); try discriminate.
  destruct (path_glob H _ "volumes/*/lightningd") as [cln_dirs | e |];
    simpl in Hload; try discriminate.
  destruct (path_glob H _ "volumes/*/lnd") as [lnd_dirs | e |];
    simpl in Hload; try discriminate.
  injection Hload as <-. simpl in Hlook.
  destruct (add_dirs_lookup _ _ _ _ _ Hlook) as [Hcln | (d & _ & -> & ->)].
  - destruct (add_dirs_lookup _ _ _ _ _ Hcln) as [Hempty | (d & _ & -> & ->)].
    + rewrite lookup_empty in Hempty. discriminate.
    + exists d. split; [reflexivity | left; reflexivity].
  - exists d. split; [reflexivity | right; reflexivity].
Qed.

(** X23. Every node found in a Polar network directory is filed under its
    own name, sits at host 127.0.0.1 and gets a fixed REST port by kind:
    8182 for a CLN node, 8081 for an LND node, however many nodes of the
    kind the network has. *)
Theorem polar_nodes_fixed_ports (H : host) (network_name : option string)
    (c : PolarConfig) (k : string) (nc : NodeConfig) :
  load_polar_network_config H network_name = Ret c ->
  nodes c !! k = Some nc ->
  name nc = k
  /\ rpc_host nc = "127.0.0.1"
  /\ (implementation nc = "CLN" /\ rest_port nc = Some 8182 /\ rpc_port nc = 0
      \/ implementation nc = "LND" /\ rest_port nc = Some 8081 /\ rpc_port nc = 11002).
Proof.
  intros Hload Hlook.
  destruct (polar_nodes H network_name c k nc Hload Hlook) as (d & -> & [-> | ->]).
  - repeat split. left. repeat split.
  - repeat split. right. repeat split.
Qed.

Lemma polar_nodes_fixed_ports_witness :
  exists c nc,
    load_polar_network_config polar_host None = Ret c
    /\ nodes c !! "carol" = Some nc
    /\ name nc = "carol" /\ rpc_host nc = "127.0.0.1" /\ rest_port nc = Some 8182.
Proof.
  eexists. eexists. split; [reflexivity |]. split; [vm_compute; reflexivity |].
  destruct (polar_nodes_fixed_ports polar_host None _ "carol" _ eq_refl
              ltac:(vm_compute; reflexivity)) as (Hname & Hhost & _).
  split; [exact Hname |]. split; [exact Hhost | reflexivity].
Defined.

(** X24. All the clients built from one Polar network directory share
    their address by kind: whichever CLN node is named, a
    CoreLightningClient that is constructed talks to
    [http://127.0.0.1:8182], and an LNDClient, whichever LND node is named,
    to [https://127.0.0.1:8081]. *)
Theorem polar_clients_share_url (H : host) (W : world) (network_name : option string)
    (c : PolarConfig) (k : string) :
  load_polar_network_config H network_name = Ret c ->
  (forall client,
     result (CoreLightningClient.__init__ W c k) = Ret client ->
     CoreLightningClient.base_url client = "http://127.0.0.1:8182")
  /\ (forall client,
        result (LNDClient.__init__ W c k) = Ret client ->
        LNDClient.base_url client = "https://127.0.0.1:8081").
Proof.
  intros Hload. split; intros client.
  - unfold CoreLightningClient.__init__.
    destruct (nodes c !! k) as [nc |] eqn:Hlook; [| discriminate].
    destruct (polar_nodes H network_name c k nc Hload Hlook) as (d & _ & [-> | ->]);
      simpl; [| discriminate].
    destruct (CoreLightningClient._setup_auth W (polar_cln_node H d)); simpl;
      try discriminate.
    intros [= <-]. reflexivity.
  - unfold LNDClient.__init__.
    destruct (nodes c !! k) as [nc |] eqn:Hlook; [| discriminate].
    destruct (polar_nodes H network_name c k nc Hload Hlook) as (d & _ & [-> | ->]);
      simpl; [discriminate |].
    unfold LNDClient._setup_rest_client, lift, result, snd.
    destruct (LNDClient.macaroon_headers W (polar_lnd_node H d)); simpl; try discriminate.
    intros [= <-]. reflexivity.
Qed.

Lemma polar_clients_share_url_witness :
  exists c bob carol,
    load_polar_network_config polar_host None = Ret c
    /\ result (CoreLightningClient.__init__ (demo_world demo_lnd_net) c "bob") = Ret bob
    /\ result (CoreLightningClient.__init__ (demo_world demo_lnd_net) c "carol") = Ret carol
    /\ CoreLightningClient.node_name bob <> CoreLightningClient.node_name carol
    /\ CoreLightningClient.base_url bob = "http://127.0.0.1:8182"
    /\ CoreLightningClient.base_url carol = "http://127.0.0.1:8182".
Proof.
  eexists. eexists. eexists.
  split; [reflexivity |].
  split; [vm_compute; reflexivity |].
  split; [vm_compute; reflexivity |].
  split; [discriminate |].
  split.
  - refine (proj1 (polar_clients_share_url polar_host (demo_world demo_lnd_net) None
                     _ "bob" eq_refl) _ _).
    vm_compute. reflexivity.
  - refine (proj1 (polar_clients_share_url polar_host (demo_world demo_lnd_net) None
                     _ "carol" eq_refl) _ _).
    vm_compute. reflexivity.
Defined.

(** ** More on what the clients return and hold *)

(** X25. [CoreLightningClient.create_invoice] returns a record of exactly
    three fields read from the answer of the node: [payment_hash],
    [payment_request], which is the [bolt11] field of the answer, and
    [expires_at].  A field the answer lacks is [None] in the record, not an
    error; an answer that is not a JSON object raises the [RuntimeError] of
    the operation. *)
Theorem cln_create_invoice_result (W : world) (self : CoreLightningClient.t)
    (amount_sats : Z) (label : string) (description : option string) (body : pyval) :
  answers (net W (CoreLightningClient.request self
                    (CoreLightningClient.url_of self "invoice")
                    [("amount_msat", PInt (amount_sats * 1000));
                     ("label", PStr label);
                     ("description", PStr (or_str description label))])) body ->
  result (CoreLightningClient.create_invoice W self amount_sats label description)
  = match body with
    | PDict d =>
        let field key := match dict_lookup key d with Some v => v | None => PNone end in
        Ret (PDict [("payment_hash", field "payment_hash");
                    ("payment_request", field "bolt11");
                    ("expires_at", field "expires_at")])
    | _ =>
        Raise (Raised RuntimeError
                 ("Failed to create invoice on CLN node" +:+ " '"
                  +:+ CoreLightningClient.node_name self +:+ "': "
                  +:+ fault_text W (FAttr (type_of body) "get")))
    end.
Proof.
  intros Hnet. unfold CoreLightningClient.create_invoice.
  rewrite (cln_make_request_answers W self "invoice"
             (Some [("amount_msat", PInt (amount_sats * 1000));
                    ("label", PStr label);
                    ("description", PStr (or_str description label))]) body Hnet).
  destruct body as [| b | z | lit | s | l | d]; try reflexivity.
  unfold bind at 1. simpl.
  destruct (dict_lookup "payment_hash" d), (dict_lookup "bolt11" d),
    (dict_lookup "expires_at" d); reflexivity.
Qed.

Lemma cln_create_invoice_result_witness :
  result (CoreLightningClient.create_invoice
            (demo_world (always (Response 200 (Some (PDict [("bolt11", PStr "lnbc10n1")])))))
            demo_cln 10 "order-1" None)
  = Ret (PDict [("payment_hash", PNone);
                ("payment_request", PStr "lnbc10n1");
                ("expires_at", PNone)]).
Proof.
  refine (cln_create_invoice_result
            (demo_world (always (Response 200 (Some (PDict [("bolt11", PStr "lnbc10n1")])))))
            demo_cln 10 "order-1" None (PDict [("bolt11", PStr "lnbc10n1")]) _).
  exists 200. split; reflexivity.
Defined.

Lemma lnd_call_verify_in W self o rq :
  In rq (trace (LNDClient.call W self o)) -> rq_verify rq = LNDClient.verify self.
Proof.
  intros Hin. pose proof (lnd_call_ok W self o) as Hall.
  rewrite List.Forall_forall in Hall. exact (proj1 (proj2 (proj2 (Hall rq Hin)))).
Qed.

(** X26. An LNDClient checks the server certificate only against a
    certificate file that exists at the configured path.  With no path, an
    empty path or nothing at the path, the client is constructed all the
    same and every request of every operation is sent with certificate
    verification switched off. *)
Theorem lnd_verification_mode (W : world) (config : PolarConfig) (node_name : string)
    (nc : NodeConfig) (c : LNDClient.t) :
  nodes config !! node_name = Some nc ->
  result (LNDClient.__init__ W config node_name) = Ret c ->
  (cert_path nc = None \/ cert_path nc = Some ""
   \/ (exists p, cert_path nc = Some p /\ fs W p = NoEntry) ->
   forall o rq, In rq (trace (LNDClient.call W c o)) -> rq_verify rq = VerifyOff)
  /\ (forall p,
        cert_path nc = Some p -> p <> "" -> fs W p <> NoEntry ->
        forall o rq, In rq (trace (LNDClient.call W c o)) ->
                     rq_verify rq = VerifyWith (path_str W p)).
Proof.
  intros Hnode Hinit.
  assert (Hverify : LNDClient.verify c = LNDClient.ssl_verify W nc).
  { unfold LNDClient.__init__ in Hinit. rewrite Hnode in Hinit.
    destruct (negb (String.eqb (implementation nc) "LND")); [discriminate |].
    unfold LNDClient._setup_rest_client, lift, result, snd in Hinit.
    destruct (LNDClient.macaroon_headers W nc); simpl in Hinit; try discriminate.
    injection Hinit as <-. reflexivity. }
  split.
  - intros Hno o rq Hin. rewrite (lnd_call_verify_in _ _ _ _ Hin), Hverify.
    unfold LNDClient.ssl_verify, LNDClient.exists_.
    destruct Hno as [-> | [-> | (p & -> & ->)]]; try reflexivity.
    rewrite andb_false_r. reflexivity.
  - intros p Hp Hne Hfs o rq Hin. rewrite (lnd_call_verify_in _ _ _ _ Hin), Hverify.
    unfold LNDClient.ssl_verify, LNDClient.exists_. rewrite Hp. simpl.
    destruct (String.eqb_spec p ""); [contradiction |].
    destruct (fs W p); [contradiction | reflexivity | reflexivity].
Qed.

Lemma lnd_verification_mode_witness :
  trace (LNDClient.call (demo_world demo_lnd_net) demo_lnd LNDClient.GetChannelBalance)
  = [LNDClient.request demo_lnd "GET" "https://127.0.0.1:8080/v1/balance/channels" None]
  /\ rq_verify (LNDClient.request demo_lnd "GET"
                  "https://127.0.0.1:8080/v1/balance/channels" None) = VerifyOff.
Proof.
  split; [reflexivity |].
  refine (proj1 (lnd_verification_mode (demo_world demo_lnd_net) demo_config "alice"
                   alice demo_lnd _ _) _ LNDClient.GetChannelBalance _ _).
  - reflexivity.
  - reflexivity.
  - left. reflexivity.
  - left. reflexivity.
Defined.

(** X27. A macaroon path that exists but cannot be read as a file, a
    directory or a file the process may not open, is not tolerated the way
    a missing file is: the exception of [open] leaves the constructor of
    LNDClient as it is, and no client is made. *)
Theorem lnd_macaroon_unreadable (W : world) (config : PolarConfig) (node_name : string)
    (nc : NodeConfig) (p : string) :
  nodes config !! node_name = Some nc ->
  implementation nc = "LND" ->
  macaroon_path nc = Some p ->
  p <> "" ->
  fs W p = Directory \/ fs W p = File None ->
  LNDClient.__init__ W config node_name = ([], Raise (Lib (FOpen p))).
Proof.
  intros Hnode Himpl Hp Hne Hfs.
  rewrite (lnd_init_present W config node_name nc Hnode Himpl).
  unfold LNDClient._setup_rest_client, LNDClient.macaroon_headers, LNDClient.exists_,
    LNDClient.read_bytes, lift.
  rewrite Hp. simpl truthy_str.
  destruct (String.eqb_spec p ""); [contradiction |].
  destruct Hfs as [-> | ->]; reflexivity.
Qed.

Lemma lnd_macaroon_unreadable_witness :
  LNDClient.__init__
    {| fs := fun _ => Directory; net := demo_lnd_net; fault_text := demo_text;
       path_str := fun p => p; json_error := JsonRequestsError |}
    demo_config "alice"
  = ([], Raise (Lib (FOpen "/lnd/admin.macaroon"))).
Proof.
  refine (lnd_macaroon_unreadable _ demo_config "alice" alice "/lnd/admin.macaroon"
            _ _ _ _ _).
  - reflexivity.
  - reflexivity.
  - reflexivity.
  - discriminate.
  - left. reflexivity.
Defined.

Lemma scan_networks_in (H : host) (entries networks : list string) (n : string) :
  scan_networks H entries = Ret networks ->
  (In n networks
   <-> exists network_dir,
         In network_dir entries
         /\ path_is_dir H network_dir = Ret true
         /\ path_exists H (path_join H network_dir "docker-compose.yml") = Ret true
         /\ path_name H network_dir = n).
Proof.
  revert networks.
  induction entries as [| d entries IH]; intros networks Hscan; simpl in Hscan.
  - injection Hscan as <-. split; [intros [] | intros (x & [] & _)].
  - destruct (path_is_dir H d) as [[|] | e |] eqn:Hdir; simpl in Hscan; try discriminate.
    + destruct (path_exists H (path_join H d "docker-compose.yml"))
        as [[|] | e |] eqn:Hcompose; simpl in Hscan; try discriminate;
        destruct (scan_networks H entries) as [rest | e |]; simpl in Hscan;
        try discriminate; injection Hscan as <-; specialize (IH rest eq_refl).
      * split.
        -- intros [<- | Hin].
           ++ exists d. repeat split; try assumption. left. reflexivity.
           ++ apply IH in Hin as (x & Hx & Hrest). exists x. split; [right |]; assumption.
        -- intros (x & [<- | Hx] & Hd & Hc & Hn).
           ++ left. exact Hn.
           ++ right. apply IH. exists x. repeat split; assumption.
      * split.
        -- intros Hin. apply IH in Hin as (x & Hx & Hrest).
           exists x. split; [right |]; assumption.
        -- intros (x & [<- | Hx] & Hd & Hc & Hn).
           ++ rewrite Hcompose in Hc. discriminate.
           ++ apply IH. exists x. repeat split; assumption.
    + specialize (IH networks Hscan). split.
      * intros Hin. apply IH in Hin as (x & Hx & Hrest).
        exists x. split; [right |]; assumption.
      * intros (x & [<- | Hx] & Hd & Hc & Hn).
        -- rewrite Hdir in Hd. discriminate.
        -- apply IH. exists x. repeat split; assumption.
Qed.

(** X28. When the [networks] directory of the Polar home exists,
    [find_polar_networks] lists the names of exactly those of its entries
    that are directories holding a [docker-compose.yml]. *)
Theorem find_polar_networks_members (H : host) (home : string)
    (entries networks : list string) (n : string) :
  get_polar_home H = Ret home ->
  path_exists H (path_join H home "networks") = Ret true ->
  path_iterdir H (path_join H home "networks") = Ret entries ->
  find_polar_networks H = Ret networks ->
  (In n networks
   <-> exists network_dir,
         In network_dir entries
         /\ path_is_dir H network_dir = Ret true
         /\ path_exists H (path_join H network_dir "docker-compose.yml") = Ret true
         /\ path_name H network_dir = n).
Proof.
  intros Hhome Hexists Hiter Hfind.
  unfold find_polar_networks in Hfind.
  rewrite Hhome in Hfind. simpl in Hfind. rewrite Hexists in Hfind. simpl in Hfind.
  rewrite Hiter in Hfind. simpl in Hfind.
  exact (scan_networks_in H entries networks n Hfind).
Qed.

Lemma find_polar_networks_members_witness :
  find_polar_networks polar_host = Ret ["1"] /\ In "1" ["1"].
Proof.
  split; [reflexivity |].
  refine (proj2 (find_polar_networks_members polar_host "/home/u/.polar"
                   ["/home/u/.polar/networks/1"] ["1"] "1" _ _ _ _) _).
  - reflexivity.
  - reflexivity.
  - reflexivity.
  - reflexivity.
  - exists "/home/u/.polar/networks/1". repeat split. left. reflexivity.
Defined.
